(** * Discogs Enhanced sensor platform: a shallow embedding of
      [custom_components/discogs_enhanced/sensor.py] and the properties
      its specification states about it.

    Python values are embedded as data: a [str] is a list of Unicode code
    points, a [float] is an IEEE 754 binary64 number ([spec_float] with
    precision 53 and maximal exponent 1024), a [dict] keyed by literal
    names is a [gmap string _], a JSON object is an association list.
    Remote calls (the Discogs client, [requests.get], the pseudo-random
    generator) are inputs of the model: a record says what each call
    returns or raises. Logging changes no value and is left out; the
    attribute reads made for a log line are kept, since they can raise. *)

From Stdlib Require Import ZArith NArith List String Ascii Bool Lia SpecFloat.
From stdpp Require Import gmap strings.
Import ListNotations.

Set Warnings "-register-all".
Set Default Proof Using "Type".

Local Open Scope Z_scope.

(** ** Python strings *)

(** A Python [str] is a sequence of code points. *)
Definition pystr := list N.

(** An ASCII literal of the source as a [pystr]. *)
Definition str (s : string) : pystr :=
  map N_of_ascii (list_ascii_of_string s).

(** [a == b] on strings *)
Fixpoint pystr_eqb (a b : pystr) : bool :=
  match a, b with
  | [], [] => true
  | x :: a', y :: b' => (x =? y)%N && pystr_eqb a' b'
  | _, _ => false
  end.

Definition chr_comma : N := 44.
Definition chr_dot : N := 46.
Definition chr_euro : N := 8364.
Definition chr_emdash : N := 8212.

Definition is_ascii (c : N) : bool := (c <? 128)%N.

Definition ascii_decimal (c : N) : option N :=
  if ((48 <=? c) && (c <=? 57))%N then Some (c - 48)%N else None.

Definition ascii_lower (c : N) : N :=
  if ((65 <=? c) && (c <=? 90))%N then (c + 32)%N else c.

(** ** IEEE 754 binary64, the Python [float] *)

Module Float.

Definition prec : Z := 53.
Definition emax : Z := 1024.

Definition mul : spec_float -> spec_float -> spec_float := SFmul prec emax.
Definition div : spec_float -> spec_float -> spec_float := SFdiv prec emax.

(** The correctly rounded (to nearest, ties to even) binary64 value of
    the decimal [n / 10^k], for [0 <= n]: what [float()] returns for a
    string of digits [n] with [k] of them after the point. The division
    core takes integers of any size and leaves enough digits to round. *)
Definition of_decimal (n : Z) (k : Z) : spec_float :=
  match n with
  | Zpos _ =>
      let '(q, e, l) := SFdiv_core_binary prec emax n 0 (10 ^ k) 0 in
      binary_round_aux prec emax false q e l
  | _ => S754_zero false
  end.

(** The float written [1000.0] in the source. *)
Definition thousand : spec_float := S754_finite false 8796093022208000 (-43).

(** The binary64 number whose value is the integer [n], for
    [0 <= n < 2^53]: mantissa [n * 2^(53 - d)], exponent [d - 53], where
    [d] is the number of binary digits of [n]. *)
Definition of_Z (n : Z) : spec_float :=
  match n with
  | Zpos p =>
      let d := Zpos (digits2_pos p) in
      S754_finite false (Z.to_pos (n * 2 ^ (prec - d))) (d - prec)
  | _ => S754_zero false
  end.

(** Where the fraction [A / B] lies between its floor and the next
    integer: on the floor, below, at or above the half. *)
Definition location_of (A B : Z) : location :=
  if A mod B =? 0 then loc_Exact else loc_Inexact (2 * (A mod B) ?= B).

(** The integer nearest to [A / B], the even one on a tie. *)
Definition round_half_even (A B : Z) : Z :=
  round_nearest_even (A / B) (location_of A B).

(** The floor of [A / B] with its round and sticky bits. *)
Definition record_of (A B : Z) : shr_record :=
  shr_record_of_loc (A / B) (location_of A B).

End Float.

(** ** Exceptions and remote results *)

Inductive exn :=
  | DiscogsHTTPError   (* discogs_client.exceptions.HTTPError *)
  | RequestException   (* requests.exceptions.RequestException and subclasses *)
  | JSONDecodeError    (* json.JSONDecodeError *)
  | OtherException     (* any other subclass of Exception *)
  | NonException.      (* a BaseException outside Exception, e.g. KeyboardInterrupt *)

Inductive result (A : Type) :=
  | Ok (a : A)
  | Raise (e : exn).
Arguments Ok {A} a.
Arguments Raise {A} e.

(** ** Remote data *)

(** One entry of a release's ['formats'] list; [None] is an absent
    ['name'] key. *)
Record format_entry := { fmt_name : option pystr }.

Record artist_entry := { artist_name : option pystr }.

(** The [data] dict of a release, by the keys the module reads; [None] is
    an absent key. *)
Record release_data := {
  formats : option (list format_entry);
  artists : option (list artist_entry);
  title : option pystr;
}.

(** A collection folder of the client library: its [count] field and its
    paginated [releases]. Entry [i] of [releases] is the data of item [i],
    or the exception that fetching its page raises. *)
Record CollectionFolder := {
  count : Z;
  releases : list (result release_data);
}.

(** Python values held in the snapshot and in JSON responses. *)
Inductive value :=
  | VNone
  | VBool (b : bool)
  | VInt (z : Z)
  | VFloat (f : spec_float)
  | VStr (s : pystr)
  | VList (l : list value)
  | VDict (d : list (pystr * value))
  | VFolders (fs : list CollectionFolder).

(** Truth value of a Python object. *)
Definition truthy (v : value) : bool :=
  match v with
  | VNone => false
  | VBool b => b
  | VInt z => negb (z =? 0)
  | VFloat (S754_zero _) => false
  | VFloat _ => true
  | VStr s => match s with [] => false | _ => true end
  | VList l => match l with [] => false | _ => true end
  | VDict d => match d with [] => false | _ => true end
  | VFolders fs => match fs with [] => false | _ => true end
  end.

(** [d.get(k)] on a JSON object. *)
Fixpoint dict_get (d : list (pystr * value)) (k : pystr) : option value :=
  match d with
  | [] => None
  | (k', v) :: d' => if pystr_eqb k' k then Some v else dict_get d' k
  end.

(** ** Sensor descriptions (lines 32-105) *)

Definition ICON_RECORD : string := "mdi:album".
Definition ICON_PLAYER : string := "mdi:record-player".
Definition ICON_CASH : string := "mdi:cash".
Definition UNIT_RECORDS : string := "records".

Definition SENSOR_COLLECTION_TYPE : string := "collection".
Definition SENSOR_WANTLIST_TYPE : string := "wantlist".
Definition SENSOR_RANDOM_RECORD_TYPE : string := "random_record".
Definition SENSOR_COLLECTION_VALUE_MIN_TYPE : string := "collection_value_min".
Definition SENSOR_COLLECTION_VALUE_MEDIAN_TYPE : string := "collection_value_median".
Definition SENSOR_COLLECTION_VALUE_MAX_TYPE : string := "collection_value_max".
Definition SENSOR_VINYL_COUNT_TYPE : string := "vinyl_count".
Definition SENSOR_CD_COUNT_TYPE : string := "cd_count".

Record SensorEntityDescription := {
  key : string;
  name : string;
  icon : string;
  native_unit_of_measurement : option string;
}.

Definition SENSOR_TYPES : list SensorEntityDescription := [
  {| key := SENSOR_COLLECTION_TYPE; name := "Collection";
     icon := ICON_RECORD; native_unit_of_measurement := Some UNIT_RECORDS |};
  {| key := SENSOR_WANTLIST_TYPE; name := "Wantlist";
     icon := ICON_RECORD; native_unit_of_measurement := Some UNIT_RECORDS |};
  {| key := SENSOR_RANDOM_RECORD_TYPE; name := "Random Record";
     icon := ICON_PLAYER; native_unit_of_measurement := None |};
  {| key := SENSOR_COLLECTION_VALUE_MIN_TYPE; name := "Collection Value (Min)";
     icon := ICON_CASH; native_unit_of_measurement := None |};
  {| key := SENSOR_COLLECTION_VALUE_MEDIAN_TYPE; name := "Collection Value (Median)";
     icon := ICON_CASH; native_unit_of_measurement := None |};
  {| key := SENSOR_COLLECTION_VALUE_MAX_TYPE; name := "Collection Value (Max)";
     icon := ICON_CASH; native_unit_of_measurement := None |};
  {| key := SENSOR_VINYL_COUNT_TYPE; name := "Vinyl Records";
     icon := ICON_RECORD; native_unit_of_measurement := Some UNIT_RECORDS |};
  {| key := SENSOR_CD_COUNT_TYPE; name := "CDs";
     icon := ICON_RECORD; native_unit_of_measurement := Some UNIT_RECORDS |}
].

Definition SENSOR_KEYS : list string := map key SENSOR_TYPES.

(** [key in [MIN, MEDIAN, MAX]] (lines 298-302 and 374-378) *)
Definition is_value_key (k : string) : bool :=
  (k =? SENSOR_COLLECTION_VALUE_MIN_TYPE)%string
  || (k =? SENSOR_COLLECTION_VALUE_MEDIAN_TYPE)%string
  || (k =? SENSOR_COLLECTION_VALUE_MAX_TYPE)%string.

(** ** The sensor entity (class [DiscogsSensor]) *)

(** [_discogs_data] is the snapshot dict built by setup; every sensor
    holds a reference to the same dict, and no method writes to it.
    [_attrs] is [None] for the initial [{}] and otherwise the [data] of
    the last fetched release. *)
Record DiscogsSensor := {
  entity_description : SensorEntityDescription;
  _discogs_data : gmap string value;
  _attrs : option release_data;
  _attr_name : pystr;
  _attr_native_unit_of_measurement : option value;
  _attr_native_value : value;
}.

Definition set_native_value (self : DiscogsSensor) (v : value) : DiscogsSensor :=
  {| entity_description := entity_description self;
     _discogs_data := _discogs_data self;
     _attrs := _attrs self;
     _attr_name := _attr_name self;
     _attr_native_unit_of_measurement := _attr_native_unit_of_measurement self;
     _attr_native_value := v |}.

Definition set_attrs (self : DiscogsSensor) (a : release_data) : DiscogsSensor :=
  {| entity_description := entity_description self;
     _discogs_data := _discogs_data self;
     _attrs := Some a;
     _attr_name := _attr_name self;
     _attr_native_unit_of_measurement := _attr_native_unit_of_measurement self;
     _attr_native_value := _attr_native_value self |}.

(** [self] holding a reference to the snapshot [d] instead of its own. *)
Definition on_snapshot (self : DiscogsSensor) (d : gmap string value) : DiscogsSensor :=
  {| entity_description := entity_description self;
     _discogs_data := d;
     _attrs := _attrs self;
     _attr_name := _attr_name self;
     _attr_native_unit_of_measurement := _attr_native_unit_of_measurement self;
     _attr_native_value := _attr_native_value self |}.

(** [DiscogsSensor.__init__] (lines 287-305); a snapshot without
    ['currency_symbol'] raises [KeyError]. *)
Definition DiscogsSensor_init (discogs_data : gmap string value) (name_ : pystr)
    (description : SensorEntityDescription) : result DiscogsSensor :=
  let self := {|
    entity_description := description;
    _discogs_data := discogs_data;
    _attrs := None;
    _attr_name := name_ ++ str " " ++ str (name description);
    _attr_native_unit_of_measurement := None;
    _attr_native_value := VNone |} in
  if is_value_key (key description) then
    match discogs_data !! "currency_symbol" with
    | Some c =>
        Ok {| entity_description := description;
              _discogs_data := discogs_data;
              _attrs := None;
              _attr_name := _attr_name self;
              _attr_native_unit_of_measurement := Some c;
              _attr_native_value := VNone |}
    | None => Raise OtherException
    end
  else Ok self.

(** [device_class] (lines 276-285) *)
Definition device_class (self : DiscogsSensor) : option string :=
  if is_value_key (key (entity_description self)) then Some "monetary"%string
  else None.

(** ** Inputs of setup *)

(** The [User] object returned by [Client.identity()]. Its fields are
    fetched on first read, so a read can raise; [curr_abbr] and [data] are
    [None] when [hasattr] is false. *)
Module Identity.
Record t := {
  name : result value;
  username : result value;
  collection_folders : result (list CollectionFolder);
  num_collection : result Z;
  num_wantlist : result Z;
  curr_abbr : option value;
  data : option value;
}.
End Identity.

(** The validated platform configuration. *)
Record ConfigType := {
  CONF_TOKEN : pystr;
  CONF_NAME : pystr;
  CONF_MONITORED_CONDITIONS : list string;
}.

(** What the remote calls of one setup return: [Client.identity()], and
    the decoded body of the GET to [.../collection/value]
    ([requests.get], [raise_for_status] and [response.json()] together). *)
Record Remote := {
  identity : result Identity.t;
  collection_value : result value;
}.

(** Remote calls made, oldest first. *)
Inductive call :=
  | CallIdentity
  | CallCollectionValue
  | CallReleases.

(** The local variables of [setup_platform]. *)
Record frame := {
  discogs_data : gmap string value;
  collection_value_min_str : value;
  collection_value_median_str : value;
  collection_value_max_str : value;
  currency_symbol : value;
  discogs_identity : option Identity.t;
  calls : list call;
}.

(** How a block of [setup_platform] ends. *)
Inductive control :=
  | Continue
  | Return
  | Escape (e : exn).

(** How [setup_platform] ends: [add_entities(entities, True)] was called,
    it returned without calling it, or an exception left it. *)
Inductive outcome :=
  | Added (entities : list DiscogsSensor)
  | Aborted
  | Escaped (e : exn).

(** Assignments to the local variables. *)
Definition set_discogs_data (f : gmap string value -> gmap string value)
    (s : frame) : frame :=
  {| discogs_data := f (discogs_data s);
     collection_value_min_str := collection_value_min_str s;
     collection_value_median_str := collection_value_median_str s;
     collection_value_max_str := collection_value_max_str s;
     currency_symbol := currency_symbol s;
     discogs_identity := discogs_identity s;
     calls := calls s |}.

Definition set_value_strs (vmin vmedian vmax : value) (s : frame) : frame :=
  {| discogs_data := discogs_data s;
     collection_value_min_str := vmin;
     collection_value_median_str := vmedian;
     collection_value_max_str := vmax;
     currency_symbol := currency_symbol s;
     discogs_identity := discogs_identity s;
     calls := calls s |}.

Definition set_currency_symbol (c : value) (s : frame) : frame :=
  {| discogs_data := discogs_data s;
     collection_value_min_str := collection_value_min_str s;
     collection_value_median_str := collection_value_median_str s;
     collection_value_max_str := collection_value_max_str s;
     currency_symbol := c;
     discogs_identity := discogs_identity s;
     calls := calls s |}.

Definition set_discogs_identity (i : Identity.t) (s : frame) : frame :=
  {| discogs_data := discogs_data s;
     collection_value_min_str := collection_value_min_str s;
     collection_value_median_str := collection_value_median_str s;
     collection_value_max_str := collection_value_max_str s;
     currency_symbol := currency_symbol s;
     discogs_identity := Some i;
     calls := calls s |}.

Definition add_call (c : call) (s : frame) : frame :=
  {| discogs_data := discogs_data s;
     collection_value_min_str := collection_value_min_str s;
     collection_value_median_str := collection_value_median_str s;
     collection_value_max_str := collection_value_max_str s;
     currency_symbol := currency_symbol s;
     discogs_identity := discogs_identity s;
     calls := calls s ++ [c] |}.

(** Statements of a [try] block: they read and write the local variables
    and may raise; what was written before a raise stays written. *)
Definition M (A : Type) : Type := frame -> result A * frame.

Definition bind {A B} (m : M A) (k : A -> M B) : M B :=
  fun s =>
    match m s with
    | (Ok a, s') => k a s'
    | (Raise e, s') => (Raise e, s')
    end.

Definition lift {A} (r : result A) : M A := fun s => (r, s).

Definition modify (f : frame -> frame) : M unit := fun s => (Ok tt, f s).

Declare Scope setup_scope.
Delimit Scope setup_scope with setup.
Notation "'let!' x ':=' m 'in' k" := (bind m (fun x => k))
  (at level 10, x name, m at level 99, k at level 200) : setup_scope.
Notation "'run' m ;; k" := (bind m (fun _ => k))
  (at level 10, m at level 99, k at level 200) : setup_scope.

(** [discogs_data[k] = v] *)
Definition assign (k : string) (v : value) : M unit :=
  modify (set_discogs_data (insert k v)).

(** [discogs_data[k] = x] for a local variable [x] *)
Definition assign_local (k : string) (x : frame -> value) : M unit :=
  modify (fun s => set_discogs_data (insert k (x s)) s).

(** A property of the local variables that a statement keeps, whether it
    completes or raises. *)
Definition invariant {A} (P : frame -> Prop) (m : M A) : Prop :=
  forall s, P s -> P (snd (m s)).

(** ** The platform

    [\d] in a [str] pattern and [float()] accept every Unicode decimal
    digit, and [str.lower] is defined on all of Unicode. On ASCII they are
    written out; the tables for the other code points belong to the
    interpreter and are parameters, as is the pseudo-random generator. *)

Section Platform.

(** *** Strings and numbers *)

(** [unicodedata.decimal(c, None)] for a code point [c >= 128]. *)
Variable nonascii_decimal : N -> option N.
(** [s.lower()] for a string [s] that holds a code point [>= 128]. *)
Variable nonascii_lower : pystr -> pystr.

Definition decimal (c : N) : option N :=
  if is_ascii c then ascii_decimal c else nonascii_decimal c.

Definition isdecimal (c : N) : bool :=
  match decimal c with Some _ => true | None => false end.

(** [s.lower()] *)
Definition lower (s : pystr) : pystr :=
  if forallb is_ascii s then map ascii_lower s else nonascii_lower s.

(** [s.replace(',', '')] *)
Definition replace_comma (s : pystr) : pystr :=
  List.filter (fun c => negb (c =? chr_comma)%N) s.

(** [re.sub(r'[^\d.]', '', s)] *)
Definition sub_non_numeric (s : pystr) : pystr :=
  List.filter (fun c => isdecimal c || (c =? chr_dot)%N) s.

(** [re.sub(r'[^\d.]', '', value_str.replace(',', ''))] (line 390) *)
Definition clean (value_str : pystr) : pystr :=
  sub_non_numeric (replace_comma value_str).

(** The digits of [s] up to its first point, read in base ten onto [acc],
    and what follows that point ([None] when there is no point); [None]
    when a code point is neither a decimal digit nor the point. *)
Fixpoint read_digits (s : pystr) (acc : Z) (len : Z)
  : option (Z * Z * option pystr) :=
  match s with
  | [] => Some (acc, len, None)
  | c :: s' =>
      if (c =? chr_dot)%N then Some (acc, len, Some s')
      else match decimal c with
           | Some d => read_digits s' (10 * acc + Z.of_N d) (len + 1)
           | None => None
           end
  end.

(** The decimal a numeric string denotes, as [(n, k)] for [n / 10^k]:
    digits, at most one point, and at least one digit in all. [None] is
    the [ValueError] of [float()]. *)
Definition decimal_of_str (s : pystr) : option (Z * Z) :=
  match read_digits s 0 0 with
  | Some (n, _, None) => match s with [] => None | _ => Some (n, 0) end
  | Some (i, li, Some frac) =>
      match read_digits frac i 0 with
      | Some (n, lf, None) =>
          if (li + lf =? 0) then None else Some (n, lf)
      | _ => None
      end
  | None => None
  end.

(** [float(s)] for a string of digits and points. *)
Definition float_of_str (s : pystr) : option spec_float :=
  match decimal_of_str s with
  | Some (n, k) => Some (Float.of_decimal n k)
  | None => None
  end.

(** [random.randrange(n)] on a generator state, for [0 < n]: the draw, in
    [0, n), and the next state. *)
Variable rng : Type.
Variable randrange : rng -> Z -> Z * rng.

(** *** [DiscogsSensor.get_random_record] and [DiscogsSensor.update] *)

(** What one call of [update] leaves behind: the sensor, the exception
    that left the method if any, the generator, and the index of the
    release requested from the remote collection, if one was. *)
Record poll := {
  poll_sensor : DiscogsSensor;
  poll_raised : option exn;
  poll_rng : rng;
  poll_fetched : option Z;
}.

(** [str(x)] inside the f-string of line 354 *)
Definition format_opt (o : option pystr) : pystr :=
  match o with Some s => s | None => str "None" end.

(** [collection.releases[i]]: an index outside the list is an
    [IndexError]. *)
Definition releases_getitem (collection : CollectionFolder) (i : Z)
  : result release_data :=
  if (i <? 0) then Raise OtherException
  else match nth_error (releases collection) (Z.to_nat i) with
       | Some r => r
       | None => Raise OtherException
       end.

(** Lines 351-354: the returned ["artist - title"] string. *)
Definition record_label (attrs : release_data) : pystr :=
  let artist :=
    match artists attrs with
    | Some (a :: _) => format_opt (artist_name a)
    | _ => str "Unknown Artist"
    end in
  let title_ :=
    match title attrs with Some t => t | None => str "Unknown Title" end in
  artist ++ str " - " ++ title_.

(** [get_random_record] (lines 341-356): the returned value and the
    state left behind; the sensor of the result is [self] with [_attrs]
    possibly replaced. *)
Definition get_random_record (self : DiscogsSensor) (g : rng)
  : result value * poll :=
  let stay e := {| poll_sensor := self; poll_raised := e;
                   poll_rng := g; poll_fetched := None |} in
  match _discogs_data self !! "folders" with
  | None => (Raise OtherException, stay (Some OtherException))
  | Some (VFolders (collection :: _)) =>
      if (0 <? count collection) then
        let '(random_index, g') := randrange g (count collection) in
        match releases_getitem collection random_index with
        | Ok random_record =>
            (Ok (VStr (record_label random_record)),
             {| poll_sensor := set_attrs self random_record;
                poll_raised := None;
                poll_rng := g';
                poll_fetched := Some random_index |})
        | Raise e =>
            (Raise e,
             {| poll_sensor := self; poll_raised := Some e;
                poll_rng := g'; poll_fetched := Some random_index |})
        end
      else (Ok VNone, stay None)
  | Some v =>
      if truthy v then (Raise OtherException, stay (Some OtherException))
      else (Ok VNone, stay None)
  end.

(** [key_map] of lines 379-383 *)
Definition key_map : gmap string string :=
  {[ SENSOR_COLLECTION_VALUE_MIN_TYPE := "collection_value_min"%string;
     SENSOR_COLLECTION_VALUE_MEDIAN_TYPE := "collection_value_median"%string;
     SENSOR_COLLECTION_VALUE_MAX_TYPE := "collection_value_max"%string ]}.

(** Lines 387-411: the native value computed from [value_str]. *)
Definition parse_value (value_str : option value) : value :=
  match value_str with
  | Some (VStr (c :: s)) =>
      let numeric_value_str := clean (c :: s) in
      match numeric_value_str with
      | [] => VNone
      | _ =>
          match float_of_str numeric_value_str with
          | Some raw_value =>
              let inflated_value := Float.mul raw_value Float.thousand in
              VFloat (Float.div inflated_value Float.thousand)
          | None => VNone
          end
      end
  | _ => VNone
  end.

(** [update] (lines 358-413) *)
Definition update (self : DiscogsSensor) (g : rng) : poll :=
  let k := key (entity_description self) in
  let d := _discogs_data self in
  let done_ v := {| poll_sensor := set_native_value self v; poll_raised := None;
                    poll_rng := g; poll_fetched := None |} in
  let fail := {| poll_sensor := self; poll_raised := Some OtherException;
                 poll_rng := g; poll_fetched := None |} in
  let subscript name_ :=
    match d !! name_ with Some v => done_ v | None => fail end in
  let get name_ default :=
    match d !! name_ with Some v => done_ v | None => done_ default end in
  if (k =? SENSOR_COLLECTION_TYPE)%string then subscript "collection_count"%string
  else if (k =? SENSOR_WANTLIST_TYPE)%string then subscript "wantlist_count"%string
  else if (k =? SENSOR_VINYL_COUNT_TYPE)%string then get SENSOR_VINYL_COUNT_TYPE (VInt 0)
  else if (k =? SENSOR_CD_COUNT_TYPE)%string then get SENSOR_CD_COUNT_TYPE (VInt 0)
  else if is_value_key k then
    match key_map !! k with
    | Some data_key => done_ (parse_value (d !! data_key))
    | None => fail
    end
  else
    match get_random_record self g with
    | (Ok v, p) =>
        {| poll_sensor := set_native_value (poll_sensor p) v;
           poll_raised := None;
           poll_rng := poll_rng p;
           poll_fetched := poll_fetched p |}
    | (Raise _, p) => p
    end.

(** *** [setup_platform] (lines 118-267) *)

(** Lines 132-156: the defaults and the initial snapshot. *)
Definition initial_frame : frame :=
  let collection_value_min_str := VStr (str "0.00") in
  let collection_value_median_str := VStr (str "0.00") in
  let collection_value_max_str := VStr (str "0.00") in
  let currency_symbol := VStr (str "$") in
  let vinyl_count := VInt 0 in
  let cd_count := VInt 0 in
  {| discogs_data :=
       <[SENSOR_CD_COUNT_TYPE := cd_count]>
       (<[SENSOR_VINYL_COUNT_TYPE := vinyl_count]>
       (<["currency_symbol"%string := currency_symbol]>
       (<["collection_value_max"%string := collection_value_max_str]>
       (<["collection_value_median"%string := collection_value_median_str]>
       (<["collection_value_min"%string := collection_value_min_str]>
       (<["wantlist_count"%string := VInt 0]>
       (<["collection_count"%string := VInt 0]>
       (<["folders"%string := VFolders []]>
       (<["user"%string := VStr (str "Unknown")]> ∅)))))))));
     collection_value_min_str := collection_value_min_str;
     collection_value_median_str := collection_value_median_str;
     collection_value_max_str := collection_value_max_str;
     currency_symbol := currency_symbol;
     discogs_identity := None;
     calls := [] |}.

(** Lines 170-175: the currency symbol after the identity was read. *)
Definition resolve_currency (discogs_identity : Identity.t)
    (currency_symbol : value) : value :=
  match Identity.curr_abbr discogs_identity with
  | Some a =>
      if truthy a then a
      else
        match Identity.data discogs_identity with
        | Some (VDict d) =>
            match dict_get d (str "curr_abbr") with
            | Some v => if truthy v then v else currency_symbol
            | None => currency_symbol
            end
        | _ => currency_symbol
        end
  | None =>
      match Identity.data discogs_identity with
      | Some (VDict d) =>
          match dict_get d (str "curr_abbr") with
          | Some v => if truthy v then v else currency_symbol
          | None => currency_symbol
          end
      | _ => currency_symbol
      end
  end.

(** [raw.get(k, "0.00")] *)
Definition get_or_default (raw : list (pystr * value)) (k : string) : value :=
  match dict_get raw (str k) with
  | Some v => v
  | None => VStr (str "0.00")
  end.

(** Lines 183-206: the inner [try] around the collection value request. *)
Definition fetch_collection_value (w : Remote) : M unit :=
  fun s =>
    let s := add_call CallCollectionValue s in
    match collection_value w with
    | Ok (VDict (kv :: raw)) =>
        (Ok tt,
         set_value_strs (get_or_default (kv :: raw) "minimum")
                        (get_or_default (kv :: raw) "median")
                        (get_or_default (kv :: raw) "maximum") s)
    | Ok _ => (Ok tt, s)
    | Raise RequestException => (Ok tt, s)
    | Raise JSONDecodeError => (Ok tt, s)
    | Raise e => (Raise e, s)
    end.

Local Open Scope setup_scope.

(** [_discogs_client.identity()] (line 160) *)
Definition call_identity (w : Remote) : M Identity.t :=
  fun s => (identity w, add_call CallIdentity s).

(** Lines 159-211: the body of the outer [try]. The log line 161 reads
    [name] and [username] before anything is stored; the URL of line 179
    reads [username] again, from the object's cache. *)
Definition fetch_identity_and_value (w : Remote) : M unit :=
  let! discogs_identity := call_identity w in
  run modify (set_discogs_identity discogs_identity) ;;
  run lift (Identity.name discogs_identity) ;;
  run lift (Identity.username discogs_identity) ;;
  let! name_ := lift (Identity.name discogs_identity) in
  run assign "user" name_ ;;
  let! folders := lift (Identity.collection_folders discogs_identity) in
  run assign "folders" (VFolders folders) ;;
  let! num_collection := lift (Identity.num_collection discogs_identity) in
  run assign "collection_count" (VInt num_collection) ;;
  let! num_wantlist := lift (Identity.num_wantlist discogs_identity) in
  run assign "wantlist_count" (VInt num_wantlist) ;;
  run modify (fun s =>
    set_currency_symbol (resolve_currency discogs_identity (currency_symbol s)) s) ;;
  run assign_local "currency_symbol" currency_symbol ;;
  run fetch_collection_value w ;;
  run assign_local "collection_value_min" collection_value_min_str ;;
  run assign_local "collection_value_median" collection_value_median_str ;;
  assign_local "collection_value_max" collection_value_max_str.

(** The handlers of an outer [try] (lines 213-217): a Discogs [HTTPError]
    returns from setup, any other [Exception] is logged and setup goes on,
    and what is not an [Exception] leaves setup. *)
Definition identity_and_value_block (w : Remote) (s : frame) : control * frame :=
  match fetch_identity_and_value w s with
  | (Ok _, s') => (Continue, s')
  | (Raise DiscogsHTTPError, s') => (Return, s')
  | (Raise NonException, s') => (Escape NonException, s')
  | (Raise _, s') => (Continue, s')
  end.

(** Lines 232-242: one turn of the loop over the releases. *)
Definition classify (release_data_ : release_data)
    (current_vinyl_count current_cd_count : Z) : Z * Z :=
  match formats release_data_ with
  | Some (first :: _) =>
      match fmt_name first with
      | Some (c :: n) =>
          let primary_format := c :: n in
          if pystr_eqb (lower primary_format) (str "vinyl") then
            (current_vinyl_count + 1, current_cd_count)
          else if pystr_eqb (lower primary_format) (str "cd") then
            (current_vinyl_count, current_cd_count + 1)
          else (current_vinyl_count, current_cd_count)
      | _ => (current_vinyl_count, current_cd_count)
      end
  | _ => (current_vinyl_count, current_cd_count)
  end.

(** Lines 231-242: the loop; it ends with the counters, or with the
    exception of the first page that cannot be fetched. *)
Fixpoint count_formats (items : list (result release_data))
    (current_vinyl_count current_cd_count : Z) : result (Z * Z) :=
  match items with
  | [] => Ok (current_vinyl_count, current_cd_count)
  | Ok release_data_ :: items' =>
      let '(v, c) := classify release_data_ current_vinyl_count current_cd_count in
      count_formats items' v c
  | Raise e :: _ => Raise e
  end.

(** Lines 222-256: the [try] of the format counting. Without a first
    folder only a warning is logged; an exception raised in the loop
    leaves the block before the counters are stored. *)
Definition format_count_block (s : frame) : control * frame :=
  match discogs_data s !! "folders" with
  | Some (VFolders (main_folder :: _)) =>
      let s := add_call CallReleases s in
      match count_formats (releases main_folder) 0 0 with
      | Ok (current_vinyl_count, current_cd_count) =>
          (Continue,
           set_discogs_data
             (fun d => <[SENSOR_CD_COUNT_TYPE := VInt current_cd_count]>
                       (<[SENSOR_VINYL_COUNT_TYPE := VInt current_vinyl_count]> d)) s)
      | Raise NonException => (Escape NonException, s)
      | Raise _ => (Continue, s)
      end
  | _ => (Continue, s)
  end.

(** Lines 220-257: the format counting, behind its guard. *)
Definition format_count_step (s : frame) : control * frame :=
  match discogs_identity s, discogs_data s !! "collection_count" with
  | None, _ => (Continue, s)
  | Some _, Some (VInt n) =>
      if (0 <? n) then format_count_block s else (Continue, s)
  | Some _, _ => (Escape OtherException, s)
  end.

(** Lines 130-257: everything before the entities are made. *)
Definition build_snapshot (w : Remote) : control * frame :=
  match identity_and_value_block w initial_frame with
  | (Continue, s) => format_count_step s
  | other => other
  end.

(** Lines 261-265: the list comprehension creating the entities. *)
Fixpoint make_entities (d : gmap string value) (name_ : pystr)
    (monitored_conditions : list string)
    (types : list SensorEntityDescription) : result (list DiscogsSensor) :=
  match types with
  | [] => Ok []
  | description :: types' =>
      if existsb (String.eqb (key description)) monitored_conditions then
        match DiscogsSensor_init d name_ description with
        | Ok e =>
            match make_entities d name_ monitored_conditions types' with
            | Ok es => Ok (e :: es)
            | Raise x => Raise x
            end
        | Raise x => Raise x
        end
      else make_entities d name_ monitored_conditions types'
  end.

Definition setup_platform (config : ConfigType) (w : Remote) : outcome :=
  let name_ := CONF_NAME config in
  match build_snapshot w with
  | (Continue, s) =>
      let monitored_conditions := CONF_MONITORED_CONDITIONS config in
      match make_entities (discogs_data s) name_ monitored_conditions SENSOR_TYPES with
      | Ok entities => Added entities
      | Raise e => Escaped e
      end
  | (Return, _) => Aborted
  | (Escape e, _) => Escaped e
  end.

Local Close Scope setup_scope.

(** *** The statements of the specification, in its own words *)

(** [s] is [t] with thousands separators and currency symbols put in:
    commas, and code points that are neither decimal digits nor the
    decimal point. *)
Inductive decorated : pystr -> pystr -> Prop :=
  | decorated_nil : decorated [] []
  | decorated_keep c s t : decorated s t -> decorated (c :: s) (c :: t)
  | decorated_comma s t : decorated s t -> decorated (chr_comma :: s) t
  | decorated_symbol c s t :
      isdecimal c = false -> c <> chr_dot ->
      decorated s t -> decorated (c :: s) t.

(** Valuation parsing without the round trip through a thousandfold:
    clean the string, parse it as a decimal number. *)
Definition parse_value_direct (value_str : option value) : value :=
  match value_str with
  | Some (VStr (c :: s)) =>
      match clean (c :: s) with
      | [] => VNone
      | numeric =>
          match float_of_str numeric with
          | Some raw_value => VFloat raw_value
          | None => VNone
          end
      end
  | _ => VNone
  end.

(** The name of the first entry of an item's format list. *)
Definition first_format_name (item : release_data) : option pystr :=
  match formats item with
  | Some (first :: _) => fmt_name first
  | _ => None
  end.

(** A format name matches [word] case-insensitively. *)
Definition matches (word : string) (name_ : option pystr) : bool :=
  match name_ with
  | Some n => pystr_eqb (lower n) (lower (str word))
  | None => false
  end.

(** The number of items whose first format name matches [word]. *)
Definition count_matching (word : string) (items : list release_data) : Z :=
  Z.of_nat (length (List.filter (fun item => matches word (first_format_name item)) items)).

(** The sensors that [update] calls reach from [self], whatever the
    generator states. *)
Inductive polled (self : DiscogsSensor) : DiscogsSensor -> Prop :=
  | polled_refl : polled self self
  | polled_step self' g :
      polled self self' -> polled self (poll_sensor (update self' g)).

End Platform.

Arguments poll_sensor {rng} p.
Arguments poll_raised {rng} p.
Arguments poll_rng {rng} p.
Arguments poll_fetched {rng} p.

(** Currency resolution as the specification words it: the attribute
    when present, else the key of the raw data map when present, else
    the fallback. *)
Definition currency_by_presence (i : Identity.t) : value :=
  match Identity.curr_abbr i with
  | Some a => a
  | None =>
      match Identity.data i with
      | Some (VDict d) =>
          match dict_get d (str "curr_abbr") with
          | Some v => v
          | None => VStr (str "$")
          end
      | _ => VStr (str "$")
      end
  end.

(** ** Instances of the parameters and sample inputs *)

(** Tables of an interpreter that knows no digit outside ASCII and
    leaves other strings as they are. *)
Definition no_decimal : N -> option N := fun _ => None.
Definition no_lower : pystr -> pystr := fun s => s.

(** A generator whose state is a counter. *)
Definition counter_randrange (g : Z) (n : Z) : Z * Z := (g mod n, g + 1).

Definition sample_valuation : pystr := chr_euro :: str "1,792,790.00".
Definition sample_symbol_only : pystr := [chr_emdash].
Definition sample_four_decimals : pystr := str "0.0131".

Definition description_of (k : string) : SensorEntityDescription :=
  {| key := k; name := "Sample"; icon := ICON_CASH;
     native_unit_of_measurement := None |}.

(** A sensor of kind [k] on the snapshot [d]. *)
Definition sensor_on (k : string) (d : gmap string value) : DiscogsSensor :=
  {| entity_description := description_of k;
     _discogs_data := d;
     _attrs := None;
     _attr_name := str "Discogs Sample";
     _attr_native_unit_of_measurement := None;
     _attr_native_value := VInt 7 |}.

Definition item_of_format (n : string) : release_data :=
  {| formats := Some [ {| fmt_name := Some (str n) |} ];
     artists := None; title := None |}.

Definition sample_items : list release_data :=
  map item_of_format ["Vinyl"; "CD"; "vinyl"; "Cassette"]%string.

Definition folder_of_items (n : Z) (items : list release_data) : CollectionFolder :=
  {| count := n; releases := map Ok items |}.

Definition sample_identity (n : Z) (folders : list CollectionFolder)
    (attr : option value) (raw : option value) : Identity.t :=
  {| Identity.name := Ok (VStr (str "Ada"));
     Identity.username := Ok (VStr (str "ada"));
     Identity.collection_folders := Ok folders;
     Identity.num_collection := Ok n;
     Identity.num_wantlist := Ok 2;
     Identity.curr_abbr := attr;
     Identity.data := raw |}.

Definition sample_config : ConfigType :=
  {| CONF_TOKEN := str "token"; CONF_NAME := str "Discogs";
     CONF_MONITORED_CONDITIONS := SENSOR_KEYS |}.

Definition sample_value_response : value :=
  VDict [ (str "minimum", VStr (chr_euro :: str "10.00"));
          (str "median", VStr sample_valuation);
          (str "maximum", VStr (chr_euro :: str "2,000.50")) ].

(** A snapshot with a symbol-only minimum, the sample valuation as
    median, a figure of four decimals as maximum, and one folder of the
    four sample items. *)
Definition sample_snapshot : gmap string value :=
  <["folders"%string := VFolders [folder_of_items 4 sample_items]]>
  (<["collection_value_max"%string := VStr sample_four_decimals]>
  (<["collection_value_median"%string := VStr sample_valuation]>
  (<["collection_value_min"%string := VStr sample_symbol_only]>
  (discogs_data initial_frame)))).

(** The figure of the source's own comment (line 400), as the API
    writes it. *)
Definition sample_cents : pystr := str "$9,501.57".

Definition sample_snapshot_cents : gmap string value :=
  <["collection_value_min"%string := VStr sample_cents]> sample_snapshot.


Definition random_record_description : SensorEntityDescription :=
  {| key := SENSOR_RANDOM_RECORD_TYPE; name := "Random Record";
     icon := ICON_PLAYER; native_unit_of_measurement := None |}.

(** The random-record sensor as [__init__] leaves it. *)
Definition fresh_random_sensor (d : gmap string value) : DiscogsSensor :=
  {| entity_description := random_record_description;
     _discogs_data := d;
     _attrs := None;
     _attr_name := str "Discogs Random Record";
     _attr_native_unit_of_measurement := None;
     _attr_native_value := VNone |}.

(** An account without items. *)
Definition sample_remote_empty : Remote :=
  {| identity := Ok (sample_identity 0 [folder_of_items 0 []] None None);
     collection_value := Ok sample_value_response |}.

(** A token that the API refuses. *)
Definition sample_remote_unauthorized : Remote :=
  {| identity := Raise DiscogsHTTPError;
     collection_value := Raise RequestException |}.

(** An account whose valuation endpoint cannot be reached. *)
Definition sample_remote_value_down : Remote :=
  {| identity :=
       Ok (sample_identity 4 [folder_of_items 4 sample_items] None
             (Some (VDict [(str "curr_abbr", VStr (str "EUR"))])));
     collection_value := Raise RequestException |}.

(** An identity whose [curr_abbr] attribute is there and empty, with the
    currency in the raw data map. *)
Definition identity_with_empty_attribute : Identity.t :=
  sample_identity 0 [] (Some (VStr []))
    (Some (VDict [(str "curr_abbr", VStr (str "EUR"))])).

Definition sample_remote_empty_attribute : Remote :=
  {| identity := Ok identity_with_empty_attribute;
     collection_value := Ok sample_value_response |}.

(** An identity without the attribute, whose raw data map holds an empty
    ['curr_abbr']: an account that has set no currency. *)
Definition identity_with_empty_currency : Identity.t :=
  sample_identity 0 [] None (Some (VDict [(str "curr_abbr", VStr [])])).

Definition sample_remote_empty_currency : Remote :=
  {| identity := Ok identity_with_empty_currency;
     collection_value := Ok sample_value_response |}.

(** An identity with a currency whose wantlist count cannot be read. *)
Definition identity_with_failing_wantlist : Identity.t :=
  {| Identity.name := Ok (VStr (str "Ada"));
     Identity.username := Ok (VStr (str "ada"));
     Identity.collection_folders := Ok [];
     Identity.num_collection := Ok 0;
     Identity.num_wantlist := Raise OtherException;
     Identity.curr_abbr := Some (VStr (str "EUR"));
     Identity.data := None |}.

Definition sample_remote_failing_wantlist : Remote :=
  {| identity := Ok identity_with_failing_wantlist;
     collection_value := Ok sample_value_response |}.

(** The entities setup creates when the valuation endpoint is down. *)
Definition sample_entities : list DiscogsSensor :=
  match setup_platform no_lower sample_config sample_remote_value_down with
  | Added entities => entities
  | _ => []
  end.

Definition sample_entity : DiscogsSensor :=
  hd (fresh_random_sensor sample_snapshot) sample_entities.

(** ** The attributes of a sensor (lines 307-339) *)

Definition ATTR_IDENTITY : string := "identity".

(** One entry of a release's ['labels'] list. *)
Record label_entry := {
  label_name : option pystr;
  catno : option pystr;
}.

(** What the [data] dict of a release holds besides the keys of
    [release_data]: the ['descriptions'] of its first format, its
    ['labels'], ['cover_image'] and ['year'], and whether it has any
    further key (such as ['id']). *)
Record release_details := {
  descriptions : option (list pystr);
  labels : option (list label_entry);
  cover_image : option pystr;
  year : option Z;
  other_keys : bool;
}.

Definition present {A} (o : option A) : bool :=
  match o with Some _ => true | None => false end.

(** Truth value of the dict: it has a key. *)
Definition attrs_truthy (attrs : release_data) (details : release_details) : bool :=
  present (formats attrs) || present (artists attrs) || present (title attrs)
  || present (labels details) || present (cover_image details)
  || present (year details) || other_keys details.

(** [sep.join(parts)] *)
Fixpoint join (sep : pystr) (parts : list pystr) : pystr :=
  match parts with
  | [] => []
  | part :: parts' =>
      match parts' with
      | [] => part
      | _ => part ++ sep ++ join sep parts'
      end
  end.

(** [d.get(k)] as a Python value *)
Definition get_str (o : option pystr) : value :=
  match o with Some s => VStr s | None => VNone end.

Definition get_int (o : option Z) : value :=
  match o with Some z => VInt z | None => VNone end.

(** Lines 317-326: the format string of the cached release. [first_format]
    is [None] for the [{}] that stands in for an absent ['formats']. *)
Definition format_str (first_format : option format_entry)
    (details : release_details) : value :=
  let format_name :=
    match first_format with Some f => fmt_name f | None => None end in
  let descriptions_ :=
    match first_format, descriptions details with
    | Some _, Some l => l
    | _, _ => []
    end in
  match format_name with
  | Some (c :: n) =>
      let format_parts :=
        match descriptions_ with
        | [] => [c :: n]
        | _ => [c :: n; str "(" ++ join (str ", ") descriptions_ ++ str ")"]
        end in
      VStr (join (str " ") format_parts)
  | _ => VNone
  end.

(** [extra_state_attributes] (lines 307-339); [details] is the rest of
    the dict that [self._attrs] holds. A snapshot without ['user'] raises
    [KeyError], and a ['formats'] or ['labels'] list that is there and
    empty raises [IndexError]. *)
Definition extra_state_attributes (self : DiscogsSensor) (details : release_details)
  : result (option (gmap string value)) :=
  match _attr_native_value self with
  | VNone => Ok None
  | _ =>
      match _discogs_data self !! "user" with
      | None => Raise OtherException
      | Some user =>
          let attributes : gmap string value := {[ ATTR_IDENTITY := user ]} in
          let random_attributes (attrs : release_data) :=
            match formats attrs with
            | Some [] => Raise OtherException
            | formats_ =>
                let first_format :=
                  match formats_ with Some (f :: _) => Some f | _ => None end in
                match labels details with
                | Some [] => Raise OtherException
                | labels_ =>
                    let first_label :=
                      match labels_ with Some (l :: _) => Some l | _ => None end in
                    let label_name_ :=
                      match first_label with Some l => label_name l | None => None end in
                    let cat_no :=
                      match first_label with Some l => catno l | None => None end in
                    Ok (Some
                      (<["released"%string := get_int (year details)]>
                      (<["label"%string := get_str label_name_]>
                      (<["format"%string := format_str first_format details]>
                      (<["cover_image"%string := get_str (cover_image details)]>
                      (<["cat_no"%string := get_str cat_no]> attributes))))))
                end
            end in
          if (key (entity_description self) =? SENSOR_RANDOM_RECORD_TYPE)%string then
            match _attrs self with
            | Some attrs =>
                if attrs_truthy attrs details then random_attributes attrs
                else Ok (Some attributes)
            | None => Ok (Some attributes)
            end
          else Ok (Some attributes)
      end
  end.

(** ** Numbers and strings of the valuation *)

(** [f] is a number (not NaN) whose sign bit is clear. *)
Definition nonnegative_number (f : spec_float) : bool :=
  match f with
  | S754_zero s | S754_infinity s | S754_finite s _ _ => negb s
  | S754_nan => false
  end.

Definition count_points (s : pystr) : nat :=
  length (List.filter (fun c => (c =? chr_dot)%N) s).

Definition count_digits (nonascii_decimal : N -> option N) (s : pystr) : nat :=
  length (List.filter (isdecimal nonascii_decimal) s).

(** ** More sample inputs *)

(** An interrupt while the identity is fetched. *)
Definition sample_remote_interrupted : Remote :=
  {| identity := Raise NonException;
     collection_value := Raise RequestException |}.

(** A connection that fails before the identity is there. *)
Definition sample_remote_offline : Remote :=
  {| identity := Raise RequestException;
     collection_value := Raise RequestException |}.

(** A configuration that asks for two kinds, one of them twice and out of
    the order of [SENSOR_TYPES]. *)
Definition sample_config_two : ConfigType :=
  {| CONF_TOKEN := str "token"; CONF_NAME := str "Discogs";
     CONF_MONITORED_CONDITIONS :=
       [SENSOR_CD_COUNT_TYPE; SENSOR_COLLECTION_TYPE; SENSOR_CD_COUNT_TYPE] |}.

(** A folder whose second page of releases cannot be fetched. *)
Definition folder_with_broken_page : CollectionFolder :=
  {| count := 4;
     releases := map Ok (firstn 2 sample_items) ++ [Raise DiscogsHTTPError; Ok (item_of_format "CD")] |}.

Definition sample_remote_broken_page : Remote :=
  {| identity := Ok (sample_identity 4 [folder_with_broken_page] None None);
     collection_value := Ok sample_value_response |}.

(** An account with the four sample items. *)
Definition sample_remote_four : Remote :=
  {| identity := Ok (sample_identity 4 [folder_of_items 4 sample_items] None None);
     collection_value := Ok sample_value_response |}.

(** A valuation response without a median. *)
Definition sample_remote_no_median : Remote :=
  {| identity := Ok (sample_identity 0 [] None None);
     collection_value :=
       Ok (VDict [ (str "minimum", VStr (str "1.00"));
                   (str "maximum", VStr (str "3.00")) ]) |}.

(** A figure written with points as thousands separators. *)
Definition sample_european : pystr := str "1.792.790,00".

(** A release without an entry in its ['formats'] list. *)
Definition release_without_formats : release_data :=
  {| formats := Some []; artists := None; title := Some (str "Untitled") |}.

Definition no_details : release_details :=
  {| descriptions := None; labels := None; cover_image := None;
     year := None; other_keys := true |}.

(** The entities of a setup that handed some to the host. *)
Definition entities_of (o : outcome) : list DiscogsSensor :=
  match o with Added entities => entities | _ => [] end.

Definition is_added (o : outcome) : bool :=
  match o with Added _ => true | _ => false end.

Definition first_entity (entities : list DiscogsSensor) : DiscogsSensor :=
  hd (fresh_random_sensor sample_snapshot) entities.

Definition sample_entities_two : list DiscogsSensor :=
  entities_of (setup_platform no_lower sample_config_two sample_remote_four).

Definition sample_entities_broken_page : list DiscogsSensor :=
  entities_of (setup_platform no_lower sample_config sample_remote_broken_page).

Definition sample_entities_no_median : list DiscogsSensor :=
  entities_of (setup_platform no_lower sample_config sample_remote_no_median).

(** The minimum valuation sensor among [sample_entities]. *)
Definition sample_min_entity : DiscogsSensor :=
  nth 3 sample_entities (fresh_random_sensor sample_snapshot).

Definition sample_snapshot_european : gmap string value :=
  <["collection_value_min"%string := VStr sample_european]> sample_snapshot.

Definition sample_snapshot_broken : gmap string value :=
  <["folders"%string := VFolders [folder_with_broken_page]]> sample_snapshot.

Definition folder_without_formats : CollectionFolder :=
  {| count := 1; releases := [Ok release_without_formats] |}.

Definition sample_snapshot_no_formats : gmap string value :=
  <["folders"%string := VFolders [folder_without_formats]]> sample_snapshot.

Definition sample_details : release_details :=
  {| descriptions := Some [str "LP"; str "Album"];
     labels := Some [ {| label_name := Some (str "Blue Note");
                         catno := Some (str "BLP 1577") |} ];
     cover_image := None;
     year := Some 1957;
     other_keys := true |}.

(** * Properties *)

(** ** Binary64 rounding *)

Module FloatFacts.
Import Float.

(** [digits2_pos] counts the binary digits. *)
Lemma digits2_pos_bounds (p : positive) :
  2 ^ (Zpos (digits2_pos p) - 1) <= Zpos p < 2 ^ Zpos (digits2_pos p).
Proof.
  induction p as [p IH | p IH |]; cbn [digits2_pos].
  - rewrite Pos2Z.inj_succ.
    replace (Z.succ (Zpos (digits2_pos p)) - 1) with (Z.succ (Zpos (digits2_pos p) - 1)) by lia.
    rewrite !Z.pow_succ_r by lia. lia.
  - rewrite Pos2Z.inj_succ.
    replace (Z.succ (Zpos (digits2_pos p)) - 1) with (Z.succ (Zpos (digits2_pos p) - 1)) by lia.
    rewrite !Z.pow_succ_r by lia. lia.
  - cbn. lia.
Qed.

Lemma digits2_pos_unique (p : positive) (d : Z) :
  2 ^ (d - 1) <= Zpos p < 2 ^ d -> Zpos (digits2_pos p) = d.
Proof.
  intros [Hlo Hhi]. pose proof (digits2_pos_bounds p) as [Hlo' Hhi'].
  assert (Hd : 0 < d).
  { destruct (Z_lt_le_dec 0 d) as [|Hle]; [assumption|].
    exfalso. destruct (Z.eq_dec d 0) as [->|]; [cbn in Hhi; lia|].
    rewrite Z.pow_neg_r in Hhi by lia. lia. }
  destruct (Z_lt_le_dec (Zpos (digits2_pos p)) d) as [Hlt|Hge].
  - exfalso.
    assert (2 ^ Zpos (digits2_pos p) <= 2 ^ (d - 1)) by (apply Z.pow_le_mono_r; lia).
    lia.
  - destruct (Z_lt_le_dec d (Zpos (digits2_pos p))) as [Hlt|Hle]; [|lia].
    exfalso.
    assert (2 ^ d <= 2 ^ (Zpos (digits2_pos p) - 1)) by (apply Z.pow_le_mono_r; lia).
    lia.
Qed.

Lemma iter_pos_nat {A} (f : A -> A) (p : positive) (x : A) :
  SpecFloat.iter_pos f p x = Nat.iter (Pos.to_nat p) f x.
Proof.
  revert x. induction p as [p IH | p IH |]; intros x; cbn [SpecFloat.iter_pos].
  - rewrite !IH. rewrite Pos2Nat.inj_xI.
    cbn [Nat.mul]. rewrite Nat.add_0_r, Nat.iter_succ_r, Nat.iter_add. reflexivity.
  - rewrite !IH. rewrite Pos2Nat.inj_xO.
    cbn [Nat.mul]. rewrite Nat.add_0_r, Nat.iter_add. reflexivity.
  - reflexivity.
Qed.

Lemma pow2_split (a b : Z) : 0 <= a -> 0 <= b -> 2 ^ (a + b) = 2 ^ a * 2 ^ b.
Proof. intros. apply Z.pow_add_r; assumption. Qed.

(** [1000.0] is the float of that literal. *)
Lemma thousand_literal : thousand = of_decimal 10000 1.
Proof. reflexivity. Qed.

(** Halving a fraction: the floor is halved and its low bit joins the
    remainder. *)
Lemma div_mod_double (A B : Z) :
  0 <= A -> 0 < B ->
  A / (2 * B) = (A / B) / 2
  /\ A mod (2 * B) = A mod B + ((A / B) mod 2) * B.
Proof.
  intros HA HB.
  pose proof (Z.div_mod A B ltac:(lia)) as HAB.
  pose proof (Z.mod_pos_bound A B HB) as Hr.
  pose proof (Z.div_mod (A / B) 2 ltac:(lia)) as Hq.
  pose proof (Z.mod_pos_bound (A / B) 2 ltac:(lia)) as Hb.
  set (q := A / B) in *. set (r := A mod B) in *.
  set (h := q / 2) in *. set (b := q mod 2) in *.
  assert (HA2 : A = (2 * B) * h + (r + b * B)) by nia.
  assert (Hbound : 0 <= r + b * B < 2 * B) by nia.
  split.
  - symmetry. apply (Z.div_unique_pos A (2 * B) h (r + b * B)); assumption.
  - symmetry. apply (Z.mod_unique_pos A (2 * B) h (r + b * B)); assumption.
Qed.

Lemma shr_1_parity (m : Z) (r s : bool) :
  0 <= m ->
  shr_1 {| shr_m := m; shr_r := r; shr_s := s |}
  = {| shr_m := Z.div2 m; shr_r := Z.odd m; shr_s := r || s |}.
Proof. intros Hm. destruct m as [|[p|p|]|p]; try lia; reflexivity. Qed.

(** One shift to the right of the record of [A / B] is the record of
    [A / (2 * B)]: the round and sticky bits stay those of the fraction. *)
Lemma shr_1_fraction (A B : Z) :
  0 <= A -> 0 < B -> shr_1 (record_of A B) = record_of A (2 * B).
Proof.
  intros HA HB.
  destruct (div_mod_double A B HA HB) as [Hdiv Hmod].
  pose proof (Z.mod_pos_bound A B HB) as Hr.
  pose proof (Z.div_pos A B HA HB) as Hq.
  unfold record_of, location_of. rewrite Hdiv, Hmod.
  rewrite Zmod_odd, <- Z.div2_div.
  set (q := A / B) in *. set (r := A mod B) in *.
  assert (Hshr : forall l, shr_1 (shr_record_of_loc q l)
                 = {| shr_m := Z.div2 q; shr_r := Z.odd q;
                      shr_s := match l with loc_Exact => false | _ => true end |}).
  { intros [|[]]; cbn [shr_record_of_loc]; rewrite shr_1_parity by exact Hq; reflexivity. }
  rewrite Hshr.
  destruct (Z.odd q); destruct (Z.eqb_spec r 0) as [Hr0 | Hr0].
  - replace (r + 1 * B =? 0) with false by (symmetry; apply Z.eqb_neq; lia).
    replace (2 * (r + 1 * B) ?= 2 * B) with Eq by (symmetry; apply Z.compare_eq_iff; lia).
    reflexivity.
  - replace (r + 1 * B =? 0) with false by (symmetry; apply Z.eqb_neq; lia).
    replace (2 * (r + 1 * B) ?= 2 * B) with Gt by (symmetry; apply Z.compare_gt_iff; lia).
    reflexivity.
  - replace (r + 0 * B =? 0) with true by (symmetry; apply Z.eqb_eq; lia).
    reflexivity.
  - replace (r + 0 * B =? 0) with false by (symmetry; apply Z.eqb_neq; lia).
    replace (2 * (r + 0 * B) ?= 2 * B) with Lt by (symmetry; apply Z.compare_lt_iff; lia).
    reflexivity.
Qed.

Lemma shr_iter_fraction (k : nat) (A B : Z) :
  0 <= A -> 0 < B ->
  Nat.iter k shr_1 (record_of A B) = record_of A (B * 2 ^ Z.of_nat k).
Proof.
  intros HA. revert B. induction k as [|k IH]; intros B HB.
  - change (Z.of_nat 0) with 0. rewrite Z.pow_0_r, Z.mul_1_r. reflexivity.
  - rewrite Nat.iter_succ_r, shr_1_fraction, IH by lia.
    rewrite Nat2Z.inj_succ, Z.pow_succ_r by lia. f_equal. lia.
Qed.

(** [shr] by [n] bits divides the fraction by [2^n]. *)
Lemma shr_fraction (A B e n : Z) :
  0 <= A -> 0 < B -> 0 <= n ->
  shr (record_of A B) e n = (record_of A (B * 2 ^ n), e + n).
Proof.
  intros HA HB Hn. destruct n as [|p|p]; try lia.
  - rewrite Z.pow_0_r, Z.mul_1_r, Z.add_0_r. reflexivity.
  - cbn [shr]. rewrite iter_pos_nat, shr_iter_fraction, positive_nat_Z by assumption.
    reflexivity.
Qed.

Lemma round_record_of (A B : Z) :
  round_nearest_even (shr_m (record_of A B)) (loc_of_shr_record (record_of A B))
  = round_half_even A B.
Proof.
  unfold round_half_even, record_of.
  destruct (location_of A B) as [|[]]; reflexivity.
Qed.

Lemma round_half_even_cases (A B : Z) :
  0 < B ->
  let q := A / B in let r := A mod B in
  (2 * r < B /\ round_half_even A B = q)
  \/ (2 * r = B /\ round_half_even A B = (if Z.even q then q else q + 1))
  \/ (2 * r > B /\ round_half_even A B = q + 1).
Proof.
  intros HB. cbv zeta. unfold round_half_even, location_of.
  pose proof (Z.mod_pos_bound A B HB) as Hr.
  destruct (Z.eqb_spec (A mod B) 0) as [H0 | H0].
  - left. split; [lia | reflexivity].
  - destruct (Z.compare_spec (2 * (A mod B)) B) as [H | H | H].
    + right. left. split; [exact H | reflexivity].
    + left. split; [exact H | reflexivity].
    + right. right. split; [lia | reflexivity].
Qed.

(** The rounding is within a half of the fraction. *)
Lemma round_half_even_error (A B : Z) :
  0 < B -> - B <= 2 * (round_half_even A B * B - A) <= B.
Proof.
  intros HB. pose proof (Z.div_mod A B ltac:(lia)) as HAB.
  pose proof (Z.mod_pos_bound A B HB) as Hr.
  destruct (round_half_even_cases A B HB) as [[H ->] | [[H ->] | [H ->]]];
    [| destruct (Z.even (A / B)) |]; nia.
Qed.

Lemma round_half_even_floor (A B : Z) :
  0 < B -> A / B <= round_half_even A B <= A / B + 1.
Proof.
  intros HB.
  destruct (round_half_even_cases A B HB) as [[H ->] | [[H ->] | [H ->]]];
    [| destruct (Z.even (A / B)) |]; lia.
Qed.

(** The integer strictly within a half of [A / B] is its rounding. *)
Lemma round_half_even_near (A B X : Z) :
  0 < B -> - B < 2 * (X * B - A) < B -> round_half_even A B = X.
Proof.
  intros HB HX. pose proof (Z.div_mod A B ltac:(lia)) as HAB.
  pose proof (Z.mod_pos_bound A B HB) as Hr.
  destruct (round_half_even_cases A B HB) as [[H ->] | [[H ->] | [H ->]]];
    [| destruct (Z.even (A / B)) |]; nia.
Qed.

(** The rounding depends on the fraction only. *)
Lemma round_half_even_ext (A B A' B' : Z) :
  0 < B -> 0 < B' -> A * B' = A' * B ->
  round_half_even A B = round_half_even A' B'.
Proof.
  intros HB HB' Heq.
  pose proof (Z.div_mod A B ltac:(lia)) as HAB.
  pose proof (Z.mod_pos_bound A B HB) as Hr.
  pose proof (Z.div_mod A' B' ltac:(lia)) as HAB'.
  pose proof (Z.mod_pos_bound A' B' HB') as Hr'.
  assert (Hq : A' / B' = A / B).
  { set (q := A / B) in *. set (q' := A' / B') in *.
    assert (H1 : q * B <= A < (q + 1) * B) by lia.
    assert (H2 : q' * B' <= A' < (q' + 1) * B') by lia.
    destruct (Z.lt_trichotomy q' q) as [Hlt | [Hq | Hgt]]; [| exact Hq |]; exfalso.
    - assert (A' * B < (q' + 1) * B' * B) by nia.
      assert ((q' + 1) * (B' * B) <= q * (B' * B)) by nia.
      assert (q * B * B' <= A * B') by nia. nia.
    - assert (A * B' < (q + 1) * B * B') by nia.
      assert ((q + 1) * (B * B') <= q' * (B * B')) by nia.
      assert (q' * B' * B <= A' * B) by nia. nia. }
  assert (Hrr : (A' mod B') * B = (A mod B) * B') by nia.
  unfold round_half_even, location_of. rewrite Hq.
  set (r := A mod B) in *. set (r' := A' mod B') in *.
  destruct (Z.eqb_spec r 0) as [H0 | H0]; destruct (Z.eqb_spec r' 0) as [H0' | H0'];
    try reflexivity; try nia.
  destruct (Z.compare_spec (2 * r) B); destruct (Z.compare_spec (2 * r') B');
    try reflexivity; nia.
Qed.

Lemma Zdigits2_bounds (q : Z) :
  0 < q -> 2 ^ (Zdigits2 q - 1) <= q < 2 ^ Zdigits2 q.
Proof. intros Hq. destruct q as [|p|p]; try lia. apply digits2_pos_bounds. Qed.

Lemma Zdigits2_unique (q d : Z) :
  2 ^ (d - 1) <= q < 2 ^ d -> 0 < q -> Zdigits2 q = d.
Proof. intros Hd Hq. destruct q as [|p|p]; try lia. apply digits2_pos_unique, Hd. Qed.

(** [binary_round_aux] on the floor and the position of a fraction of at
    least 53 digits, in the normal range and away from overflow: the
    fraction is brought to 53 digits and rounded to nearest, ties to even;
    a rounding that reaches [2^53] moves to the next exponent. *)
Lemma round_fraction (sx : bool) (A B e : Z) :
  0 <= A -> 0 < B ->
  2 ^ 52 <= A / B ->
  -1074 <= e + Zdigits2 (A / B) - 53 ->
  e + Zdigits2 (A / B) - 52 <= 971 ->
  let E := e + Zdigits2 (A / B) - 53 in
  let m := round_half_even A (B * 2 ^ (Zdigits2 (A / B) - 53)) in
  2 ^ 52 <= m <= 2 ^ 53
  /\ binary_round_aux prec emax sx (A / B) e (location_of A B)
     = if m =? 2 ^ 53 then S754_finite sx 4503599627370496 (E + 1)
       else S754_finite sx (Z.to_pos m) E.
Proof.
  intros HA HB Hq Hlo Hhi. cbv zeta.
  assert (Hq0 : 0 < A / B) by (change (2 ^ 52) with 4503599627370496 in Hq; lia).
  pose proof (Zdigits2_bounds (A / B) Hq0) as Hd.
  set (d := Zdigits2 (A / B)) in *.
  assert (Hd53 : 53 <= d).
  { destruct (Z_lt_le_dec d 53) as [Hlt|]; [|assumption]. exfalso.
    assert (2 ^ d <= 2 ^ 52) by (apply Z.pow_le_mono_r; lia). lia. }
  set (B' := B * 2 ^ (d - 53)).
  assert (Hpow : 0 < 2 ^ (d - 53)) by (apply Z.pow_pos_nonneg; lia).
  assert (HB' : 0 < B') by (unfold B'; nia).
  assert (Hfloor : 2 ^ 52 <= A / B' < 2 ^ 53).
  { unfold B'. rewrite <- Z.div_div by lia.
    assert (Hsplit : 2 ^ (d - 1) = 2 ^ 52 * 2 ^ (d - 53)).
    { rewrite <- Z.pow_add_r by lia. f_equal. lia. }
    assert (Hsplit' : 2 ^ d = 2 ^ 53 * 2 ^ (d - 53)).
    { rewrite <- Z.pow_add_r by lia. f_equal. lia. }
    split.
    - apply Z.div_le_lower_bound; [lia|]. lia.
    - apply Z.div_lt_upper_bound; [lia|]. lia. }
  pose proof (round_half_even_floor A B' HB') as Hm.
  set (m := round_half_even A B') in *.
  split; [lia|].
  unfold binary_round_aux, shr_fexp.
  change (shr_record_of_loc (A / B) (location_of A B)) with (record_of A B).
  fold d.
  assert (Hfexp : fexp prec emax (d + e) - e = d - 53).
  { unfold fexp, emin, prec, emax. lia. }
  rewrite Hfexp, shr_fraction by lia. fold B'.
  rewrite round_record_of. fold m.
  change (2 ^ 52) with 4503599627370496 in *.
  change (2 ^ 53) with 9007199254740992 in *.
  destruct (Z.eqb_spec m 9007199254740992) as [Hm53 | Hm53].
  - rewrite Hm53. change (Zdigits2 9007199254740992) with 54.
    cbn [shr_record_of_loc].
    replace (fexp prec emax (54 + (e + (d - 53))) - (e + (d - 53))) with 1
      by (unfold fexp, emin, prec, emax; lia).
    cbn [shr SpecFloat.iter_pos shr_1 shr_m orb].
    replace (e + (d - 53) + 1 <=? emax - prec) with true
      by (symmetry; apply Z.leb_le; unfold emax, prec; lia).
    f_equal. lia.
  - assert (Hdm : Zdigits2 m = 53) by (apply Zdigits2_unique; lia).
    rewrite Hdm. cbn [shr_record_of_loc].
    replace (fexp prec emax (53 + (e + (d - 53))) - (e + (d - 53))) with 0
      by (unfold fexp, emin, prec, emax; lia).
    cbn [shr shr_m].
    destruct m as [|pm|pm] eqn:Em; try lia.
    replace (e + (d - 53) <=? emax - prec) with true
      by (symmetry; apply Z.leb_le; unfold emax, prec; lia).
    cbn [Z.to_pos]. f_equal. lia.
Qed.

(** The core of a division: the floor and the position of the fraction
    it forms. *)
Lemma div_core_fraction (m1 m2 : positive) (e1 e2 : Z) :
  let e' := Z.min (fexp prec emax (Zpos (digits2_pos m1) + e1 - (Zpos (digits2_pos m2) + e2)))
                  (e1 - e2) in
  let A := Zpos m1 * 2 ^ (e1 - e2 - e') in
  SFdiv_core_binary prec emax (Zpos m1) e1 (Zpos m2) e2
  = (A / Zpos m2, e', location_of A (Zpos m2)).
Proof.
  cbv zeta. unfold SFdiv_core_binary. cbn [Zdigits2].
  set (e' := Z.min _ _).
  assert (Hs : 0 <= e1 - e2 - e') by (unfold e'; lia).
  assert (Hm : match e1 - e2 - e' with
               | Zpos _ => Z.shiftl (Zpos m1) (e1 - e2 - e')
               | Z0 => Zpos m1
               | Zneg _ => 0
               end = Zpos m1 * 2 ^ (e1 - e2 - e')).
  { destruct (e1 - e2 - e') as [|s|s] eqn:Es; try lia.
    rewrite Z.shiftl_mul_pow2 by lia. reflexivity. }
  rewrite Hm. set (A := Zpos m1 * 2 ^ (e1 - e2 - e')).
  unfold Z.div, Z.modulo, location_of, Z.modulo.
  pose proof (Z.mod_pos_bound A (Zpos m2) ltac:(lia)) as Hb. unfold Z.modulo in Hb.
  destruct (Z.div_eucl A (Zpos m2)) as [q r].
  f_equal. unfold new_location, new_location_even, new_location_odd.
  destruct (Z.even (Zpos m2)) eqn:Hev; destruct (Z.eqb_spec r 0); try reflexivity.
  f_equal.
  assert (Hodd : Z.odd (Zpos m2) = true) by (rewrite <- Z.negb_even, Hev; reflexivity).
  apply Zodd_bool_iff, Zodd_ex_iff in Hodd as [h Hh].
  destruct (Z.compare_spec (2 * r + 1) (Zpos m2)); symmetry;
    [apply Z.compare_lt_iff | apply Z.compare_lt_iff | apply Z.compare_gt_iff]; lia.
Qed.

Lemma location_of_one (A : Z) : location_of A 1 = loc_Exact.
Proof. unfold location_of. rewrite Z.mod_1_r. reflexivity. Qed.

(** The product of a binary64 number of 53 digits with [1000.0]. *)
Lemma mul_thousand_normal (X : positive) (ex : Z) :
  2 ^ 52 <= Zpos X < 2 ^ 53 -> -1000 <= ex <= 900 ->
  let P := 1000 * Zpos X in
  let Y := if P <? 2 ^ 62 then round_half_even P 512 else round_half_even P 1024 in
  let ey := if P <? 2 ^ 62 then ex + 9 else ex + 10 in
  2 ^ 52 <= Y < 2 ^ 53
  /\ mul (S754_finite false X ex) thousand = S754_finite false (Z.to_pos Y) ey.
Proof.
  intros HX Hex. cbv zeta.
  change (2 ^ 52) with 4503599627370496 in *.
  change (2 ^ 53) with 9007199254740992 in *.
  change (2 ^ 62) with 4611686018427387904.
  unfold mul, thousand, SFmul. cbn [xorb].
  set (A := Zpos (X * 8796093022208000)).
  assert (HA : A = 1000 * Zpos X * 2 ^ 43).
  { unfold A. rewrite Pos2Z.inj_mul. change (2 ^ 43) with 8796093022208. lia. }
  assert (HA0 : 0 < A) by (unfold A; lia).
  assert (Hgoal : binary_round_aux prec emax false A (ex + -43) loc_Exact
                  = binary_round_aux prec emax false (A / 1) (ex + -43) (location_of A 1)).
  { rewrite Z.div_1_r, location_of_one. reflexivity. }
  rewrite Hgoal. clear Hgoal.
  destruct (Z.ltb_spec (1000 * Zpos X) 4611686018427387904) as [HP | HP].
  - assert (Hd : Zdigits2 (A / 1) = 105).
    { rewrite Z.div_1_r. apply Zdigits2_unique; [|exact HA0]. rewrite HA.
      change (2 ^ (105 - 1)) with (2 ^ 61 * 2 ^ 43).
      change (2 ^ 105) with (2 ^ 62 * 2 ^ 43).
      change (2 ^ 61) with 2305843009213693952.
      change (2 ^ 62) with 4611686018427387904. lia. }
    assert (Hq : 2 ^ 52 <= A / 1).
    { rewrite Z.div_1_r, HA. change (2 ^ 52) with 4503599627370496.
      change (2 ^ 43) with 8796093022208. lia. }
    destruct (round_fraction false A 1 (ex + -43)) as [Hm Hr];
      [lia | lia | exact Hq | rewrite Hd; lia | rewrite Hd; lia |].
    rewrite Hd in Hr, Hm. change (105 - 53) with 52 in Hr, Hm.
    assert (Hext : round_half_even A (1 * 2 ^ 52) = round_half_even (1000 * Zpos X) 512).
    { apply round_half_even_ext; [reflexivity | reflexivity |].
      rewrite HA. change (2 ^ 52) with (2 ^ 43 * 512). lia. }
    rewrite Hext in Hr, Hm.
    pose proof (round_half_even_error (1000 * Zpos X) 512 ltac:(lia)) as Herr.
    set (Y := round_half_even (1000 * Zpos X) 512) in *.
    change (2 ^ 52) with 4503599627370496 in Hm.
    change (2 ^ 53) with 9007199254740992 in Hm, Hr.
    assert (HY : Y < 9007199254740992) by lia.
    split; [lia|]. rewrite Hr.
    destruct (Z.eqb_spec Y 9007199254740992); [lia|]. f_equal. lia.
  - assert (Hd : Zdigits2 (A / 1) = 106).
    { rewrite Z.div_1_r. apply Zdigits2_unique; [|exact HA0]. rewrite HA.
      change (2 ^ (106 - 1)) with (2 ^ 62 * 2 ^ 43).
      change (2 ^ 106) with (2 ^ 63 * 2 ^ 43).
      change (2 ^ 63) with 9223372036854775808.
      change (2 ^ 62) with 4611686018427387904. lia. }
    assert (Hq : 2 ^ 52 <= A / 1).
    { rewrite Z.div_1_r, HA. change (2 ^ 52) with 4503599627370496.
      change (2 ^ 43) with 8796093022208. lia. }
    destruct (round_fraction false A 1 (ex + -43)) as [Hm Hr];
      [lia | lia | exact Hq | rewrite Hd; lia | rewrite Hd; lia |].
    rewrite Hd in Hr, Hm. change (106 - 53) with 53 in Hr, Hm.
    assert (Hext : round_half_even A (1 * 2 ^ 53) = round_half_even (1000 * Zpos X) 1024).
    { apply round_half_even_ext; [reflexivity | reflexivity |].
      rewrite HA. change (2 ^ 53) with (2 ^ 43 * 1024). lia. }
    rewrite Hext in Hr, Hm.
    pose proof (round_half_even_error (1000 * Zpos X) 1024 ltac:(lia)) as Herr.
    set (Y := round_half_even (1000 * Zpos X) 1024) in *.
    change (2 ^ 52) with 4503599627370496 in Hm.
    change (2 ^ 53) with 9007199254740992 in Hm, Hr.
    assert (HY : Y < 9007199254740992) by lia.
    split; [lia|]. rewrite Hr.
    destruct (Z.eqb_spec Y 9007199254740992); [lia|]. f_equal. lia.
Qed.

(** The quotient of a binary64 number of 53 digits by [1000.0]. *)
Lemma div_thousand_normal (Y : positive) (ey : Z) :
  2 ^ 52 <= Zpos Y < 2 ^ 53 -> -900 <= ey <= 900 ->
  (1024 * Zpos Y < 1000 * 2 ^ 53 ->
   round_half_even (1024 * Zpos Y) 1000 < 2 ^ 53 ->
   div (S754_finite false Y ey) thousand
   = S754_finite false (Z.to_pos (round_half_even (1024 * Zpos Y) 1000)) (ey - 10))
  /\ (1000 * 2 ^ 53 <= 1024 * Zpos Y ->
      div (S754_finite false Y ey) thousand
      = S754_finite false (Z.to_pos (round_half_even (512 * Zpos Y) 1000)) (ey - 9)).
Proof.
  intros HY Hey.
  change (2 ^ 52) with 4503599627370496 in *.
  change (2 ^ 53) with 9007199254740992 in *.
  assert (HdY : Zpos (digits2_pos Y) = 53).
  { apply digits2_pos_unique. change (2 ^ (53 - 1)) with 4503599627370496.
    change (2 ^ 53) with 9007199254740992. exact HY. }
  unfold div, thousand, SFdiv. cbn [xorb].
  rewrite div_core_fraction. rewrite HdY.
  change (Zpos (digits2_pos 8796093022208000)) with 53.
  replace (Z.min (fexp prec emax (53 + ey - (53 + -43))) (ey - -43)) with (ey - 10)
    by (unfold fexp, emin, prec, emax; lia).
  replace (ey - -43 - (ey - 10)) with 53 by lia.
  set (A := Zpos Y * 2 ^ 53). set (B := 8796093022208000).
  assert (HAB : A / B = (1024 * Zpos Y) / 1000).
  { unfold A, B. change (2 ^ 53) with (1024 * 8796093022208).
    change 8796093022208000 with (1000 * 8796093022208).
    rewrite Z.mul_assoc, (Z.mul_comm (Zpos Y) 1024).
    apply Z.div_mul_cancel_r; lia. }
  assert (Hq : 2 ^ 52 <= A / B).
  { rewrite HAB. change (2 ^ 52) with 4503599627370496.
    apply Z.div_le_lower_bound; lia. }
  assert (Hq54 : A / B < 2 ^ 54).
  { rewrite HAB. change (2 ^ 54) with 18014398509481984.
    apply Z.div_lt_upper_bound; lia. }
  assert (HA0 : 0 <= A) by (unfold A; change (2 ^ 53) with 9007199254740992; lia).
  assert (HB0 : 0 < B) by (unfold B; lia).
  split.
  - intros Hlow Hm53.
    assert (Hd : Zdigits2 (A / B) = 53).
    { apply Zdigits2_unique; [|change (2 ^ 52) with 4503599627370496 in Hq; lia].
      split; [exact Hq|]. rewrite HAB.
      change (2 ^ 53) with 9007199254740992.
      apply Z.div_lt_upper_bound; lia. }
    destruct (round_fraction false A B (ey - 10)) as [Hm Hr];
      [exact HA0 | exact HB0 | exact Hq | rewrite Hd; lia | rewrite Hd; lia |].
    rewrite Hd in Hr, Hm. change (53 - 53) with 0 in Hr, Hm.
    assert (Hext : round_half_even A (B * 2 ^ 0) = round_half_even (1024 * Zpos Y) 1000).
    { apply round_half_even_ext; [reflexivity | reflexivity |].
      unfold A, B. change (2 ^ 53) with 9007199254740992. change (2 ^ 0) with 1. lia. }
    rewrite Hext in Hr, Hm. rewrite Hr.
    change (2 ^ 53) with 9007199254740992.
    destruct (Z.eqb_spec (round_half_even (1024 * Zpos Y) 1000) 9007199254740992); [lia|].
    f_equal. lia.
  - intros Hhigh.
    assert (Hd : Zdigits2 (A / B) = 54).
    { apply Zdigits2_unique; [|change (2 ^ 52) with 4503599627370496 in Hq; lia].
      split; [|exact Hq54]. rewrite HAB.
      change (2 ^ (54 - 1)) with 9007199254740992.
      apply Z.div_le_lower_bound; lia. }
    destruct (round_fraction false A B (ey - 10)) as [Hm Hr];
      [exact HA0 | exact HB0 | exact Hq | rewrite Hd; lia | rewrite Hd; lia |].
    rewrite Hd in Hr, Hm. change (54 - 53) with 1 in Hr, Hm.
    assert (Hext : round_half_even A (B * 2 ^ 1) = round_half_even (512 * Zpos Y) 1000).
    { apply round_half_even_ext; [reflexivity | reflexivity |].
      unfold A, B. change (2 ^ 53) with 9007199254740992. change (2 ^ 1) with 2. lia. }
    rewrite Hext in Hr, Hm. rewrite Hr.
    pose proof (round_half_even_error (512 * Zpos Y) 1000 ltac:(lia)) as Herr.
    change (2 ^ 53) with 9007199254740992.
    destruct (Z.eqb_spec (round_half_even (512 * Zpos Y) 1000) 9007199254740992); [lia|].
    f_equal. lia.
Qed.

Lemma pow2_lt_exponent (a b : Z) : 0 <= b -> 2 ^ a < 2 ^ b -> a < b.
Proof. intros Hb H. apply (Z.pow_lt_mono_r_iff 2); [lia | exact Hb | exact H]. Qed.

(** [float()] of a decimal with at most three places, thousandfold below
    [2^53]: a number of 53 digits, the rounding of the decimal at its
    exponent unless that rounding reached the next power of two. *)
Lemma of_decimal_normal (n k m : Z) :
  0 < n -> 0 <= k -> n * 1000 = m * 10 ^ k -> m < 2 ^ 53 ->
  exists (X : positive) (ex : Z),
    of_decimal n k = S754_finite false X ex
    /\ 2 ^ 52 <= Zpos X < 2 ^ 53
    /\ -70 <= ex <= 0
    /\ (Zpos X = 2 ^ 52 \/ Zpos X = round_half_even (m * 2 ^ (- ex)) 1000).
Proof.
  intros Hn Hk Hnm Hm.
  assert (Hten : 0 < 10 ^ k) by (apply Z.pow_pos_nonneg; lia).
  assert (Hm0 : 0 < m) by nia.
  destruct n as [|pn|pn]; try lia.
  destruct (10 ^ k) as [|pt|pt] eqn:Et; try lia.
  unfold of_decimal. rewrite Et, div_core_fraction.
  pose proof (digits2_pos_bounds pn) as [Hn1 Hn2].
  pose proof (digits2_pos_bounds pt) as [Ht1 Ht2].
  set (d1 := Zpos (digits2_pos pn)) in *.
  set (d2 := Zpos (digits2_pos pt)) in *.
  assert (Hd1 : 1 <= d1) by (unfold d1; lia).
  assert (Hd2 : 1 <= d2) by (unfold d2; lia).
  assert (Hup : d1 - d2 <= 44).
  { assert (H : 2 ^ (d1 + 8) < 2 ^ (53 + d2)).
    { replace (d1 + 8) with ((d1 - 1) + 9) by lia.
      rewrite !pow2_split by lia. change (2 ^ 9) with 512.
      assert (0 < 2 ^ d2) by (apply Z.pow_pos_nonneg; lia). nia. }
    apply pow2_lt_exponent in H; lia. }
  assert (Hdown : -10 <= d1 - d2).
  { assert (H : 2 ^ (d2 - 1) < 2 ^ (d1 + 10)).
    { rewrite (pow2_split d1 10) by lia. change (2 ^ 10) with 1024. nia. }
    apply pow2_lt_exponent in H; lia. }
  replace (Z.min (fexp prec emax (d1 + 0 - (d2 + 0))) (0 - 0)) with (d1 - d2 - 53)
    by (unfold fexp, emin, prec, emax; lia).
  replace (0 - 0 - (d1 - d2 - 53)) with (53 + d2 - d1) by lia.
  set (s := 53 + d2 - d1).
  assert (Hs : 9 <= s <= 63) by (unfold s; lia).
  set (A := Zpos pn * 2 ^ s).
  assert (HA0 : 0 <= A).
  { unfold A. assert (0 < 2 ^ s) by (apply Z.pow_pos_nonneg; lia). nia. }
  assert (Hq : 2 ^ 52 <= A / Zpos pt).
  { apply Z.div_le_lower_bound; [lia|].
    assert (H : 2 ^ 52 * 2 ^ d2 <= A).
    { unfold A. rewrite <- pow2_split by lia.
      replace (52 + d2) with ((d1 - 1) + s) by (unfold s; lia).
      rewrite pow2_split by lia.
      assert (0 < 2 ^ s) by (apply Z.pow_pos_nonneg; lia). nia. }
    change (2 ^ 52) with 4503599627370496 in *. nia. }
  assert (Hq54 : A / Zpos pt < 2 ^ 54).
  { apply Z.div_lt_upper_bound; [lia|].
    assert (H : A < 2 ^ 54 * 2 ^ (d2 - 1)).
    { unfold A. rewrite <- pow2_split by lia.
      replace (54 + (d2 - 1)) with (d1 + s) by (unfold s; lia).
      rewrite pow2_split by lia.
      assert (0 < 2 ^ s) by (apply Z.pow_pos_nonneg; lia). nia. }
    change (2 ^ 54) with 18014398509481984 in *. nia. }
  assert (Hq0 : 0 < A / Zpos pt) by (change (2 ^ 52) with 4503599627370496 in Hq; lia).
  assert (Hd : Zdigits2 (A / Zpos pt) = 53 \/ Zdigits2 (A / Zpos pt) = 54).
  { destruct (Z_lt_le_dec (A / Zpos pt) (2 ^ 53)) as [Hlt | Hge].
    - left. apply Zdigits2_unique; [|exact Hq0]. split; assumption.
    - right. apply Zdigits2_unique; [|exact Hq0]. split; assumption. }
  set (d := Zdigits2 (A / Zpos pt)) in *.
  destruct (round_fraction false A (Zpos pt) (d1 - d2 - 53)) as [Hr1 Hr2];
    [exact HA0 | lia | exact Hq | fold d; lia | fold d; lia |].
  fold d in Hr1, Hr2. rewrite Hr2.
  set (mr := round_half_even A (Zpos pt * 2 ^ (d - 53))) in *.
  change (2 ^ 52) with 4503599627370496 in *.
  change (2 ^ 53) with 9007199254740992 in *.
  destruct (Z.eqb_spec mr 9007199254740992) as [Hc | Hc].
  - exists 4503599627370496%positive, (d1 - d2 - 53 + d - 53 + 1).
    split; [reflexivity|]. split; [lia|]. split; [lia|]. left. reflexivity.
  - assert (Hmr : 0 < mr) by lia.
    exists (Z.to_pos mr), (d1 - d2 - 53 + d - 53).
    rewrite Z2Pos.id by exact Hmr.
    split; [reflexivity|]. split; [lia|]. split; [lia|]. right.
    unfold mr. apply round_half_even_ext.
    + assert (0 < 2 ^ (d - 53)) by (apply Z.pow_pos_nonneg; lia). nia.
    + lia.
    + unfold A.
      replace (- (d1 - d2 - 53 + d - 53)) with (s - (d - 53)) by (unfold s; lia).
      replace s with ((s - (d - 53)) + (d - 53)) at 1 by lia.
      rewrite pow2_split by lia. nia.
Qed.

(** The round trip through a thousandfold returns every decimal of at
    most three places, thousandfold below [2^53], unchanged. *)
Lemma roundtrip_three_places (n k m : Z) :
  0 <= n -> 0 <= k -> n * 1000 = m * 10 ^ k -> m < 2 ^ 53 ->
  div (mul (of_decimal n k) thousand) thousand = of_decimal n k.
Proof.
  intros Hn Hk Hnm Hm.
  destruct (Z.eq_dec n 0) as [-> | Hn0]; [reflexivity|].
  destruct (of_decimal_normal n k m ltac:(lia) Hk Hnm Hm) as (X & ex & -> & HX & Hex & Hround).
  destruct (mul_thousand_normal X ex HX ltac:(lia)) as [HY ->].
  change (2 ^ 52) with 4503599627370496 in *.
  change (2 ^ 53) with 9007199254740992 in *.
  change (2 ^ 62) with 4611686018427387904 in *.
  destruct (Z.ltb_spec (1000 * Zpos X) 4611686018427387904) as [HP | HP].
  - (* the product has 62 bits: nine are rounded away *)
    pose proof (round_half_even_error (1000 * Zpos X) 512 ltac:(lia)) as Herr.
    assert (Hexact : Zpos X = 4503599627370496 ->
                     round_half_even (1000 * Zpos X) 512 = 8796093022208000).
    { intros HX0. apply round_half_even_near; lia. }
    set (Y := round_half_even (1000 * Zpos X) 512) in *.
    assert (HY0 : 0 < Y) by lia.
    destruct (div_thousand_normal (Z.to_pos Y) (ex + 9)) as [_ Hhigh].
    { rewrite Z2Pos.id by exact HY0. exact HY. }
    { lia. }
    rewrite Z2Pos.id in Hhigh by exact HY0.
    rewrite Hhigh.
    + assert (Hz : round_half_even (512 * Y) 1000 = Zpos X).
      { apply round_half_even_near; lia. }
      rewrite Hz. cbn [Z.to_pos]. f_equal. lia.
    + change (2 ^ 53) with 9007199254740992.
      destruct (Z.eq_dec (Zpos X) 4503599627370496) as [HX0 | HX0].
      * specialize (Hexact HX0). lia.
      * lia.
  - (* the product has 63 bits: it rounds to the thousandfold of the decimal *)
    destruct Hround as [Hmin | Hround]; [lia|].
    assert (Hpow : 0 < 2 ^ (- ex)) by (apply Z.pow_pos_nonneg; lia).
    pose proof (round_half_even_error (m * 2 ^ (- ex)) 1000 ltac:(lia)) as Herr.
    rewrite <- Hround in Herr.
    assert (Hex10 : 10 <= - ex).
    { destruct (Z_lt_le_dec (- ex) 10) as [Hlt|]; [|assumption]. exfalso.
      assert (H : 2 ^ (- ex) <= 2 ^ 9) by (apply Z.pow_le_mono_r; lia).
      change (2 ^ 9) with 512 in H. nia. }
    set (Mz := m * 2 ^ (- ex - 10)).
    assert (HMu : m * 2 ^ (- ex) = 1024 * Mz).
    { unfold Mz. replace (- ex) with ((- ex - 10) + 10) at 1 by lia.
      rewrite pow2_split by lia. change (2 ^ 10) with 1024. lia. }
    rewrite HMu in Herr, Hround.
    assert (HYz : round_half_even (1000 * Zpos X) 1024 = Mz).
    { apply round_half_even_near; lia. }
    rewrite HYz in *.
    assert (HMz0 : 0 < Mz) by lia.
    destruct (div_thousand_normal (Z.to_pos Mz) (ex + 10)) as [Hlow _].
    { rewrite Z2Pos.id by exact HMz0. exact HY. }
    { lia. }
    rewrite Z2Pos.id in Hlow by exact HMz0.
    rewrite Hlow.
    + rewrite <- Hround. cbn [Z.to_pos]. f_equal. lia.
    + change (2 ^ 53) with 9007199254740992. lia.
    + rewrite <- Hround. change (2 ^ 53) with 9007199254740992. lia.
Qed.

End FloatFacts.

(** ** The sensor and the setup *)

Section Properties.

Variable nonascii_decimal : N -> option N.
Variable nonascii_lower : pystr -> pystr.
Variable rng : Type.
Variable randrange : rng -> Z -> Z * rng.

Local Abbreviation isdecimal := (isdecimal nonascii_decimal).
Local Abbreviation clean := (clean nonascii_decimal).
Local Abbreviation decimal_of_str := (decimal_of_str nonascii_decimal).
Local Abbreviation float_of_str := (float_of_str nonascii_decimal).
Local Abbreviation parse_value := (parse_value nonascii_decimal).
Local Abbreviation parse_value_direct := (parse_value_direct nonascii_decimal).
Local Abbreviation decorated := (decorated nonascii_decimal).
Local Abbreviation lower := (lower nonascii_lower).
Local Abbreviation update := (update nonascii_decimal rng randrange).
Local Abbreviation get_random_record := (get_random_record rng randrange).
Local Abbreviation polled := (polled nonascii_decimal rng randrange).
Local Abbreviation classify := (classify nonascii_lower).
Local Abbreviation count_formats := (count_formats nonascii_lower).
Local Abbreviation build_snapshot := (build_snapshot nonascii_lower).
Local Abbreviation setup_platform := (setup_platform nonascii_lower).
Local Abbreviation format_count_step := (format_count_step nonascii_lower).
Local Abbreviation format_count_block := (format_count_block nonascii_lower).
Local Abbreviation matches := (matches nonascii_lower).
Local Abbreviation count_matching := (count_matching nonascii_lower).

(** *** Cleaning and parsing of valuation strings *)

Lemma clean_cons (c : N) (s : pystr) :
  clean (c :: s) =
  if negb (c =? chr_comma)%N && (isdecimal c || (c =? chr_dot)%N)
  then c :: clean s else clean s.
Proof.
  unfold clean, replace_comma, sub_non_numeric. cbn [List.filter].
  destruct (negb (c =? chr_comma)%N); cbn [andb List.filter]; [|reflexivity].
  destruct (isdecimal c || (c =? chr_dot)%N); reflexivity.
Qed.

Lemma decorated_clean (s t : pystr) :
  decorated s t ->
  Forall (fun c => negb (c =? chr_comma)%N && (isdecimal c || (c =? chr_dot)%N) = true) t ->
  clean s = t.
Proof.
  induction 1 as [| c s t _ IH | s t _ IH | c s t Hd Hdot _ IH]; intros Ht.
  - reflexivity.
  - inversion Ht as [| ? ? Hc Ht']; subst. rewrite clean_cons, Hc, IH by assumption.
    reflexivity.
  - rewrite clean_cons. cbn. auto.
  - rewrite clean_cons, Hd. apply N.eqb_neq in Hdot. rewrite Hdot, andb_false_r. auto.
Qed.

Lemma key_map_value_key (k : string) :
  is_value_key k = true -> key_map !! k = Some k.
Proof.
  unfold is_value_key. intros Hk.
  apply orb_true_iff in Hk as [Hk | Hk]; [apply orb_true_iff in Hk as [Hk | Hk] |];
    apply String.eqb_eq in Hk; subst k; reflexivity.
Qed.

(** A valuation sensor's [update]: the parsed value is stored and nothing
    else changes. *)
Lemma update_value_key (self : DiscogsSensor) (g : rng) :
  is_value_key (key (entity_description self)) = true ->
  update self g =
  {| poll_sensor :=
       set_native_value self
         (parse_value (_discogs_data self !! key (entity_description self)));
     poll_raised := None; poll_rng := g; poll_fetched := None |}.
Proof.
  intros Hk. unfold update. rewrite (key_map_value_key _ Hk), Hk.
  unfold is_value_key in Hk.
  apply orb_true_iff in Hk as [Hk | Hk]; [apply orb_true_iff in Hk as [Hk | Hk] |];
    apply String.eqb_eq in Hk; rewrite Hk; reflexivity.
Qed.

(** C1. For every valuation string that is ["1792790.00"] with thousands
    separators and currency symbols put in, such as ["€1,792,790.00"],
    [update] of a valuation sensor sets the native value to the binary64
    number 1792790.0. *)
Theorem valuation_with_separators_and_symbol
    (self : DiscogsSensor) (g : rng) (value_str : pystr) :
  is_value_key (key (entity_description self)) = true ->
  _discogs_data self !! key (entity_description self) = Some (VStr value_str) ->
  decorated value_str (str "1792790.00") ->
  _attr_native_value (poll_sensor (update self g)) = VFloat (Float.of_Z 1792790).
Proof.
  intros Hk Hd Hs. rewrite (update_value_key self g Hk), Hd. cbn [poll_sensor set_native_value _attr_native_value].
  assert (Hc : clean value_str = str "1792790.00").
  { apply decorated_clean; [exact Hs|]. repeat constructor. }
  unfold parse_value. destruct value_str as [|c s]; [discriminate Hc|].
  rewrite Hc. vm_compute. reflexivity.
Qed.

Lemma value_key_cases (k : string) :
  is_value_key k = true ->
  k = SENSOR_COLLECTION_VALUE_MIN_TYPE
  \/ k = SENSOR_COLLECTION_VALUE_MEDIAN_TYPE
  \/ k = SENSOR_COLLECTION_VALUE_MAX_TYPE.
Proof.
  unfold is_value_key. intros Hk.
  apply orb_true_iff in Hk as [Hk | Hk]; [apply orb_true_iff in Hk as [Hk | Hk] |];
    apply String.eqb_eq in Hk; auto.
Qed.

(** What [update] computes does not depend on the string stored for a
    valuation sensor of another kind. *)
Lemma update_ignores_other_valuation
    (other : DiscogsSensor) (g : rng) (k : string) (v : value) :
  is_value_key k = true ->
  key (entity_description other) <> k ->
  let p := update other g in
  let p' := update (on_snapshot other (<[k := v]> (_discogs_data other))) g in
  _attr_native_value (poll_sensor p') = _attr_native_value (poll_sensor p)
  /\ _attrs (poll_sensor p') = _attrs (poll_sensor p)
  /\ poll_raised p' = poll_raised p
  /\ poll_fetched p' = poll_fetched p.
Proof.
  intros Hk Hne. cbv zeta. unfold update, get_random_record.
  cbn [on_snapshot entity_description _discogs_data].
  set (ko := key (entity_description other)) in *.
  set (d := _discogs_data other).
  assert (Hcount : k <> "collection_count"%string
                   /\ k <> "wantlist_count"%string
                   /\ k <> SENSOR_VINYL_COUNT_TYPE
                   /\ k <> SENSOR_CD_COUNT_TYPE
                   /\ k <> "folders"%string).
  { destruct (value_key_cases k Hk) as [-> | [-> | ->]]; repeat split; discriminate. }
  destruct Hcount as (H1 & H2 & H3 & H4 & H5).
  destruct (ko =? SENSOR_COLLECTION_TYPE)%string.
  { rewrite lookup_insert_ne by exact H1. destruct (d !! _); repeat split; reflexivity. }
  destruct (ko =? SENSOR_WANTLIST_TYPE)%string.
  { rewrite lookup_insert_ne by exact H2. destruct (d !! _); repeat split; reflexivity. }
  destruct (ko =? SENSOR_VINYL_COUNT_TYPE)%string.
  { rewrite lookup_insert_ne by exact H3. destruct (d !! _); repeat split; reflexivity. }
  destruct (ko =? SENSOR_CD_COUNT_TYPE)%string.
  { rewrite lookup_insert_ne by exact H4. destruct (d !! _); repeat split; reflexivity. }
  destruct (is_value_key ko) eqn:Hko.
  { rewrite (key_map_value_key ko Hko).
    rewrite lookup_insert_ne by congruence. repeat split; reflexivity. }
  rewrite lookup_insert_ne by exact H5.
  destruct (d !! "folders"%string) as [[| | | | | | | [|collection fs]]|];
    cbn [truthy]; try (repeat split; reflexivity);
    try (match goal with |- context [if ?b then _ else _] => destruct b end;
         repeat split; reflexivity).
  destruct (0 <? count collection); [|repeat split; reflexivity].
  destruct (randrange g (count collection)) as [i g'].
  destruct (releases_getitem collection i); repeat split; reflexivity.
Qed.

(** C2. A stored valuation string that is empty, or that the cleaning
    leaves empty (such as ["—"]), makes [update] set the native value to
    [None], never to a number; the method raises nothing and changes
    nothing else of the sensor or of the snapshot it shares, and what
    [update] computes for a sensor of any other kind does not depend on
    that string. *)
Theorem empty_valuation_is_null
    (self other : DiscogsSensor) (g g' : rng) (value_str : pystr) (v : value) :
  is_value_key (key (entity_description self)) = true ->
  _discogs_data self !! key (entity_description self) = Some (VStr value_str) ->
  value_str = [] \/ clean value_str = [] ->
  key (entity_description other) <> key (entity_description self) ->
  let p := update self g in
  let q := update other g' in
  let q' := update (on_snapshot other
                      (<[key (entity_description self) := v]> (_discogs_data other))) g' in
  poll_sensor p = set_native_value self VNone
  /\ poll_raised p = None
  /\ _attr_native_value (poll_sensor q') = _attr_native_value (poll_sensor q)
  /\ _attrs (poll_sensor q') = _attrs (poll_sensor q)
  /\ poll_raised q' = poll_raised q.
Proof.
  intros Hk Hd Hs Hne. cbv zeta.
  rewrite (update_value_key self g Hk), Hd. cbn [poll_sensor poll_raised].
  split; [|split; [reflexivity|]].
  - f_equal. unfold parse_value.
    destruct value_str as [|c s]; [reflexivity|].
    destruct Hs as [Hs | Hs]; [discriminate Hs|]. rewrite Hs. reflexivity.
  - pose proof (update_ignores_other_valuation other g' _ v Hk Hne) as H.
    cbv zeta in H. destruct H as (H1 & H2 & H3 & _). repeat split; assumption.
Qed.

Lemma read_digits_length (s : pystr) (acc len n l : Z) (r : option pystr) :
  read_digits nonascii_decimal s acc len = Some (n, l, r) -> len <= l.
Proof.
  revert acc len. induction s as [|c s IH]; intros acc len H; cbn [read_digits] in H.
  - inversion H; subst. lia.
  - destruct (c =? chr_dot)%N.
    + inversion H; subst. lia.
    + destruct (decimal nonascii_decimal c); [|discriminate].
      apply IH in H. lia.
Qed.

Lemma read_digits_nonneg (s : pystr) (acc len n l : Z) (r : option pystr) :
  0 <= acc -> read_digits nonascii_decimal s acc len = Some (n, l, r) -> 0 <= n.
Proof.
  revert acc len. induction s as [|c s IH]; intros acc len Hacc H; cbn [read_digits] in H.
  - inversion H; subst. exact Hacc.
  - destruct (c =? chr_dot)%N.
    + inversion H; subst. exact Hacc.
    + destruct (decimal nonascii_decimal c); [|discriminate].
      apply IH in H; [exact H | lia].
Qed.

Lemma decimal_of_str_scale (s : pystr) (n k : Z) :
  decimal_of_str s = Some (n, k) -> 0 <= n /\ 0 <= k /\ s <> [].
Proof.
  unfold decimal_of_str. intros H.
  destruct s as [|c s]; [discriminate H|].
  destruct (read_digits nonascii_decimal (c :: s) 0 0) as [[[i li] [frac|]]|] eqn:Hi;
    [| inversion H; subst | discriminate].
  - destruct (read_digits nonascii_decimal frac i 0) as [[[m lf] [?|]]|] eqn:Hf;
      try discriminate.
    destruct (li + lf =? 0); [discriminate|]. inversion H; subst.
    apply read_digits_nonneg in Hi; [|lia].
    split; [apply read_digits_nonneg in Hf; assumption|].
    split; [apply read_digits_length in Hf; exact Hf | discriminate].
  - apply read_digits_nonneg in Hi; [|lia].
    split; [exact Hi | split; [lia | discriminate]].
Qed.

(** C3, as amended. For every valuation string that denotes a decimal of
    at most three places (zeros at the end aside) whose thousandfold [m]
    is below [2^53], the value [update] stores, after the multiplication
    by 1000.0 and the division by 1000.0, is the value of parsing the
    string directly. *)
Theorem roundtrip_is_identity_up_to_three_places
    (self : DiscogsSensor) (g : rng) (value_str : pystr) (n k m : Z) :
  is_value_key (key (entity_description self)) = true ->
  _discogs_data self !! key (entity_description self) = Some (VStr value_str) ->
  decimal_of_str (clean value_str) = Some (n, k) ->
  n * 1000 = m * 10 ^ k ->
  m < 2 ^ 53 ->
  _attr_native_value (poll_sensor (update self g))
  = parse_value_direct (_discogs_data self !! key (entity_description self)).
Proof.
  intros Hk Hd Hdec Hn Hm.
  rewrite (update_value_key self g Hk), Hd.
  cbn [poll_sensor set_native_value _attr_native_value].
  destruct (decimal_of_str_scale _ _ _ Hdec) as (Hn0 & Hk0 & Hne).
  unfold parse_value, parse_value_direct.
  destruct value_str as [|c s]; [exfalso; apply Hne; reflexivity|].
  destruct (clean (c :: s)) as [|c' s'] eqn:Hc; [exfalso; apply Hne; reflexivity|].
  unfold float_of_str. rewrite Hdec.
  rewrite (FloatFacts.roundtrip_three_places n k m Hn0 Hk0 Hn Hm).
  reflexivity.
Qed.

(** *** Format classification *)

Lemma pystr_eqb_eq (a b : pystr) : pystr_eqb a b = true <-> a = b.
Proof.
  revert b. induction a as [|x a IH]; intros [|y b]; cbn; try (split; congruence).
  rewrite andb_true_iff, N.eqb_eq, IH. split; [intros [-> ->]; reflexivity|].
  intros H; inversion H; auto.
Qed.

Lemma classify_counts (item : release_data) (v c : Z) :
  classify item v c =
  (v + (if matches "vinyl" (first_format_name item) then 1 else 0),
   c + (if matches "cd" (first_format_name item) then 1 else 0)).
Proof.
  unfold classify, matches, first_format_name.
  destruct (formats item) as [[|first rest]|]; [f_equal; lia | | f_equal; lia].
  destruct (fmt_name first) as [[|ch n]|]; [| | f_equal; lia].
  - change (pystr_eqb (lower []) (lower (str "vinyl"))) with false.
    change (pystr_eqb (lower []) (lower (str "cd"))) with false.
    f_equal; lia.
  - change (lower (str "vinyl")) with (str "vinyl").
    change (lower (str "cd")) with (str "cd").
    destruct (pystr_eqb (lower (ch :: n)) (str "vinyl")) eqn:Hv.
    + apply pystr_eqb_eq in Hv. rewrite Hv.
      change (pystr_eqb (str "vinyl") (str "cd")) with false. f_equal; lia.
    + destruct (pystr_eqb (lower (ch :: n)) (str "cd")); f_equal; lia.
Qed.

Lemma count_formats_counts (items : list release_data) (v c : Z) :
  count_formats (map Ok items) v c =
  Ok (v + count_matching "vinyl" items, c + count_matching "cd" items).
Proof.
  revert v c. induction items as [|item items IH]; intros v c.
  - unfold count_matching.
    cbn [map count_formats List.filter length Z.of_nat].
    rewrite !Z.add_0_r. reflexivity.
  - cbn [map count_formats]. rewrite classify_counts, IH.
    unfold count_matching. cbn [List.filter].
    destruct (matches "vinyl" (first_format_name item));
      destruct (matches "cd" (first_format_name item));
      cbn [length]; rewrite ?Nat2Z.inj_succ; do 2 f_equal; lia.
Qed.

(** C4. For every list of collection items, the classification stores as
    vinyl count the number of items whose first format name matches
    ["vinyl"] case-insensitively, and as CD count the number of those
    whose first format name matches ["cd"] case-insensitively, looking at
    no other entry of the format lists; items whose first format names
    are ["Vinyl"], ["CD"], ["vinyl"], ["Cassette"] give 2 and 1. *)
Theorem classification_counts_first_formats
    (s : frame) (n : Z) (items : list release_data) (rest : list CollectionFolder) :
  discogs_data s !! "folders" = Some (VFolders (folder_of_items n items :: rest)) ->
  (let '(ctl, s') := format_count_block s in
   ctl = Continue
   /\ discogs_data s' !! SENSOR_VINYL_COUNT_TYPE = Some (VInt (count_matching "vinyl" items))
   /\ discogs_data s' !! SENSOR_CD_COUNT_TYPE = Some (VInt (count_matching "cd" items)))
  /\ count_formats (map Ok items) 0 0
     = Ok (count_matching "vinyl" items, count_matching "cd" items)
  /\ count_formats (map Ok sample_items) 0 0 = Ok (2, 1).
Proof.
  intros Hf. split; [|split].
  - unfold format_count_block. rewrite Hf.
    cbn [folder_of_items releases]. rewrite count_formats_counts.
    cbn [set_discogs_data add_call discogs_data]. rewrite !Z.add_0_l.
    split; [reflexivity|]. split.
    + rewrite lookup_insert_ne by discriminate. apply lookup_insert_eq.
    + apply lookup_insert_eq.
  - rewrite count_formats_counts. reflexivity.
  - vm_compute. reflexivity.
Qed.

(** *** Setup *)

Lemma invariant_bind {A B} (P : frame -> Prop) (m : M A) (k : A -> M B) :
  invariant P m -> (forall a, invariant P (k a)) -> invariant P (bind m k).
Proof.
  intros Hm Hk s Hs. unfold bind. specialize (Hm s Hs).
  destruct (m s) as [[a | e] s']; cbn [snd] in *; [apply Hk|]; assumption.
Qed.

Lemma invariant_bind_lift {A B} (P : frame -> Prop) (r : result A) (k : A -> M B) :
  (forall a, r = Ok a -> invariant P (k a)) -> invariant P (bind (lift r) k).
Proof.
  intros Hk s Hs. unfold bind, lift. destruct r as [a | e]; [|exact Hs].
  apply (Hk a eq_refl s Hs).
Qed.

Lemma invariant_bind_identity {B} (P : frame -> Prop) (w : Remote)
    (k : Identity.t -> M B) :
  (forall s, P s -> P (add_call CallIdentity s)) ->
  (forall i, identity w = Ok i -> invariant P (k i)) ->
  invariant P (bind (call_identity w) k).
Proof.
  intros Hc Hk s Hs. unfold bind, call_identity.
  destruct (identity w) as [i | e]; [|apply Hc, Hs].
  apply (Hk i eq_refl), Hc, Hs.
Qed.

Lemma invariant_modify (P : frame -> Prop) (f : frame -> frame) :
  (forall s, P s -> P (f s)) -> invariant P (modify f).
Proof. intros Hf s Hs. apply Hf, Hs. Qed.

(** A property of the snapshot and of the calls made, kept by the
    assignments to the value strings. *)
Lemma invariant_fetch_collection_value (P : frame -> Prop) (w : Remote) :
  (forall s, P s -> P (add_call CallCollectionValue s)) ->
  (forall s a b c, P s -> P (set_value_strs a b c s)) ->
  invariant P (fetch_collection_value w).
Proof.
  intros Hc Hv s Hs. unfold fetch_collection_value.
  destruct (collection_value w) as [[| | | | | | [|kv raw] |] | []];
    cbn [snd]; auto.
Qed.

(** The body of the outer [try] keeps every property that the
    assignments it makes keep. *)
Lemma invariant_fetch_identity_and_value (P : frame -> Prop) (w : Remote) :
  (forall s, P s -> P (add_call CallIdentity s)) ->
  invariant P (fetch_collection_value w) ->
  (forall s i, identity w = Ok i -> P s -> P (set_discogs_identity i s)) ->
  (forall s i, identity w = Ok i -> P s ->
     P (set_currency_symbol (resolve_currency i (currency_symbol s)) s)) ->
  (forall s v, P s -> P (set_discogs_data (insert "user"%string v) s)) ->
  (forall s fs, P s -> P (set_discogs_data (insert "folders"%string (VFolders fs)) s)) ->
  (forall s i n, identity w = Ok i -> Identity.num_collection i = Ok n -> P s ->
     P (set_discogs_data (insert "collection_count"%string (VInt n)) s)) ->
  (forall s n, P s -> P (set_discogs_data (insert "wantlist_count"%string (VInt n)) s)) ->
  (forall s, P s ->
     P (set_discogs_data (insert "currency_symbol"%string (currency_symbol s)) s)) ->
  (forall s, P s ->
     P (set_discogs_data (insert "collection_value_min"%string (collection_value_min_str s)) s)) ->
  (forall s, P s ->
     P (set_discogs_data (insert "collection_value_median"%string (collection_value_median_str s)) s)) ->
  (forall s, P s ->
     P (set_discogs_data (insert "collection_value_max"%string (collection_value_max_str s)) s)) ->
  invariant P (fetch_identity_and_value w).
Proof.
  intros Hcall Hstrs Hid Hcur Huser Hfolders Hcount Hwant Hsym Hmin Hmed Hmax.
  unfold fetch_identity_and_value.
  apply invariant_bind_identity; [assumption|].
  intros i Hi.
  apply invariant_bind; [apply invariant_modify; intros; apply (Hid _ _ Hi); assumption|].
  intros _. apply invariant_bind_lift. intros _ _.
  apply invariant_bind_lift. intros _ _.
  apply invariant_bind_lift. intros name_ _.
  apply invariant_bind; [apply invariant_modify; intros; apply Huser; assumption|].
  intros _. apply invariant_bind_lift. intros folders _.
  apply invariant_bind; [apply invariant_modify; intros; apply Hfolders; assumption|].
  intros _. apply invariant_bind_lift. intros n Hn.
  apply invariant_bind;
    [apply invariant_modify; intros; apply (Hcount _ _ _ Hi Hn); assumption|].
  intros _. apply invariant_bind_lift. intros wn _.
  apply invariant_bind; [apply invariant_modify; intros; apply Hwant; assumption|].
  intros _.
  apply invariant_bind; [apply invariant_modify; intros; apply (Hcur _ _ Hi); assumption|].
  intros _.
  apply invariant_bind; [apply invariant_modify; assumption|].
  intros _.
  apply invariant_bind; [assumption|].
  intros _.
  apply invariant_bind; [apply invariant_modify; assumption|].
  intros _.
  apply invariant_bind; [apply invariant_modify; assumption|].
  intros _. apply invariant_modify; assumption.
Qed.

Ltac unfold_setup :=
  unfold build_snapshot, identity_and_value_block,
    fetch_identity_and_value, fetch_collection_value,
    bind, lift, assign, assign_local, modify.

(** Looking a key up after a chain of assignments to the snapshot. *)
Ltac lookup_assigned :=
  repeat first
    [ rewrite lookup_insert_eq
    | rewrite lookup_insert_ne by discriminate ].

Lemma initial_lookup (k : string) :
  discogs_data initial_frame !! k =
  if (k =? "user")%string then Some (VStr (str "Unknown"))
  else if (k =? "folders")%string then Some (VFolders [])
  else if (k =? "collection_count")%string then Some (VInt 0)
  else if (k =? "wantlist_count")%string then Some (VInt 0)
  else if (k =? "collection_value_min")%string then Some (VStr (str "0.00"))
  else if (k =? "collection_value_median")%string then Some (VStr (str "0.00"))
  else if (k =? "collection_value_max")%string then Some (VStr (str "0.00"))
  else if (k =? "currency_symbol")%string then Some (VStr (str "$"))
  else if (k =? SENSOR_VINYL_COUNT_TYPE)%string then Some (VInt 0)
  else if (k =? SENSOR_CD_COUNT_TYPE)%string then Some (VInt 0)
  else None.
Proof.
  unfold initial_frame. cbn [discogs_data].
  repeat match goal with
  | |- context [(k =? ?x)%string] =>
      destruct (String.eqb_spec k x) as [-> | ?];
      [lookup_assigned; reflexivity | rewrite (lookup_insert_ne _ x k) by congruence]
  end.
  lookup_assigned. apply lookup_empty.
Qed.

Lemma identity_and_value_block_frame (w : Remote) (s : frame) :
  snd (identity_and_value_block w s) = snd (fetch_identity_and_value w s).
Proof.
  unfold identity_and_value_block.
  destruct (fetch_identity_and_value w s) as [[[] | []] s']; reflexivity.
Qed.

Lemma build_snapshot_frame (w : Remote) :
  snd (build_snapshot w) =
  match fst (identity_and_value_block w initial_frame) with
  | Continue => snd (format_count_step (snd (fetch_identity_and_value w initial_frame)))
  | _ => snd (fetch_identity_and_value w initial_frame)
  end.
Proof.
  unfold build_snapshot.
  rewrite <- identity_and_value_block_frame.
  destruct (identity_and_value_block w initial_frame) as [[] s]; reflexivity.
Qed.

Ltac initial_lookups :=
  rewrite ?initial_lookup; cbn [String.eqb Ascii.eqb Bool.eqb]; try reflexivity.

(** C5. When the identity reports a collection count of 0, setup never
    iterates the releases of a folder, and the vinyl and CD counts of the
    snapshot are their initial 0. *)
Theorem empty_collection_skips_classification (w : Remote) (i : Identity.t) :
  identity w = Ok i ->
  Identity.num_collection i = Ok 0 ->
  let s := snd (build_snapshot w) in
  ~ In CallReleases (calls s)
  /\ discogs_data s !! SENSOR_VINYL_COUNT_TYPE = Some (VInt 0)
  /\ discogs_data s !! SENSOR_CD_COUNT_TYPE = Some (VInt 0).
Proof.
  intros Hi Hn. cbv zeta.
  set (P := fun s : frame =>
    (~ In CallReleases (calls s)
     /\ discogs_data s !! SENSOR_VINYL_COUNT_TYPE = Some (VInt 0)
     /\ discogs_data s !! SENSOR_CD_COUNT_TYPE = Some (VInt 0))
    /\ discogs_data s !! "collection_count" = Some (VInt 0)).
  assert (Hcall : forall s c, c <> CallReleases -> P s -> P (add_call c s)).
  { intros s c Hc [(H1 & H2 & H3) H4]. repeat split; try assumption.
    cbn [calls add_call]. rewrite in_app_iff. intros [H | [H | []]]; congruence. }
  assert (Hins : forall s k v, k <> SENSOR_VINYL_COUNT_TYPE -> k <> SENSOR_CD_COUNT_TYPE ->
            k <> "collection_count"%string ->
            P s -> P (set_discogs_data (insert k v) s)).
  { intros s k v K1 K2 K3 [(H1 & H2 & H3) H4]. unfold P. cbn [calls discogs_data set_discogs_data].
    rewrite !lookup_insert_ne by assumption. auto. }
  assert (HP : P (snd (fetch_identity_and_value w initial_frame))).
  { apply invariant_fetch_identity_and_value.
    - intros s Hs. apply Hcall; [discriminate | exact Hs].
    - apply invariant_fetch_collection_value.
      + intros s Hs. apply Hcall; [discriminate | exact Hs].
      + intros s a b c Hs. exact Hs.
    - intros s j _ Hs. exact Hs.
    - intros s j _ Hs. exact Hs.
    - intros. apply Hins; [discriminate.. | assumption].
    - intros. apply Hins; [discriminate.. | assumption].
    - intros s j n Hj Hjn [(H1 & H2 & H3) H4].
      assert (j = i) by congruence. subst j.
      assert (n = 0) by congruence. subst n.
      unfold P. cbn [calls discogs_data set_discogs_data].
      rewrite !lookup_insert_ne by discriminate. rewrite lookup_insert_eq. auto.
    - intros. apply Hins; [discriminate.. | assumption].
    - intros. apply Hins; [discriminate.. | assumption].
    - intros. apply Hins; [discriminate.. | assumption].
    - intros. apply Hins; [discriminate.. | assumption].
    - intros. apply Hins; [discriminate.. | assumption].
    - unfold P. cbn [calls initial_frame]. split; [split; [intros []|]|];
        initial_lookups. split; initial_lookups. }
  rewrite build_snapshot_frame.
  destruct (fst (identity_and_value_block w initial_frame)); try apply HP.
  unfold format_count_step.
  destruct HP as [HP Hc]. rewrite Hc.
  destruct (discogs_identity _); exact HP.
Qed.

(** C6. When the identity fetch raises the client's HTTP error, setup
    returns without creating an entity, and no exception leaves it. *)
Theorem unauthorized_token_aborts_setup (config : ConfigType) (w : Remote) :
  identity w = Raise DiscogsHTTPError ->
  setup_platform config w = Aborted.
Proof.
  intros Hi. unfold setup_platform. unfold_setup. unfold call_identity.
  rewrite Hi. reflexivity.
Qed.

(** The format counting assigns the two counters only. *)
Lemma format_count_step_lookup (s : frame) (k : string) :
  k <> SENSOR_VINYL_COUNT_TYPE -> k <> SENSOR_CD_COUNT_TYPE ->
  discogs_data (snd (format_count_step s)) !! k = discogs_data s !! k.
Proof.
  intros Hv Hc. unfold format_count_step, format_count_block.
  destruct (discogs_identity s); [|reflexivity].
  destruct (discogs_data s !! "collection_count") as [[| | n | | | | |]|];
    try reflexivity.
  destruct (0 <? n); [|reflexivity].
  destruct (discogs_data s !! "folders") as [[| | | | | | | [|main_folder fs]]|];
    try reflexivity.
  destruct (count_formats (releases main_folder) 0 0) as [[v c] | []];
    try reflexivity.
  cbn [snd discogs_data set_discogs_data add_call].
  rewrite !lookup_insert_ne by congruence. reflexivity.
Qed.

Lemma build_snapshot_lookup (w : Remote) (k : string) :
  k <> SENSOR_VINYL_COUNT_TYPE -> k <> SENSOR_CD_COUNT_TYPE ->
  discogs_data (snd (build_snapshot w)) !! k
  = discogs_data (snd (fetch_identity_and_value w initial_frame)) !! k.
Proof.
  intros Hv Hc. rewrite build_snapshot_frame.
  destruct (fst (identity_and_value_block w initial_frame)); try reflexivity.
  apply format_count_step_lookup; assumption.
Qed.

Lemma currency_after_identity (w : Remote) (i : Identity.t)
    (nm un : value) (fs : list CollectionFolder) (n wn : Z) :
  identity w = Ok i ->
  Identity.name i = Ok nm ->
  Identity.username i = Ok un ->
  Identity.collection_folders i = Ok fs ->
  Identity.num_collection i = Ok n ->
  Identity.num_wantlist i = Ok wn ->
  discogs_data (snd (fetch_identity_and_value w initial_frame)) !! "currency_symbol"
  = Some (resolve_currency i (VStr (str "$"))).
Proof.
  intros Hi Hnm Hun Hfs Hn Hwn. unfold_setup. unfold call_identity.
  rewrite Hi. cbn beta iota. rewrite Hnm. cbn beta iota. rewrite Hun, Hfs, Hn, Hwn.
  cbn beta iota.
  destruct (collection_value w) as [[| | | | | | [|kv raw] |] | []];
    cbn [snd discogs_data set_discogs_data set_value_strs set_currency_symbol
         set_discogs_identity add_call currency_symbol initial_frame];
    lookup_assigned; reflexivity.
Qed.

(** A read of the identity that raises leaves the outer [try] before the
    currency is looked at. *)
Lemma currency_after_failed_read (w : Remote) (i : Identity.t) :
  identity w = Ok i ->
  (exists x, Identity.name i = Raise x)
  \/ (exists x, Identity.username i = Raise x)
  \/ (exists x, Identity.collection_folders i = Raise x)
  \/ (exists x, Identity.num_collection i = Raise x)
  \/ (exists x, Identity.num_wantlist i = Raise x) ->
  discogs_data (snd (fetch_identity_and_value w initial_frame)) !! "currency_symbol"
  = Some (VStr (str "$")).
Proof.
  intros Hi Hfail. unfold_setup. unfold call_identity.
  rewrite Hi. cbn beta iota.
  destruct (Identity.name i) as [nm | x1] eqn:Hnm; cbn beta iota;
    [| cbn [snd discogs_data set_discogs_identity add_call initial_frame];
       lookup_assigned; reflexivity].
  destruct (Identity.username i) as [un | x2] eqn:Hun; cbn beta iota;
    [| cbn [snd discogs_data set_discogs_identity add_call initial_frame];
       lookup_assigned; reflexivity].
  destruct (Identity.collection_folders i) as [fs | x3] eqn:Hfs; cbn beta iota;
    [| cbn [snd discogs_data set_discogs_data set_discogs_identity add_call initial_frame];
       lookup_assigned; reflexivity].
  destruct (Identity.num_collection i) as [n | x4] eqn:Hn; cbn beta iota;
    [| cbn [snd discogs_data set_discogs_data set_discogs_identity add_call initial_frame];
       lookup_assigned; reflexivity].
  destruct (Identity.num_wantlist i) as [wn | x5] eqn:Hwn; cbn beta iota;
    [| cbn [snd discogs_data set_discogs_data set_discogs_identity add_call initial_frame];
       lookup_assigned; reflexivity].
  exfalso.
  destruct Hfail as [[x H] | [[x H] | [[x H] | [[x H] | [x H]]]]]; discriminate H.
Qed.

(** C7, as amended. For every identity object whose name, username,
    collection folders, collection count and wantlist count are read
    without an exception, the currency symbol of the snapshot is the
    identity's [curr_abbr] attribute when the identity has one that is
    truthy (not empty, not [None]); else the value under ['curr_abbr'] of
    the identity's raw data map when that value is there and truthy; else
    ["$"]. When one of these reads raises, the resolution is not reached
    and the symbol is ["$"], whatever the identity's currency is. *)
Theorem currency_symbol_resolution (w : Remote) (i : Identity.t) :
  identity w = Ok i ->
  exists symbol,
    discogs_data (snd (build_snapshot w)) !! "currency_symbol" = Some symbol
    /\ ((exists nm un fs n wn,
           Identity.name i = Ok nm
           /\ Identity.username i = Ok un
           /\ Identity.collection_folders i = Ok fs
           /\ Identity.num_collection i = Ok n
           /\ Identity.num_wantlist i = Ok wn) ->
        (forall a, Identity.curr_abbr i = Some a -> truthy a = true -> symbol = a)
        /\ (forall d v,
              (forall a, Identity.curr_abbr i = Some a -> truthy a = false) ->
              Identity.data i = Some (VDict d) ->
              dict_get d (str "curr_abbr") = Some v ->
              truthy v = true ->
              symbol = v)
        /\ ((forall a, Identity.curr_abbr i = Some a -> truthy a = false) ->
            (forall d v, Identity.data i = Some (VDict d) ->
                         dict_get d (str "curr_abbr") = Some v ->
                         truthy v = false) ->
            symbol = VStr (str "$")))
    /\ ((exists x, Identity.name i = Raise x)
        \/ (exists x, Identity.username i = Raise x)
        \/ (exists x, Identity.collection_folders i = Raise x)
        \/ (exists x, Identity.num_collection i = Raise x)
        \/ (exists x, Identity.num_wantlist i = Raise x) ->
        symbol = VStr (str "$")).
Proof.
  intros Hi.
  assert (Hcases :
    (exists nm un fs n wn,
        Identity.name i = Ok nm
        /\ Identity.username i = Ok un
        /\ Identity.collection_folders i = Ok fs
        /\ Identity.num_collection i = Ok n
        /\ Identity.num_wantlist i = Ok wn)
    \/ ((exists x, Identity.name i = Raise x)
        \/ (exists x, Identity.username i = Raise x)
        \/ (exists x, Identity.collection_folders i = Raise x)
        \/ (exists x, Identity.num_collection i = Raise x)
        \/ (exists x, Identity.num_wantlist i = Raise x))).
  { destruct (Identity.name i) as [nm|x]; [|right; eauto].
    destruct (Identity.username i) as [un|x]; [|right; eauto].
    destruct (Identity.collection_folders i) as [fs|x]; [|right; eauto 6].
    destruct (Identity.num_collection i) as [n|x]; [|right; eauto 7].
    destruct (Identity.num_wantlist i) as [wn|x]; [|right; eauto 8].
    left. exists nm, un, fs, n, wn. repeat split; reflexivity. }
  destruct Hcases as [Hok | Hfail].
  - exists (resolve_currency i (VStr (str "$"))). split; [|split].
    + destruct Hok as (nm & un & fs & n & wn & Hnm & Hun & Hfs & Hn & Hwn).
      rewrite build_snapshot_lookup by discriminate.
      apply (currency_after_identity w i nm un fs n wn); assumption.
    + intros _. unfold resolve_currency. split; [|split].
      * intros a Ha Ht. rewrite Ha, Ht. reflexivity.
      * intros d v Hattr Hd Hv Ht.
        destruct (Identity.curr_abbr i) as [a|].
        -- rewrite (Hattr a eq_refl), Hd, Hv, Ht. reflexivity.
        -- rewrite Hd, Hv, Ht. reflexivity.
      * intros Hattr Hdata.
        assert (Hraw : match Identity.data i with
                       | Some (VDict d) =>
                           match dict_get d (str "curr_abbr") with
                           | Some v => if truthy v then v else VStr (str "$")
                           | None => VStr (str "$")
                           end
                       | _ => VStr (str "$")
                       end = VStr (str "$")).
        { destruct (Identity.data i) as [[| | | | | | d |]|]; try reflexivity.
          destruct (dict_get d (str "curr_abbr")) as [v|] eqn:Hv; [|reflexivity].
          rewrite (Hdata d v eq_refl Hv). reflexivity. }
        destruct (Identity.curr_abbr i) as [a|]; [rewrite (Hattr a eq_refl)|]; exact Hraw.
    + intros Hfail. exfalso.
      destruct Hok as (nm & un & fs & n & wn & Hnm & Hun & Hfs & Hn & Hwn).
      destruct Hfail as [[x H] | [[x H] | [[x H] | [[x H] | [x H]]]]]; congruence.
  - exists (VStr (str "$")). split; [|split].
    + rewrite build_snapshot_lookup by discriminate.
      apply (currency_after_failed_read w i); assumption.
    + intros Hok. exfalso.
      destruct Hok as (nm & un & fs & n & wn & Hnm & Hun & Hfs & Hn & Hwn).
      destruct Hfail as [[x H] | [[x H] | [[x H] | [[x H] | [x H]]]]]; congruence.
    + intros _. reflexivity.
Qed.

Lemma make_entities_share_snapshot (d : gmap string value) (name_ : pystr)
    (monitored : list string) (types : list SensorEntityDescription)
    (entities : list DiscogsSensor) (e : DiscogsSensor) :
  make_entities d name_ monitored types = Ok entities ->
  In e entities -> _discogs_data e = d.
Proof.
  revert entities. induction types as [|description types IH]; intros entities H He.
  - cbn in H. inversion H; subst. destruct He.
  - cbn [make_entities] in H.
    destruct (existsb (String.eqb (key description)) monitored); [|eauto].
    destruct (DiscogsSensor_init d name_ description) as [e0|] eqn:Hinit; [|discriminate].
    destruct (make_entities d name_ monitored types) as [es|]; [|discriminate].
    inversion H; subst. destruct He as [<- | He]; [|eauto].
    unfold DiscogsSensor_init in Hinit.
    destruct (is_value_key (key description)).
    + destruct (d !! "currency_symbol"); inversion Hinit; reflexivity.
    + inversion Hinit; reflexivity.
Qed.

Lemma setup_added_snapshot (config : ConfigType) (w : Remote)
    (entities : list DiscogsSensor) (e : DiscogsSensor) :
  setup_platform config w = Added entities -> In e entities ->
  _discogs_data e = discogs_data (snd (build_snapshot w)).
Proof.
  unfold setup_platform. intros H He.
  destruct (build_snapshot w) as [[] s]; try discriminate.
  destruct (make_entities _ _ _ _) as [es|] eqn:Hes; [|discriminate].
  inversion H; subst. cbn [snd].
  eapply make_entities_share_snapshot; eassumption.
Qed.

Lemma is_Some_insert (d : gmap string value) (k k' : string) (v : value) :
  is_Some (d !! k) -> is_Some (<[k' := v]> d !! k).
Proof.
  intros H. destruct (decide (k' = k)) as [-> | Hne].
  - rewrite lookup_insert_eq. eauto.
  - rewrite lookup_insert_ne by exact Hne. exact H.
Qed.

(** The four fields are in the snapshot from its creation on. *)
Lemma fields_present (w : Remote) (k : string) :
  is_Some (discogs_data initial_frame !! k) ->
  is_Some (discogs_data (snd (build_snapshot w)) !! k).
Proof.
  intros Hk.
  assert (HP : is_Some (discogs_data (snd (fetch_identity_and_value w initial_frame)) !! k)).
  { apply (invariant_fetch_identity_and_value (fun s => is_Some (discogs_data s !! k)));
      try (intros; cbn [discogs_data set_discogs_data add_call set_discogs_identity
                        set_currency_symbol];
           first [assumption | apply is_Some_insert; assumption]).
    apply invariant_fetch_collection_value; intros; assumption. }
  rewrite build_snapshot_frame.
  destruct (fst (identity_and_value_block w initial_frame)); try exact HP.
  unfold format_count_step, format_count_block.
  destruct (discogs_identity _); [|exact HP].
  destruct (discogs_data _ !! "collection_count") as [[| | n | | | | |]|];
    try exact HP.
  destruct (0 <? n); [|exact HP].
  destruct (discogs_data _ !! "folders") as [[| | | | | | | [|main_folder fs]]|];
    try exact HP.
  destruct (count_formats (releases main_folder) 0 0) as [[v c] | []];
    try exact HP.
  cbn [snd discogs_data set_discogs_data add_call].
  do 2 apply is_Some_insert. exact HP.
Qed.

(** A failed identity fetch leaves the snapshot as it was created. *)
Lemma snapshot_after_failed_identity (w : Remote) (x : exn) (k : string) :
  identity w = Raise x ->
  discogs_data (snd (build_snapshot w)) !! k = discogs_data initial_frame !! k.
Proof.
  intros Hi. rewrite build_snapshot_frame.
  assert (Hf : fetch_identity_and_value w initial_frame
               = (Raise x, add_call CallIdentity initial_frame)).
  { unfold fetch_identity_and_value, bind, call_identity. rewrite Hi. reflexivity. }
  unfold identity_and_value_block. rewrite Hf.
  destruct x; reflexivity.
Qed.

(** A failed valuation fetch leaves the three figures at ["0.00"]. *)
Lemma snapshot_after_failed_valuation (w : Remote) (x : exn) (k : string) :
  collection_value w = Raise x ->
  k = "collection_value_min"%string \/ k = "collection_value_median"%string
  \/ k = "collection_value_max"%string ->
  discogs_data (snd (build_snapshot w)) !! k = Some (VStr (str "0.00")).
Proof.
  intros Hv Hk.
  assert (Hkv : k <> SENSOR_VINYL_COUNT_TYPE /\ k <> SENSOR_CD_COUNT_TYPE).
  { destruct Hk as [-> | [-> | ->]]; split; discriminate. }
  rewrite build_snapshot_lookup by tauto.
  set (P := fun s : frame =>
    (collection_value_min_str s = VStr (str "0.00")
     /\ collection_value_median_str s = VStr (str "0.00")
     /\ collection_value_max_str s = VStr (str "0.00"))
    /\ discogs_data s !! "collection_value_min" = Some (VStr (str "0.00"))
    /\ discogs_data s !! "collection_value_median" = Some (VStr (str "0.00"))
    /\ discogs_data s !! "collection_value_max" = Some (VStr (str "0.00"))).
  assert (Hins : forall s k' v, k' <> "collection_value_min"%string ->
            k' <> "collection_value_median"%string ->
            k' <> "collection_value_max"%string ->
            P s -> P (set_discogs_data (insert k' v) s)).
  { intros s k' v K1 K2 K3 [Hl (H1 & H2 & H3)]. unfold P.
    cbn [discogs_data set_discogs_data collection_value_min_str
         collection_value_median_str collection_value_max_str].
    rewrite !lookup_insert_ne by assumption. auto. }
  assert (HP : P (snd (fetch_identity_and_value w initial_frame))).
  { apply invariant_fetch_identity_and_value.
    - intros s Hs. exact Hs.
    - intros s Hs. unfold fetch_collection_value. rewrite Hv.
      destruct x; exact Hs.
    - intros s j _ Hs. exact Hs.
    - intros s j _ Hs. exact Hs.
    - intros. apply Hins; [discriminate.. | assumption].
    - intros. apply Hins; [discriminate.. | assumption].
    - intros. apply Hins; [discriminate.. | assumption].
    - intros. apply Hins; [discriminate.. | assumption].
    - intros. apply Hins; [discriminate.. | assumption].
    - intros s [(L1 & L2 & L3) (H1 & H2 & H3)]. unfold P.
      cbn [discogs_data set_discogs_data collection_value_min_str
           collection_value_median_str collection_value_max_str].
      rewrite L1, lookup_insert_eq, !lookup_insert_ne by discriminate. auto.
    - intros s [(L1 & L2 & L3) (H1 & H2 & H3)]. unfold P.
      cbn [discogs_data set_discogs_data collection_value_min_str
           collection_value_median_str collection_value_max_str].
      rewrite L2, lookup_insert_eq, !lookup_insert_ne by discriminate. auto.
    - intros s [(L1 & L2 & L3) (H1 & H2 & H3)]. unfold P.
      cbn [discogs_data set_discogs_data collection_value_min_str
           collection_value_median_str collection_value_max_str].
      rewrite L3, lookup_insert_eq, !lookup_insert_ne by discriminate. auto.
    - unfold P. cbn [initial_frame collection_value_min_str
           collection_value_median_str collection_value_max_str].
      repeat split; initial_lookups. }
  destruct HP as [_ (H1 & H2 & H3)].
  destruct Hk as [-> | [-> | ->]]; assumption.
Qed.

(** C8. In the snapshot of every entity that setup hands to the host,
    the three valuation figures and the currency symbol are present;
    when the identity fetch fails they are ["0.00"] and ["$"], and when the
    valuation fetch or the decoding of its body fails the figures are
    ["0.00"]. *)
Theorem valuation_and_currency_always_present
    (config : ConfigType) (w : Remote)
    (entities : list DiscogsSensor) (e : DiscogsSensor) :
  setup_platform config w = Added entities ->
  In e entities ->
  let d := _discogs_data e in
  (is_Some (d !! "collection_value_min")
   /\ is_Some (d !! "collection_value_median")
   /\ is_Some (d !! "collection_value_max")
   /\ is_Some (d !! "currency_symbol"))
  /\ (forall x, identity w = Raise x ->
        d !! "collection_value_min" = Some (VStr (str "0.00"))
        /\ d !! "collection_value_median" = Some (VStr (str "0.00"))
        /\ d !! "collection_value_max" = Some (VStr (str "0.00"))
        /\ d !! "currency_symbol" = Some (VStr (str "$")))
  /\ (forall x, collection_value w = Raise x ->
        d !! "collection_value_min" = Some (VStr (str "0.00"))
        /\ d !! "collection_value_median" = Some (VStr (str "0.00"))
        /\ d !! "collection_value_max" = Some (VStr (str "0.00"))).
Proof.
  intros Hsetup He. cbv zeta. rewrite (setup_added_snapshot config w entities e Hsetup He).
  split; [|split].
  - repeat split; apply fields_present; initial_lookups; eauto.
  - intros x Hx. rewrite !(snapshot_after_failed_identity w x _ Hx).
    repeat split; initial_lookups.
  - intros x Hx. repeat split; apply (snapshot_after_failed_valuation w x); auto.
Qed.

(** *** The random record *)

Lemma update_random_key (self : DiscogsSensor) (g : rng) :
  key (entity_description self) = SENSOR_RANDOM_RECORD_TYPE ->
  update self g =
  match get_random_record self g with
  | (Ok v, p) =>
      {| poll_sensor := set_native_value (poll_sensor p) v;
         poll_raised := None;
         poll_rng := poll_rng p;
         poll_fetched := poll_fetched p |}
  | (Raise _, p) => p
  end.
Proof. intros Hk. unfold update. rewrite Hk. reflexivity. Qed.

(** With a first folder that reports items, the poll draws an index for
    its count and requests that release. *)
Lemma update_random_nonempty (self : DiscogsSensor) (g : rng)
    (collection : CollectionFolder) (rest : list CollectionFolder) :
  key (entity_description self) = SENSOR_RANDOM_RECORD_TYPE ->
  _discogs_data self !! "folders" = Some (VFolders (collection :: rest)) ->
  0 < count collection ->
  update self g =
  match releases_getitem collection (fst (randrange g (count collection))) with
  | Ok random_record =>
      {| poll_sensor :=
           set_native_value (set_attrs self random_record)
             (VStr (record_label random_record));
         poll_raised := None;
         poll_rng := snd (randrange g (count collection));
         poll_fetched := Some (fst (randrange g (count collection))) |}
  | Raise e =>
      {| poll_sensor := self;
         poll_raised := Some e;
         poll_rng := snd (randrange g (count collection));
         poll_fetched := Some (fst (randrange g (count collection))) |}
  end.
Proof.
  intros Hk Hf Hc. rewrite (update_random_key self g Hk).
  unfold get_random_record. rewrite Hf.
  apply Z.ltb_lt in Hc. rewrite Hc.
  destruct (randrange g (count collection)) as [i g']. cbn [fst snd].
  destruct (releases_getitem collection i); reflexivity.
Qed.

(** Without a first folder that reports items, the poll stores [None] and
    touches nothing else. *)
Lemma update_random_empty (self : DiscogsSensor) (g : rng)
    (folders : list CollectionFolder) :
  key (entity_description self) = SENSOR_RANDOM_RECORD_TYPE ->
  _discogs_data self !! "folders" = Some (VFolders folders) ->
  folders = [] \/ (exists collection rest,
                     folders = collection :: rest /\ count collection <= 0) ->
  update self g =
  {| poll_sensor := set_native_value self VNone; poll_raised := None;
     poll_rng := g; poll_fetched := None |}.
Proof.
  intros Hk Hf He. rewrite (update_random_key self g Hk).
  unfold get_random_record. rewrite Hf.
  destruct He as [-> | (collection & rest & -> & Hc)]; [reflexivity|].
  apply Z.ltb_ge in Hc. rewrite Hc. reflexivity.
Qed.

Lemma get_random_record_keeps (self : DiscogsSensor) (g : rng) :
  entity_description (poll_sensor (snd (get_random_record self g)))
  = entity_description self
  /\ _discogs_data (poll_sensor (snd (get_random_record self g)))
     = _discogs_data self.
Proof.
  unfold get_random_record.
  destruct (_discogs_data self !! "folders") as [v|]; [|split; reflexivity].
  destruct v as [| | | | | | | [|collection rest]]; cbn [truthy];
    try (split; reflexivity);
    try (match goal with |- context [if ?b then _ else _] => destruct b end;
         split; reflexivity).
  destruct (0 <? count collection); [|split; reflexivity].
  destruct (randrange g (count collection)) as [i g'].
  destruct (releases_getitem collection i); split; reflexivity.
Qed.

(** [update] never replaces the description or the snapshot reference. *)
Lemma update_keeps_description_and_snapshot (self : DiscogsSensor) (g : rng) :
  entity_description (poll_sensor (update self g)) = entity_description self
  /\ _discogs_data (poll_sensor (update self g)) = _discogs_data self.
Proof.
  pose proof (get_random_record_keeps self g) as Hr.
  unfold update.
  destruct (get_random_record self g) as [[v | e] p]; cbn [snd] in Hr.
  all: repeat match goal with
  | |- context [if ?b then _ else _] => destruct b
  | |- context [match ?d !! ?k with Some _ => _ | None => _ end] => destruct (d !! k)
  end; try (split; reflexivity); exact Hr.
Qed.

Lemma polled_keeps_description_and_snapshot (self0 self : DiscogsSensor) :
  polled self0 self ->
  entity_description self = entity_description self0
  /\ _discogs_data self = _discogs_data self0.
Proof.
  induction 1 as [| self' g _ [IHd IHs]]; [split; reflexivity|].
  destruct (update_keeps_description_and_snapshot self' g) as [Hd Hs].
  split; congruence.
Qed.

Lemma init_fields (d : gmap string value) (name_ : pystr)
    (description : SensorEntityDescription) (self0 : DiscogsSensor) :
  DiscogsSensor_init d name_ description = Ok self0 ->
  entity_description self0 = description
  /\ _discogs_data self0 = d
  /\ _attrs self0 = None.
Proof.
  unfold DiscogsSensor_init. intros H.
  destruct (is_value_key (key description));
    [destruct (d !! "currency_symbol"); [|discriminate]|];
    inversion H; subst; repeat split; reflexivity.
Qed.

(** On a snapshot without a first folder that reports items, no poll
    ever caches attributes. *)
Lemma polled_empty_keeps_no_attrs (d : gmap string value) (name_ : pystr)
    (description : SensorEntityDescription) (self0 self : DiscogsSensor)
    (folders : list CollectionFolder) :
  key description = SENSOR_RANDOM_RECORD_TYPE ->
  DiscogsSensor_init d name_ description = Ok self0 ->
  d !! "folders" = Some (VFolders folders) ->
  folders = [] \/ (exists collection rest,
                     folders = collection :: rest /\ count collection <= 0) ->
  polled self0 self ->
  _attrs self = None.
Proof.
  intros Hk Hinit Hf He Hp.
  destruct (init_fields _ _ _ _ Hinit) as (Hd0 & Hs0 & Ha0).
  induction Hp as [| self' g Hp' IH]; [exact Ha0|].
  destruct (polled_keeps_description_and_snapshot _ _ Hp') as [Hd Hs].
  rewrite (update_random_empty self' g folders); [exact IH | congruence | congruence | exact He].
Qed.

(** C9. A poll of the random-record sensor. When the first folder exists
    and reports a positive count, the index requested from the remote
    collection is the draw of [randrange] for that count (within
    [0, count) whenever [randrange] draws within its range), and when the
    release is fetched its raw attributes are cached and its label becomes
    the value. When the folder list is empty or the first folder reports
    no item, the value is [None], nothing is requested, and no attributes
    are cached. *)
Theorem random_record_poll
    (d : gmap string value) (name_ : pystr) (description : SensorEntityDescription)
    (self0 self : DiscogsSensor) (g : rng) :
  key description = SENSOR_RANDOM_RECORD_TYPE ->
  DiscogsSensor_init d name_ description = Ok self0 ->
  polled self0 self ->
  let p := update self g in
  (forall collection rest,
     d !! "folders" = Some (VFolders (collection :: rest)) ->
     0 < count collection ->
     let random_index := fst (randrange g (count collection)) in
     poll_fetched p = Some random_index
     /\ ((forall g' n, 0 < n -> 0 <= fst (randrange g' n) < n) ->
         0 <= random_index < count collection)
     /\ (forall random_record,
           releases_getitem collection random_index = Ok random_record ->
           _attrs (poll_sensor p) = Some random_record
           /\ _attr_native_value (poll_sensor p) = VStr (record_label random_record)
           /\ poll_raised p = None))
  /\ (forall folders,
        d !! "folders" = Some (VFolders folders) ->
        folders = [] \/ (exists collection rest,
                           folders = collection :: rest /\ count collection <= 0) ->
        _attr_native_value (poll_sensor p) = VNone
        /\ _attrs (poll_sensor p) = None
        /\ poll_fetched p = None
        /\ poll_raised p = None).
Proof.
  intros Hk Hinit Hp. cbv zeta.
  destruct (init_fields _ _ _ _ Hinit) as (Hd0 & Hs0 & Ha0).
  destruct (polled_keeps_description_and_snapshot _ _ Hp) as [Hd Hs].
  assert (Hkey : key (entity_description self) = SENSOR_RANDOM_RECORD_TYPE) by congruence.
  assert (Hdata : _discogs_data self = d) by congruence.
  split.
  - intros collection rest Hf Hc.
    rewrite (update_random_nonempty self g collection rest Hkey) by congruence.
    split; [|split].
    + destruct (releases_getitem collection _); reflexivity.
    + intros Hrange. apply Hrange, Hc.
    + intros random_record Hr. rewrite Hr. repeat split; reflexivity.
  - intros folders Hf He.
    rewrite (update_random_empty self g folders Hkey) by congruence.
    cbn [poll_sensor poll_fetched poll_raised set_native_value _attr_native_value _attrs].
    repeat split; try reflexivity.
    exact (polled_empty_keeps_no_attrs d name_ description self0 self folders
             Hk Hinit Hf He Hp).
Qed.


End Properties.

(** ** The properties at sample inputs *)

Ltac decorate :=
  repeat first
    [ apply decorated_nil
    | apply decorated_keep
    | apply decorated_comma
    | apply decorated_symbol; [reflexivity | discriminate |] ].

Lemma valuation_with_separators_and_symbol_witness :
  is_value_key (key (entity_description
                       (sensor_on SENSOR_COLLECTION_VALUE_MEDIAN_TYPE sample_snapshot))) = true
  /\ sample_snapshot !! SENSOR_COLLECTION_VALUE_MEDIAN_TYPE = Some (VStr sample_valuation)
  /\ decorated no_decimal sample_valuation (str "1792790.00")
  /\ _attr_native_value
       (poll_sensor
          (update no_decimal Z counter_randrange
             (sensor_on SENSOR_COLLECTION_VALUE_MEDIAN_TYPE sample_snapshot) 0))
     = VFloat (S754_finite false 7699974418595840 (-32)).
Proof.
  assert (H1 : is_value_key
                 (key (entity_description
                         (sensor_on SENSOR_COLLECTION_VALUE_MEDIAN_TYPE sample_snapshot)))
               = true) by reflexivity.
  assert (H2 : sample_snapshot !! SENSOR_COLLECTION_VALUE_MEDIAN_TYPE
               = Some (VStr sample_valuation)) by (vm_compute; reflexivity).
  assert (H3 : decorated no_decimal sample_valuation (str "1792790.00")).
  { unfold sample_valuation. decorate. }
  split; [exact H1 | split; [exact H2 | split; [exact H3 |]]].
  exact (valuation_with_separators_and_symbol no_decimal Z counter_randrange
           (sensor_on SENSOR_COLLECTION_VALUE_MEDIAN_TYPE sample_snapshot) 0
           sample_valuation H1 H2 H3).
Defined.

Lemma empty_valuation_is_null_witness :
  is_value_key (key (entity_description
                       (sensor_on SENSOR_COLLECTION_VALUE_MIN_TYPE sample_snapshot))) = true
  /\ sample_snapshot !! SENSOR_COLLECTION_VALUE_MIN_TYPE = Some (VStr sample_symbol_only)
  /\ clean no_decimal sample_symbol_only = []
  /\ _attr_native_value
       (poll_sensor
          (update no_decimal Z counter_randrange
             (sensor_on SENSOR_COLLECTION_VALUE_MIN_TYPE sample_snapshot) 0))
     = VNone
  /\ _attr_native_value
       (poll_sensor
          (update no_decimal Z counter_randrange
             (on_snapshot (sensor_on SENSOR_COLLECTION_VALUE_MEDIAN_TYPE sample_snapshot)
                (<[SENSOR_COLLECTION_VALUE_MIN_TYPE := VStr (str "1.00")]> sample_snapshot))
             0))
     = _attr_native_value
         (poll_sensor
            (update no_decimal Z counter_randrange
               (sensor_on SENSOR_COLLECTION_VALUE_MEDIAN_TYPE sample_snapshot) 0)).
Proof.
  assert (H1 : is_value_key
                 (key (entity_description
                         (sensor_on SENSOR_COLLECTION_VALUE_MIN_TYPE sample_snapshot)))
               = true) by reflexivity.
  assert (H2 : sample_snapshot !! SENSOR_COLLECTION_VALUE_MIN_TYPE
               = Some (VStr sample_symbol_only)) by (vm_compute; reflexivity).
  assert (H3 : clean no_decimal sample_symbol_only = []) by reflexivity.
  assert (H4 : key (entity_description
                      (sensor_on SENSOR_COLLECTION_VALUE_MEDIAN_TYPE sample_snapshot))
               <> key (entity_description
                         (sensor_on SENSOR_COLLECTION_VALUE_MIN_TYPE sample_snapshot)))
    by discriminate.
  pose proof (empty_valuation_is_null no_decimal Z counter_randrange
                (sensor_on SENSOR_COLLECTION_VALUE_MIN_TYPE sample_snapshot)
                (sensor_on SENSOR_COLLECTION_VALUE_MEDIAN_TYPE sample_snapshot)
                0 0 sample_symbol_only (VStr (str "1.00"))
                H1 H2 (or_intror H3) H4) as (Hp & _ & Hq & _).
  split; [exact H1 | split; [exact H2 | split; [exact H3 | split]]].
  - rewrite Hp. reflexivity.
  - exact Hq.
Defined.

(** C3, as stated, fails: for the figure ["0.0131"] the value stored
    after the multiplication and the division is the binary64 number next
    above the one that parsing the string gives. *)
Lemma roundtrip_differs_on_four_decimals :
  parse_value_direct no_decimal (sample_snapshot !! SENSOR_COLLECTION_VALUE_MAX_TYPE)
  = VFloat (S754_finite false 7551635855174848 (-59))
  /\ _attr_native_value
       (poll_sensor
          (update no_decimal Z counter_randrange
             (sensor_on SENSOR_COLLECTION_VALUE_MAX_TYPE sample_snapshot) 0))
     = VFloat (S754_finite false 7551635855174849 (-59))
  /\ _attr_native_value
       (poll_sensor
          (update no_decimal Z counter_randrange
             (sensor_on SENSOR_COLLECTION_VALUE_MAX_TYPE sample_snapshot) 0))
     <> parse_value_direct no_decimal
          (sample_snapshot !! SENSOR_COLLECTION_VALUE_MAX_TYPE).
Proof.
  split; [vm_compute; reflexivity | split; [vm_compute; reflexivity |]].
  vm_compute. discriminate.
Qed.

Lemma roundtrip_is_identity_up_to_three_places_witness :
  is_value_key (key (entity_description
                       (sensor_on SENSOR_COLLECTION_VALUE_MIN_TYPE sample_snapshot_cents))) = true
  /\ sample_snapshot_cents !! SENSOR_COLLECTION_VALUE_MIN_TYPE = Some (VStr sample_cents)
  /\ decimal_of_str no_decimal (clean no_decimal sample_cents) = Some (950157, 2)
  /\ 950157 * 1000 = 9501570 * 10 ^ 2
  /\ 9501570 < 2 ^ 53
  /\ _attr_native_value
       (poll_sensor
          (update no_decimal Z counter_randrange
             (sensor_on SENSOR_COLLECTION_VALUE_MIN_TYPE sample_snapshot_cents) 0))
     = parse_value_direct no_decimal
         (sample_snapshot_cents !! SENSOR_COLLECTION_VALUE_MIN_TYPE).
Proof.
  assert (H1 : is_value_key
                 (key (entity_description
                         (sensor_on SENSOR_COLLECTION_VALUE_MIN_TYPE sample_snapshot_cents)))
               = true) by reflexivity.
  assert (H2 : sample_snapshot_cents !! SENSOR_COLLECTION_VALUE_MIN_TYPE
               = Some (VStr sample_cents)) by (vm_compute; reflexivity).
  assert (H3 : decimal_of_str no_decimal (clean no_decimal sample_cents)
               = Some (950157, 2)) by reflexivity.
  assert (H4 : 950157 * 1000 = 9501570 * 10 ^ 2) by reflexivity.
  assert (H5 : 9501570 < 2 ^ 53) by reflexivity.
  split; [exact H1 | split; [exact H2 | split; [exact H3 | split; [exact H4 | split; [exact H5 |]]]]].
  exact (roundtrip_is_identity_up_to_three_places no_decimal Z counter_randrange
           (sensor_on SENSOR_COLLECTION_VALUE_MIN_TYPE sample_snapshot_cents) 0
           sample_cents 950157 2 9501570 H1 H2 H3 H4 H5).
Defined.

Lemma classification_counts_first_formats_witness :
  discogs_data (set_discogs_data (fun _ => sample_snapshot) initial_frame) !! "folders"
  = Some (VFolders [folder_of_items 4 sample_items])
  /\ discogs_data
       (snd (format_count_block no_lower
               (set_discogs_data (fun _ => sample_snapshot) initial_frame)))
     !! SENSOR_VINYL_COUNT_TYPE = Some (VInt 2)
  /\ discogs_data
       (snd (format_count_block no_lower
               (set_discogs_data (fun _ => sample_snapshot) initial_frame)))
     !! SENSOR_CD_COUNT_TYPE = Some (VInt 1).
Proof.
  assert (H1 : discogs_data (set_discogs_data (fun _ => sample_snapshot) initial_frame)
               !! "folders"
               = Some (VFolders [folder_of_items 4 sample_items]))
    by (vm_compute; reflexivity).
  split; [exact H1|].
  pose proof (classification_counts_first_formats no_lower
                (set_discogs_data (fun _ => sample_snapshot) initial_frame)
                4 sample_items [] H1) as [H _].
  destruct (format_count_block no_lower
              (set_discogs_data (fun _ => sample_snapshot) initial_frame))
    as [ctl s'].
  destruct H as (_ & Hv & Hc). cbn [snd]. split; [exact Hv | exact Hc].
Defined.

Lemma empty_collection_skips_classification_witness :
  identity sample_remote_empty = Ok (sample_identity 0 [folder_of_items 0 []] None None)
  /\ Identity.num_collection (sample_identity 0 [folder_of_items 0 []] None None) = Ok 0
  /\ ~ In CallReleases (calls (snd (build_snapshot no_lower sample_remote_empty)))
  /\ discogs_data (snd (build_snapshot no_lower sample_remote_empty))
     !! SENSOR_VINYL_COUNT_TYPE = Some (VInt 0)
  /\ discogs_data (snd (build_snapshot no_lower sample_remote_empty))
     !! SENSOR_CD_COUNT_TYPE = Some (VInt 0).
Proof.
  split; [reflexivity | split; [reflexivity|]].
  exact (empty_collection_skips_classification no_lower sample_remote_empty
           (sample_identity 0 [folder_of_items 0 []] None None) eq_refl eq_refl).
Defined.

Lemma unauthorized_token_aborts_setup_witness :
  identity sample_remote_unauthorized = Raise DiscogsHTTPError
  /\ setup_platform no_lower sample_config sample_remote_unauthorized = Aborted.
Proof.
  split; [reflexivity|].
  exact (unauthorized_token_aborts_setup no_lower sample_config
           sample_remote_unauthorized eq_refl).
Defined.

(** C7, as stated, fails: a ['curr_abbr'] that is present in the raw
    data map but empty is passed over for ["$"], an attribute that is
    there but empty is passed over for the currency of the raw data map,
    and an attribute that is there and holds a currency is not looked at
    when the wantlist count cannot be read, although setup goes on to
    hand the entities to the host. *)
Lemma present_currency_is_passed_over :
  (Identity.data identity_with_empty_currency
   = Some (VDict [(str "curr_abbr", VStr [])])
   /\ currency_by_presence identity_with_empty_currency = VStr []
   /\ discogs_data (snd (build_snapshot no_lower sample_remote_empty_currency))
      !! "currency_symbol" = Some (VStr (str "$"))
   /\ discogs_data (snd (build_snapshot no_lower sample_remote_empty_currency))
      !! "currency_symbol"
      <> Some (currency_by_presence identity_with_empty_currency))
  /\ (Identity.curr_abbr identity_with_empty_attribute = Some (VStr [])
      /\ currency_by_presence identity_with_empty_attribute = VStr []
      /\ discogs_data (snd (build_snapshot no_lower sample_remote_empty_attribute))
         !! "currency_symbol" = Some (VStr (str "EUR")))
  /\ (Identity.curr_abbr identity_with_failing_wantlist = Some (VStr (str "EUR"))
      /\ currency_by_presence identity_with_failing_wantlist = VStr (str "EUR")
      /\ is_added (setup_platform no_lower sample_config sample_remote_failing_wantlist)
         = true
      /\ discogs_data (snd (build_snapshot no_lower sample_remote_failing_wantlist))
         !! "currency_symbol" = Some (VStr (str "$"))).
Proof.
  split; [split; [reflexivity | split; [reflexivity | split]] | split].
  - vm_compute. reflexivity.
  - vm_compute. discriminate.
  - split; [reflexivity | split; [reflexivity |]]. vm_compute. reflexivity.
  - split; [reflexivity | split; [reflexivity | split]]; vm_compute; reflexivity.
Qed.

Lemma currency_symbol_resolution_witness :
  identity sample_remote_empty_attribute = Ok identity_with_empty_attribute
  /\ discogs_data (snd (build_snapshot no_lower sample_remote_empty_attribute))
     !! "currency_symbol" = Some (VStr (str "EUR")).
Proof.
  split; [reflexivity|].
  destruct (currency_symbol_resolution no_lower sample_remote_empty_attribute
              identity_with_empty_attribute eq_refl)
    as (symbol & Hs & Hok & _).
  destruct Hok as (_ & Hraw & _).
  { exists (VStr (str "Ada")), (VStr (str "ada")), [], 0, 2.
    repeat split; reflexivity. }
  rewrite Hs. f_equal.
  apply (Hraw [(str "curr_abbr", VStr (str "EUR"))] (VStr (str "EUR"))).
  - intros a Ha. inversion Ha. reflexivity.
  - reflexivity.
  - reflexivity.
  - reflexivity.
Defined.

Lemma valuation_and_currency_always_present_witness :
  setup_platform no_lower sample_config sample_remote_value_down = Added sample_entities
  /\ In sample_entity sample_entities
  /\ collection_value sample_remote_value_down = Raise RequestException
  /\ is_Some (_discogs_data sample_entity !! "currency_symbol")
  /\ _discogs_data sample_entity !! "collection_value_median" = Some (VStr (str "0.00")).
Proof.
  assert (H1 : setup_platform no_lower sample_config sample_remote_value_down
               = Added sample_entities) by (vm_compute; reflexivity).
  assert (H2 : In sample_entity sample_entities) by (vm_compute; left; reflexivity).
  split; [exact H1 | split; [exact H2 | split; [reflexivity|]]].
  destruct (valuation_and_currency_always_present no_lower sample_config
              sample_remote_value_down sample_entities sample_entity H1 H2)
    as ((_ & _ & _ & Hc) & _ & Hv).
  split; [exact Hc|].
  exact (proj1 (proj2 (Hv RequestException eq_refl))).
Defined.

Lemma random_record_poll_witness :
  key random_record_description = SENSOR_RANDOM_RECORD_TYPE
  /\ DiscogsSensor_init sample_snapshot (str "Discogs") random_record_description
     = Ok (fresh_random_sensor sample_snapshot)
  /\ polled no_decimal Z counter_randrange (fresh_random_sensor sample_snapshot)
       (poll_sensor (update no_decimal Z counter_randrange
                       (fresh_random_sensor sample_snapshot) 7))
  /\ sample_snapshot !! "folders" = Some (VFolders [folder_of_items 4 sample_items])
  /\ 0 < count (folder_of_items 4 sample_items)
  /\ poll_fetched
       (update no_decimal Z counter_randrange
          (poll_sensor (update no_decimal Z counter_randrange
                          (fresh_random_sensor sample_snapshot) 7))
          5)
     = Some (fst (counter_randrange 5 (count (folder_of_items 4 sample_items)))).
Proof.
  assert (H1 : key random_record_description = SENSOR_RANDOM_RECORD_TYPE) by reflexivity.
  assert (H2 : DiscogsSensor_init sample_snapshot (str "Discogs") random_record_description
               = Ok (fresh_random_sensor sample_snapshot)) by reflexivity.
  assert (H3 : polled no_decimal Z counter_randrange (fresh_random_sensor sample_snapshot)
                 (poll_sensor (update no_decimal Z counter_randrange
                                 (fresh_random_sensor sample_snapshot) 7))).
  { apply polled_step. apply polled_refl. }
  assert (H4 : sample_snapshot !! "folders"
               = Some (VFolders [folder_of_items 4 sample_items]))
    by (vm_compute; reflexivity).
  assert (H5 : 0 < count (folder_of_items 4 sample_items)) by (cbn; lia).
  split; [exact H1 | split; [exact H2 | split; [exact H3 | split; [exact H4 | split; [exact H5|]]]]].
  destruct (random_record_poll no_decimal Z counter_randrange sample_snapshot
              (str "Discogs") random_record_description
              (fresh_random_sensor sample_snapshot)
              (poll_sensor (update no_decimal Z counter_randrange
                              (fresh_random_sensor sample_snapshot) 7))
              5 H1 H2 H3) as [Hnonempty _].
  exact (proj1 (Hnonempty (folder_of_items 4 sample_items) [] H4 H5)).
Defined.



(** * Further properties of the platform *)

Section Coverage.

Variable nonascii_decimal : N -> option N.
Variable nonascii_lower : pystr -> pystr.
Variable rng : Type.
Variable randrange : rng -> Z -> Z * rng.

Local Abbreviation isdecimal := (isdecimal nonascii_decimal).
Local Abbreviation clean := (clean nonascii_decimal).
Local Abbreviation decimal_of_str := (decimal_of_str nonascii_decimal).
Local Abbreviation float_of_str := (float_of_str nonascii_decimal).
Local Abbreviation parse_value := (parse_value nonascii_decimal).
Local Abbreviation count_digits := (count_digits nonascii_decimal).
Local Abbreviation update := (update nonascii_decimal rng randrange).
Local Abbreviation polled := (polled nonascii_decimal rng randrange).
Local Abbreviation classify := (classify nonascii_lower).
Local Abbreviation count_formats := (count_formats nonascii_lower).
Local Abbreviation build_snapshot := (build_snapshot nonascii_lower).
Local Abbreviation setup_platform := (setup_platform nonascii_lower).
Local Abbreviation format_count_step := (format_count_step nonascii_lower).
Local Abbreviation format_count_block := (format_count_block nonascii_lower).
Local Abbreviation matches := (matches nonascii_lower).
Local Abbreviation count_matching := (count_matching nonascii_lower).

(** ** The entities that setup creates *)

Lemma make_entities_init (d : gmap string value) (name_ : pystr)
    (monitored : list string) (types : list SensorEntityDescription)
    (entities : list DiscogsSensor) (e : DiscogsSensor) :
  make_entities d name_ monitored types = Ok entities ->
  In e entities ->
  exists description,
    In description types
    /\ existsb (String.eqb (key description)) monitored = true
    /\ DiscogsSensor_init d name_ description = Ok e.
Proof.
  revert entities. induction types as [|description types IH]; intros entities H He.
  - cbn in H. inversion H; subst. destruct He.
  - cbn [make_entities] in H.
    destruct (existsb (String.eqb (key description)) monitored) eqn:Hm.
    + destruct (DiscogsSensor_init d name_ description) as [e0|] eqn:Hinit; [|discriminate].
      destruct (make_entities d name_ monitored types) as [es|]; [|discriminate].
      inversion H; subst. destruct He as [<- | He].
      * exists description. split; [left; reflexivity | split; assumption].
      * destruct (IH es eq_refl He) as (desc & Hin & Hrest).
        exists desc. split; [right; exact Hin | exact Hrest].
    + destruct (IH entities H He) as (desc & Hin & Hrest).
      exists desc. split; [right; exact Hin | exact Hrest].
Qed.

Lemma make_entities_keys (d : gmap string value) (name_ : pystr)
    (monitored : list string) (types : list SensorEntityDescription)
    (entities : list DiscogsSensor) :
  make_entities d name_ monitored types = Ok entities ->
  map (fun e => key (entity_description e)) entities
  = List.filter (fun k => existsb (String.eqb k) monitored) (map key types).
Proof.
  revert entities. induction types as [|description types IH]; intros entities H.
  - cbn in H. inversion H; subst. reflexivity.
  - cbn [make_entities] in H. cbn [map List.filter].
    destruct (existsb (String.eqb (key description)) monitored) eqn:Hm; [|auto].
    destruct (DiscogsSensor_init d name_ description) as [e0|] eqn:Hinit; [|discriminate].
    destruct (make_entities d name_ monitored types) as [es|]; [|discriminate].
    inversion H; subst. cbn [map].
    destruct (init_fields _ _ _ _ Hinit) as (Hd & _). rewrite Hd, (IH es eq_refl).
    reflexivity.
Qed.

(** With the currency symbol in the snapshot no constructor raises. *)
Lemma make_entities_ok (d : gmap string value) (name_ : pystr)
    (monitored : list string) (types : list SensorEntityDescription) :
  is_Some (d !! "currency_symbol") ->
  exists entities, make_entities d name_ monitored types = Ok entities.
Proof.
  intros [c Hc]. induction types as [|description types [es IH]].
  - exists []. reflexivity.
  - cbn [make_entities]. rewrite IH.
    destruct (existsb (String.eqb (key description)) monitored); [|eauto].
    unfold DiscogsSensor_init. rewrite Hc.
    destruct (is_value_key (key description)); eauto.
Qed.

(** The collection count of the snapshot is an [int] throughout. *)
Lemma collection_count_int (w : Remote) :
  exists n,
    discogs_data (snd (fetch_identity_and_value w initial_frame)) !! "collection_count"
    = Some (VInt n).
Proof.
  apply (invariant_fetch_identity_and_value
           (fun s => exists n, discogs_data s !! "collection_count" = Some (VInt n))).
  - intros s Hs. exact Hs.
  - apply invariant_fetch_collection_value; intros; assumption.
  - intros s i _ Hs. exact Hs.
  - intros s i _ Hs. exact Hs.
  - intros s v [n Hn]. exists n. cbn [discogs_data set_discogs_data].
    rewrite lookup_insert_ne by discriminate. exact Hn.
  - intros s v [n Hn]. exists n. cbn [discogs_data set_discogs_data].
    rewrite lookup_insert_ne by discriminate. exact Hn.
  - intros s i n _ _ _. exists n. cbn [discogs_data set_discogs_data].
    apply lookup_insert_eq.
  - intros s v [n Hn]. exists n. cbn [discogs_data set_discogs_data].
    rewrite lookup_insert_ne by discriminate. exact Hn.
  - intros s [n Hn]. exists n. cbn [discogs_data set_discogs_data].
    rewrite lookup_insert_ne by discriminate. exact Hn.
  - intros s [n Hn]. exists n. cbn [discogs_data set_discogs_data].
    rewrite lookup_insert_ne by discriminate. exact Hn.
  - intros s [n Hn]. exists n. cbn [discogs_data set_discogs_data].
    rewrite lookup_insert_ne by discriminate. exact Hn.
  - intros s [n Hn]. exists n. cbn [discogs_data set_discogs_data].
    rewrite lookup_insert_ne by discriminate. exact Hn.
  - exists 0. rewrite initial_lookup. reflexivity.
Qed.

Lemma format_count_block_control (s : frame) (e : exn) :
  fst (format_count_block s) = Escape e -> e = NonException.
Proof.
  unfold format_count_block.
  destruct (discogs_data s !! "folders") as [[| | | | | | | [|main_folder fs]]|];
    try discriminate.
  destruct (count_formats (releases main_folder) 0 0) as [[v c] | []];
    cbn [fst]; try discriminate.
  intros H. inversion H. reflexivity.
Qed.

(** What leaves the part of setup before the entities is no [Exception]. *)
Lemma build_snapshot_control (w : Remote) (e : exn) :
  fst (build_snapshot w) = Escape e -> e = NonException.
Proof.
  unfold build_snapshot.
  pose proof (identity_and_value_block_frame w initial_frame) as Hs.
  destruct (collection_count_int w) as [n Hn]. rewrite <- Hs in Hn.
  unfold identity_and_value_block in *.
  destruct (fetch_identity_and_value w initial_frame) as [[[] | []] s'];
    cbn [fst snd] in *; try discriminate;
    try (intros H; inversion H; reflexivity);
    unfold format_count_step; rewrite Hn;
    (destruct (discogs_identity s'); [|discriminate]);
    (destruct (0 <? n); [apply format_count_block_control | discriminate]).
Qed.

(** How setup ends, from how the part before the entities ends. *)
Lemma setup_platform_cases (config : ConfigType) (w : Remote) :
  match fst (build_snapshot w) with
  | Continue =>
      exists entities,
        make_entities (discogs_data (snd (build_snapshot w))) (CONF_NAME config)
          (CONF_MONITORED_CONDITIONS config) SENSOR_TYPES = Ok entities
        /\ setup_platform config w = Added entities
  | Return => setup_platform config w = Aborted
  | Escape e => setup_platform config w = Escaped e
  end.
Proof.
  pose proof (fields_present nonascii_lower w "currency_symbol") as Hc.
  unfold setup_platform.
  destruct (build_snapshot w) as [[| | e] s]; cbn [fst snd] in *; try reflexivity.
  destruct (make_entities_ok (discogs_data s) (CONF_NAME config)
              (CONF_MONITORED_CONDITIONS config) SENSOR_TYPES) as [es Hes].
  { apply Hc. rewrite initial_lookup. cbn. eauto. }
  exists es. rewrite Hes. split; reflexivity.
Qed.

Lemma setup_added_entities (config : ConfigType) (w : Remote)
    (entities : list DiscogsSensor) :
  setup_platform config w = Added entities ->
  fst (build_snapshot w) = Continue
  /\ make_entities (discogs_data (snd (build_snapshot w))) (CONF_NAME config)
       (CONF_MONITORED_CONDITIONS config) SENSOR_TYPES = Ok entities.
Proof.
  intros H. pose proof (setup_platform_cases config w) as Hc.
  destruct (fst (build_snapshot w)); [| congruence | congruence].
  destruct Hc as (es & Hes & Hadd). split; [reflexivity|]. congruence.
Qed.

(** X1. No [Exception] leaves setup: what escapes it is a
    [BaseException] outside [Exception], raised by a remote call. The
    constructors of the entities find the currency symbol they read, and
    the collection count compared in line 221 is the [int] that the
    identity gave or the initial 0. *)
Theorem only_interrupts_leave_setup (config : ConfigType) (w : Remote) (e : exn) :
  setup_platform config w = Escaped e -> e = NonException.
Proof.
  intros H. pose proof (setup_platform_cases config w) as Hc.
  pose proof (build_snapshot_control w) as Hb.
  destruct (fst (build_snapshot w)) as [| | e'].
  - destruct Hc as (es & _ & Hadd). congruence.
  - congruence.
  - rewrite Hc in H. inversion H; subst. apply Hb. reflexivity.
Qed.

Lemma sensor_keys_distinct : List.NoDup SENSOR_KEYS.
Proof.
  unfold SENSOR_KEYS, SENSOR_TYPES. cbn [map key].
  repeat (constructor; [cbn [In]; intros H;
    repeat (destruct H as [H | H]; [discriminate H|]); exact H |]).
  constructor.
Qed.

(** X2. The entities handed to the host are one for each description of
    [SENSOR_TYPES] whose key is among the monitored conditions, in the
    order of [SENSOR_TYPES]: a key listed twice gives one entity and a key
    that names no description gives none. Each entity is named after the
    configured name and its description, and has neither a value nor
    cached attributes yet. *)
Theorem entities_follow_monitored_conditions
    (config : ConfigType) (w : Remote) (entities : list DiscogsSensor) :
  setup_platform config w = Added entities ->
  map (fun e => key (entity_description e)) entities
  = List.filter (fun k => existsb (String.eqb k) (CONF_MONITORED_CONDITIONS config))
      SENSOR_KEYS
  /\ List.NoDup (map (fun e => key (entity_description e)) entities)
  /\ (forall e, In e entities ->
        In (entity_description e) SENSOR_TYPES
        /\ _attr_name e = CONF_NAME config ++ str " " ++ str (name (entity_description e))
        /\ _attr_native_value e = VNone
        /\ _attrs e = None).
Proof.
  intros H. destruct (setup_added_entities config w entities H) as [_ Hes].
  pose proof (make_entities_keys _ _ _ _ _ Hes) as Hk.
  split; [exact Hk | split].
  - rewrite Hk. apply List.NoDup_filter, sensor_keys_distinct.
  - intros e He.
    destruct (make_entities_init _ _ _ _ _ e Hes He) as (desc & Hin & _ & Hinit).
    unfold DiscogsSensor_init in Hinit.
    destruct (is_value_key (key desc));
      [destruct (_ !! "currency_symbol"); [|discriminate]|];
      inversion Hinit; subst; cbn; repeat split; try reflexivity; exact Hin.
Qed.

(** X3. Every entity that reports the monetary device class carries the
    currency symbol of the finished snapshot as its unit of measurement,
    and for every other entity the constructor sets no unit. *)
Theorem monetary_entities_carry_currency
    (config : ConfigType) (w : Remote) (entities : list DiscogsSensor)
    (e : DiscogsSensor) :
  setup_platform config w = Added entities ->
  In e entities ->
  exists symbol,
    discogs_data (snd (build_snapshot w)) !! "currency_symbol" = Some symbol
    /\ ((device_class e = Some "monetary"%string
         /\ _attr_native_unit_of_measurement e = Some symbol)
        \/ (device_class e = None
            /\ _attr_native_unit_of_measurement e = None)).
Proof.
  intros H He. destruct (setup_added_entities config w entities H) as [_ Hes].
  destruct (make_entities_init _ _ _ _ _ e Hes He) as (desc & _ & _ & Hinit).
  destruct (fields_present nonascii_lower w "currency_symbol") as [symbol Hs].
  { rewrite initial_lookup. cbn. eauto. }
  exists symbol. split; [exact Hs|].
  unfold DiscogsSensor_init in Hinit. rewrite Hs in Hinit. unfold device_class.
  destruct (is_value_key (key desc)) eqn:Hk; inversion Hinit; subst;
    cbn [entity_description _attr_native_unit_of_measurement]; rewrite Hk;
    [left | right]; split; reflexivity.
Qed.

(** X4. When the identity fetch raises an [Exception] other than the
    client's HTTP error, setup still hands the entities to the host; no
    further remote call is made, and the snapshot they share is the
    initial one. *)
Theorem failed_identity_keeps_defaults
    (config : ConfigType) (w : Remote) (x : exn) :
  identity w = Raise x ->
  x <> DiscogsHTTPError ->
  x <> NonException ->
  exists entities,
    setup_platform config w = Added entities
    /\ calls (snd (build_snapshot w)) = [CallIdentity]
    /\ (forall e, In e entities -> _discogs_data e = discogs_data initial_frame).
Proof.
  intros Hi Hh Hn.
  assert (Hb : build_snapshot w = (Continue, add_call CallIdentity initial_frame)).
  { unfold build_snapshot, identity_and_value_block, fetch_identity_and_value,
      bind, call_identity. rewrite Hi. destruct x; try reflexivity; congruence. }
  pose proof (setup_platform_cases config w) as Hc. rewrite Hb in Hc. cbn [fst snd] in Hc.
  destruct Hc as (es & Hes & Hadd). exists es. rewrite Hb. cbn [snd].
  split; [exact Hadd | split; [reflexivity|]].
  intros e He. apply (make_entities_share_snapshot _ _ _ _ _ e Hes He).
Qed.

(** ** The snapshot after the identity was read *)

(** What the outer [try] leaves when every read of the identity
    succeeds. *)
Lemma frame_after_identity (w : Remote) (i : Identity.t)
    (nm un : value) (fs : list CollectionFolder) (n wn : Z) :
  identity w = Ok i ->
  Identity.name i = Ok nm ->
  Identity.username i = Ok un ->
  Identity.collection_folders i = Ok fs ->
  Identity.num_collection i = Ok n ->
  Identity.num_wantlist i = Ok wn ->
  let s := snd (fetch_identity_and_value w initial_frame) in
  let figure k :=
    match collection_value w with
    | Ok (VDict (kv :: raw)) => get_or_default (kv :: raw) k
    | _ => VStr (str "0.00")
    end in
  discogs_identity s = Some i
  /\ discogs_data s !! "user" = Some nm
  /\ discogs_data s !! "folders" = Some (VFolders fs)
  /\ discogs_data s !! "collection_count" = Some (VInt n)
  /\ discogs_data s !! "wantlist_count" = Some (VInt wn)
  /\ discogs_data s !! SENSOR_VINYL_COUNT_TYPE = Some (VInt 0)
  /\ discogs_data s !! SENSOR_CD_COUNT_TYPE = Some (VInt 0)
  /\ discogs_data s !! "collection_value_min" = Some (figure "minimum"%string)
  /\ discogs_data s !! "collection_value_median" = Some (figure "median"%string)
  /\ discogs_data s !! "collection_value_max" = Some (figure "maximum"%string).
Proof.
  intros Hi Hnm Hun Hfs Hn Hwn. cbv zeta.
  unfold fetch_identity_and_value, fetch_collection_value,
    bind, lift, assign, assign_local, modify, call_identity.
  rewrite Hi. cbn beta iota. rewrite Hnm. cbn beta iota. rewrite Hun, Hfs, Hn, Hwn.
  cbn beta iota.
  destruct (collection_value w) as [[| | | | | | [|kv raw] |] | []];
    cbn [snd discogs_data set_discogs_data set_value_strs set_currency_symbol
         set_discogs_identity add_call currency_symbol initial_frame
         discogs_identity collection_value_min_str collection_value_median_str
         collection_value_max_str];
    repeat split;
    repeat first
      [ rewrite lookup_insert_eq
      | rewrite lookup_insert_ne by discriminate ];
    reflexivity.
Qed.

Lemma setup_added_frame (config : ConfigType) (w : Remote)
    (entities : list DiscogsSensor) :
  setup_platform config w = Added entities ->
  build_snapshot w
  = format_count_step (snd (fetch_identity_and_value w initial_frame)).
Proof.
  intros H. destruct (setup_added_entities config w entities H) as [Hc _].
  revert Hc. unfold build_snapshot.
  rewrite <- identity_and_value_block_frame.
  destruct (identity_and_value_block w initial_frame) as [[] s];
    cbn [fst snd]; intros Hc; try discriminate; reflexivity.
Qed.

Lemma update_collection_key (self : DiscogsSensor) (g : rng) :
  key (entity_description self) = SENSOR_COLLECTION_TYPE ->
  update self g =
  match _discogs_data self !! "collection_count" with
  | Some v => {| poll_sensor := set_native_value self v; poll_raised := None;
                 poll_rng := g; poll_fetched := None |}
  | None => {| poll_sensor := self; poll_raised := Some OtherException;
               poll_rng := g; poll_fetched := None |}
  end.
Proof. intros Hk. unfold update. rewrite Hk. reflexivity. Qed.

Lemma update_wantlist_key (self : DiscogsSensor) (g : rng) :
  key (entity_description self) = SENSOR_WANTLIST_TYPE ->
  update self g =
  match _discogs_data self !! "wantlist_count" with
  | Some v => {| poll_sensor := set_native_value self v; poll_raised := None;
                 poll_rng := g; poll_fetched := None |}
  | None => {| poll_sensor := self; poll_raised := Some OtherException;
               poll_rng := g; poll_fetched := None |}
  end.
Proof. intros Hk. unfold update. rewrite Hk. reflexivity. Qed.

Lemma update_vinyl_key (self : DiscogsSensor) (g : rng) :
  key (entity_description self) = SENSOR_VINYL_COUNT_TYPE ->
  update self g =
  {| poll_sensor :=
       set_native_value self
         (match _discogs_data self !! SENSOR_VINYL_COUNT_TYPE with
          | Some v => v
          | None => VInt 0
          end);
     poll_raised := None; poll_rng := g; poll_fetched := None |}.
Proof.
  intros Hk. unfold update. rewrite Hk. cbn [String.eqb Ascii.eqb Bool.eqb].
  destruct (_discogs_data self !! SENSOR_VINYL_COUNT_TYPE); reflexivity.
Qed.

Lemma update_cd_key (self : DiscogsSensor) (g : rng) :
  key (entity_description self) = SENSOR_CD_COUNT_TYPE ->
  update self g =
  {| poll_sensor :=
       set_native_value self
         (match _discogs_data self !! SENSOR_CD_COUNT_TYPE with
          | Some v => v
          | None => VInt 0
          end);
     poll_raised := None; poll_rng := g; poll_fetched := None |}.
Proof.
  intros Hk. unfold update. rewrite Hk. cbn [String.eqb Ascii.eqb Bool.eqb].
  destruct (_discogs_data self !! SENSOR_CD_COUNT_TYPE); reflexivity.
Qed.

(** The kinds of sensor that [SENSOR_TYPES] describes. *)
Lemma sensor_types_keys (description : SensorEntityDescription) :
  In description SENSOR_TYPES ->
  key description = SENSOR_COLLECTION_TYPE
  \/ key description = SENSOR_WANTLIST_TYPE
  \/ key description = SENSOR_VINYL_COUNT_TYPE
  \/ key description = SENSOR_CD_COUNT_TYPE
  \/ is_value_key (key description) = true
  \/ key description = SENSOR_RANDOM_RECORD_TYPE.
Proof.
  unfold SENSOR_TYPES. cbn [In].
  intros [<- | [<- | [<- | [<- | [<- | [<- | [<- | [<- | []]]]]]]]]; cbn [key]; auto 10.
Qed.

(** X5. A poll of an entity of setup that is not the random-record
    sensor raises nothing, makes no remote call, draws no random number
    and caches no attributes: the keys it reads are in the snapshot. *)
Theorem entities_poll_from_snapshot
    (config : ConfigType) (w : Remote) (entities : list DiscogsSensor)
    (e : DiscogsSensor) (g : rng) :
  setup_platform config w = Added entities ->
  In e entities ->
  key (entity_description e) <> SENSOR_RANDOM_RECORD_TYPE ->
  poll_raised (update e g) = None
  /\ poll_fetched (update e g) = None
  /\ poll_rng (update e g) = g
  /\ _attrs (poll_sensor (update e g)) = None.
Proof.
  intros H He Hk. destruct (setup_added_entities config w entities H) as [_ Hes].
  destruct (make_entities_init _ _ _ _ _ e Hes He) as (desc & Hin & _ & Hinit).
  destruct (init_fields _ _ _ _ Hinit) as (Hd & Hs & Ha).
  assert (Hpresent : forall k, is_Some (discogs_data initial_frame !! k) ->
                               is_Some (_discogs_data e !! k)).
  { intros k Hk0. rewrite Hs. apply fields_present, Hk0. }
  rewrite <- Hd in Hin.
  destruct (sensor_types_keys _ Hin) as [K | [K | [K | [K | [K | K]]]]].
  - rewrite (update_collection_key e g K).
    destruct (Hpresent "collection_count"%string) as [v ->];
      [rewrite initial_lookup; cbn; eauto|].
    cbn. rewrite Ha. repeat split; reflexivity.
  - rewrite (update_wantlist_key e g K).
    destruct (Hpresent "wantlist_count"%string) as [v ->];
      [rewrite initial_lookup; cbn; eauto|].
    cbn. rewrite Ha. repeat split; reflexivity.
  - rewrite (update_vinyl_key e g K). cbn. rewrite Ha. repeat split; reflexivity.
  - rewrite (update_cd_key e g K). cbn. rewrite Ha. repeat split; reflexivity.
  - rewrite (update_value_key nonascii_decimal rng randrange e g K).
    cbn. rewrite Ha. repeat split; reflexivity.
  - contradiction.
Qed.

(** X6. After a setup in which every read of the identity succeeded, a
    poll of the collection sensor stores the identity's [num_collection]
    and a poll of the wantlist sensor its [num_wantlist], and the user of
    the snapshot is the identity's [name]. *)
Theorem counters_report_identity
    (config : ConfigType) (w : Remote) (entities : list DiscogsSensor)
    (e : DiscogsSensor) (g : rng)
    (i : Identity.t) (nm un : value) (fs : list CollectionFolder) (n wn : Z) :
  setup_platform config w = Added entities ->
  In e entities ->
  identity w = Ok i ->
  Identity.name i = Ok nm ->
  Identity.username i = Ok un ->
  Identity.collection_folders i = Ok fs ->
  Identity.num_collection i = Ok n ->
  Identity.num_wantlist i = Ok wn ->
  _discogs_data e !! "user" = Some nm
  /\ (key (entity_description e) = SENSOR_COLLECTION_TYPE ->
      _attr_native_value (poll_sensor (update e g)) = VInt n)
  /\ (key (entity_description e) = SENSOR_WANTLIST_TYPE ->
      _attr_native_value (poll_sensor (update e g)) = VInt wn).
Proof.
  intros H He Hi Hnm Hun Hfs Hn Hwn.
  pose proof (frame_after_identity w i nm un fs n wn Hi Hnm Hun Hfs Hn Hwn) as F.
  cbv zeta in F. destruct F as (_ & Fu & _ & Fc & Fw & _).
  assert (Hl : forall k, k <> SENSOR_VINYL_COUNT_TYPE -> k <> SENSOR_CD_COUNT_TYPE ->
                 _discogs_data e !! k
                 = discogs_data (snd (fetch_identity_and_value w initial_frame)) !! k).
  { intros k K1 K2. rewrite (setup_added_snapshot nonascii_lower config w entities e H He).
    apply build_snapshot_lookup; assumption. }
  split; [|split].
  - rewrite Hl by discriminate. exact Fu.
  - intros K. rewrite (update_collection_key e g K), Hl, Fc by discriminate. reflexivity.
  - intros K. rewrite (update_wantlist_key e g K), Hl, Fw by discriminate. reflexivity.
Qed.

(** ** The format counts *)

Lemma count_formats_bounds (items : list (result release_data)) (v c v' c' : Z) :
  count_formats items v c = Ok (v', c') ->
  v <= v' /\ c <= c' /\ (v' - v) + (c' - c) <= Z.of_nat (length items).
Proof.
  revert v c. induction items as [|[item | e] items IH]; intros v c H.
  - cbn in H. inversion H; subst. cbn. lia.
  - cbn [count_formats] in H. rewrite classify_counts in H.
    apply IH in H. cbn [length]. rewrite Nat2Z.inj_succ.
    unfold matches in H.
    destruct (first_format_name item) as [nm|].
    + change (lower nonascii_lower (str "vinyl")) with (str "vinyl") in H.
      change (lower nonascii_lower (str "cd")) with (str "cd") in H.
      destruct (pystr_eqb (lower nonascii_lower nm) (str "vinyl")) eqn:Hv.
      * apply pystr_eqb_eq in Hv. rewrite Hv in H.
        change (pystr_eqb (str "vinyl") (str "cd")) with false in H. lia.
      * destruct (pystr_eqb (lower nonascii_lower nm) (str "cd")); lia.
    + lia.
  - discriminate H.
Qed.

(** X7. When the walk over the releases completes, neither counter went
    down and together they went up by at most the number of items: no
    item is counted as both vinyl and CD. *)
Theorem format_counts_bounded
    (items : list (result release_data)) (vinyl cd : Z) :
  count_formats items 0 0 = Ok (vinyl, cd) ->
  0 <= vinyl /\ 0 <= cd /\ vinyl + cd <= Z.of_nat (length items).
Proof.
  intros H. apply count_formats_bounds in H. lia.
Qed.

Lemma count_formats_raise (items : list release_data) (x : exn)
    (more : list (result release_data)) (v c : Z) :
  count_formats (map Ok items ++ Raise x :: more) v c = Raise x.
Proof.
  revert v c. induction items as [|item items IH]; intros v c; [reflexivity|].
  cbn [map app count_formats]. destruct (classify item v c). apply IH.
Qed.

(** X8. After a setup in which every read of the identity succeeded,
    the collection count is positive, there is a first folder and every
    page of its releases loads, the vinyl and CD counts that the entities
    share are the numbers of items of that folder whose first format name
    matches, and the releases were requested. *)
Theorem setup_stores_format_counts
    (config : ConfigType) (w : Remote) (entities : list DiscogsSensor)
    (e : DiscogsSensor)
    (i : Identity.t) (nm un : value) (rest : list CollectionFolder) (n wn cnt : Z)
    (items : list release_data) :
  setup_platform config w = Added entities ->
  In e entities ->
  identity w = Ok i ->
  Identity.name i = Ok nm ->
  Identity.username i = Ok un ->
  Identity.collection_folders i = Ok (folder_of_items cnt items :: rest) ->
  Identity.num_collection i = Ok n ->
  Identity.num_wantlist i = Ok wn ->
  0 < n ->
  _discogs_data e !! SENSOR_VINYL_COUNT_TYPE = Some (VInt (count_matching "vinyl" items))
  /\ _discogs_data e !! SENSOR_CD_COUNT_TYPE = Some (VInt (count_matching "cd" items))
  /\ In CallReleases (calls (snd (build_snapshot w))).
Proof.
  intros H He Hi Hnm Hun Hfs Hn Hwn Hpos.
  pose proof (frame_after_identity w i nm un _ n wn Hi Hnm Hun Hfs Hn Hwn) as F.
  cbv zeta in F. destruct F as (Fi & _ & Ff & Fc & _).
  rewrite (setup_added_snapshot nonascii_lower config w entities e H He).
  rewrite (setup_added_frame config w entities H).
  unfold format_count_step. rewrite Fi, Fc.
  apply Z.ltb_lt in Hpos. rewrite Hpos.
  unfold format_count_block. rewrite Ff.
  cbn [folder_of_items releases]. rewrite count_formats_counts.
  cbn [snd set_discogs_data add_call discogs_data calls]. rewrite !Z.add_0_l.
  split; [|split].
  - rewrite lookup_insert_ne by discriminate. apply lookup_insert_eq.
  - apply lookup_insert_eq.
  - apply in_or_app. right. left. reflexivity.
Qed.

(** X9. When a page of the first folder's releases cannot be fetched,
    the counts of the items walked before it are dropped: the vinyl and
    CD counts that the entities share are the initial 0, whatever those
    items were. *)
Theorem interrupted_walk_drops_counts
    (config : ConfigType) (w : Remote) (entities : list DiscogsSensor)
    (e : DiscogsSensor)
    (i : Identity.t) (nm un : value) (main_folder : CollectionFolder)
    (rest : list CollectionFolder) (n wn : Z)
    (items : list release_data) (x : exn) (more : list (result release_data)) :
  setup_platform config w = Added entities ->
  In e entities ->
  identity w = Ok i ->
  Identity.name i = Ok nm ->
  Identity.username i = Ok un ->
  Identity.collection_folders i = Ok (main_folder :: rest) ->
  Identity.num_collection i = Ok n ->
  Identity.num_wantlist i = Ok wn ->
  releases main_folder = map Ok items ++ Raise x :: more ->
  _discogs_data e !! SENSOR_VINYL_COUNT_TYPE = Some (VInt 0)
  /\ _discogs_data e !! SENSOR_CD_COUNT_TYPE = Some (VInt 0).
Proof.
  intros H He Hi Hnm Hun Hfs Hn Hwn Hr.
  pose proof (frame_after_identity w i nm un _ n wn Hi Hnm Hun Hfs Hn Hwn) as F.
  cbv zeta in F. destruct F as (Fi & _ & Ff & Fc & _ & Fv & Fd & _).
  rewrite (setup_added_snapshot nonascii_lower config w entities e H He).
  rewrite (setup_added_frame config w entities H).
  unfold format_count_step. rewrite Fi, Fc.
  destruct (0 <? n); [|split; assumption].
  unfold format_count_block. rewrite Ff, Hr, count_formats_raise.
  destruct x; cbn [snd add_call discogs_data]; split; assumption.
Qed.

(** X10. After a setup in which every read of the identity succeeded,
    each valuation figure of the snapshot is the value of its own key in
    the response of the valuation endpoint, and ["0.00"] when that key is
    missing from it; a response that is no JSON object, or an empty one,
    leaves all three at ["0.00"]. *)
Theorem valuation_figures_from_response
    (config : ConfigType) (w : Remote) (entities : list DiscogsSensor)
    (e : DiscogsSensor)
    (i : Identity.t) (nm un : value) (fs : list CollectionFolder) (n wn : Z)
    (response : value) :
  setup_platform config w = Added entities ->
  In e entities ->
  identity w = Ok i ->
  Identity.name i = Ok nm ->
  Identity.username i = Ok un ->
  Identity.collection_folders i = Ok fs ->
  Identity.num_collection i = Ok n ->
  Identity.num_wantlist i = Ok wn ->
  collection_value w = Ok response ->
  let figure k :=
    match response with
    | VDict d =>
        match dict_get d (str k) with
        | Some v => v
        | None => VStr (str "0.00")
        end
    | _ => VStr (str "0.00")
    end in
  _discogs_data e !! "collection_value_min" = Some (figure "minimum"%string)
  /\ _discogs_data e !! "collection_value_median" = Some (figure "median"%string)
  /\ _discogs_data e !! "collection_value_max" = Some (figure "maximum"%string).
Proof.
  intros H He Hi Hnm Hun Hfs Hn Hwn Hv. cbv zeta.
  pose proof (frame_after_identity w i nm un fs n wn Hi Hnm Hun Hfs Hn Hwn) as F.
  cbv zeta in F. destruct F as (_ & _ & _ & _ & _ & _ & _ & F1 & F2 & F3).
  rewrite (setup_added_snapshot nonascii_lower config w entities e H He).
  rewrite !(build_snapshot_lookup nonascii_lower w) by discriminate.
  rewrite F1, F2, F3, Hv. unfold get_or_default.
  destruct response as [| | | | | | [|kv raw] |]; repeat split; reflexivity.
Qed.

(** ** Polls *)

Lemma get_random_record_keeps_name (self : DiscogsSensor) (g : rng) :
  let p := snd (get_random_record rng randrange self g) in
  _attr_name (poll_sensor p) = _attr_name self
  /\ _attr_native_unit_of_measurement (poll_sensor p)
     = _attr_native_unit_of_measurement self.
Proof.
  cbv zeta. unfold get_random_record.
  destruct (_discogs_data self !! "folders") as [v|]; [|split; reflexivity].
  destruct v as [| | | | | | | [|collection rest]]; cbn [truthy];
    try (split; reflexivity);
    try (match goal with |- context [if ?b then _ else _] => destruct b end;
         split; reflexivity).
  destruct (0 <? count collection); [|split; reflexivity].
  destruct (randrange g (count collection)) as [i g'].
  destruct (releases_getitem collection i); split; reflexivity.
Qed.

Lemma update_keeps_name (self : DiscogsSensor) (g : rng) :
  _attr_name (poll_sensor (update self g)) = _attr_name self
  /\ _attr_native_unit_of_measurement (poll_sensor (update self g))
     = _attr_native_unit_of_measurement self.
Proof.
  pose proof (get_random_record_keeps_name self g) as Hr. cbv zeta in Hr.
  unfold update.
  destruct (get_random_record rng randrange self g) as [[v | e] p]; cbn [snd] in Hr.
  all: repeat match goal with
  | |- context [if ?b then _ else _] => destruct b
  | |- context [match ?d !! ?k with Some _ => _ | None => _ end] => destruct (d !! k)
  end; try (split; reflexivity); exact Hr.
Qed.

(** X11. However often a sensor is polled, its description, the snapshot
    it refers to, its name and its unit of measurement stay what the
    constructor made them: [update] writes the value and the cached
    attributes only. *)
Theorem polls_keep_what_init_set (self0 self : DiscogsSensor) :
  polled self0 self ->
  entity_description self = entity_description self0
  /\ _discogs_data self = _discogs_data self0
  /\ _attr_name self = _attr_name self0
  /\ _attr_native_unit_of_measurement self = _attr_native_unit_of_measurement self0.
Proof.
  induction 1 as [| self' g _ (IH1 & IH2 & IH3 & IH4)]; [repeat split; reflexivity|].
  destruct (update_keeps_description_and_snapshot nonascii_decimal rng randrange self' g)
    as [H1 H2].
  destruct (update_keeps_name self' g) as [H3 H4].
  repeat split; congruence.
Qed.

(** X12. When the request for the drawn release fails, the exception
    leaves [update]; the sensor keeps the value and the cached attributes
    of the poll before, and the generator has moved on. An index that the
    folder's [count] allows and its releases do not reach fails so. *)
Theorem failed_fetch_leaves_update
    (self : DiscogsSensor) (g : rng)
    (collection : CollectionFolder) (rest : list CollectionFolder) (x : exn) :
  key (entity_description self) = SENSOR_RANDOM_RECORD_TYPE ->
  _discogs_data self !! "folders" = Some (VFolders (collection :: rest)) ->
  0 < count collection ->
  let random_index := fst (randrange g (count collection)) in
  (releases_getitem collection random_index = Raise x ->
   poll_raised (update self g) = Some x
   /\ poll_sensor (update self g) = self
   /\ poll_rng (update self g) = snd (randrange g (count collection)))
  /\ (Z.of_nat (length (releases collection)) <= random_index ->
      poll_raised (update self g) = Some OtherException
      /\ poll_sensor (update self g) = self).
Proof.
  intros Hk Hf Hc. cbv zeta.
  rewrite (update_random_nonempty nonascii_decimal rng randrange self g collection rest
             Hk Hf Hc).
  split.
  - intros Hx. rewrite Hx. repeat split; reflexivity.
  - intros Hlen.
    assert (Hx : releases_getitem collection (fst (randrange g (count collection)))
                 = Raise OtherException).
    { unfold releases_getitem.
      destruct (fst (randrange g (count collection)) <? 0); [reflexivity|].
      destruct (nth_error (releases collection) _) eqn:Hn; [|reflexivity].
      assert (Hb : nth_error (releases collection)
                     (Z.to_nat (fst (randrange g (count collection)))) <> None)
        by (rewrite Hn; discriminate).
      apply List.nth_error_Some in Hb. lia. }
    rewrite Hx. split; reflexivity.
Qed.

(** What a poll of a sensor that is not the random-record one stores is
    fixed by its description and its snapshot. *)
Lemma update_reads_snapshot (self : DiscogsSensor) :
  key (entity_description self) = SENSOR_COLLECTION_TYPE
  \/ key (entity_description self) = SENSOR_WANTLIST_TYPE
  \/ key (entity_description self) = SENSOR_VINYL_COUNT_TYPE
  \/ key (entity_description self) = SENSOR_CD_COUNT_TYPE
  \/ is_value_key (key (entity_description self)) = true ->
  exists stored : option value,
    forall self' g,
      entity_description self' = entity_description self ->
      _discogs_data self' = _discogs_data self ->
      _attr_native_value (poll_sensor (update self' g))
      = match stored with Some v => v | None => _attr_native_value self' end.
Proof.
  intros [K | [K | [K | [K | K]]]].
  - exists (_discogs_data self !! "collection_count"). intros self' g Hd Hs.
    rewrite (update_collection_key self' g) by congruence. rewrite Hs.
    destruct (_discogs_data self !! "collection_count"); reflexivity.
  - exists (_discogs_data self !! "wantlist_count"). intros self' g Hd Hs.
    rewrite (update_wantlist_key self' g) by congruence. rewrite Hs.
    destruct (_discogs_data self !! "wantlist_count"); reflexivity.
  - exists (Some (match _discogs_data self !! SENSOR_VINYL_COUNT_TYPE with
                  | Some v => v | None => VInt 0 end)).
    intros self' g Hd Hs.
    rewrite (update_vinyl_key self' g) by congruence. rewrite Hs. reflexivity.
  - exists (Some (match _discogs_data self !! SENSOR_CD_COUNT_TYPE with
                  | Some v => v | None => VInt 0 end)).
    intros self' g Hd Hs.
    rewrite (update_cd_key self' g) by congruence. rewrite Hs. reflexivity.
  - exists (Some (parse_value (_discogs_data self !! key (entity_description self)))).
    intros self' g Hd Hs.
    rewrite (update_value_key nonascii_decimal rng randrange self' g) by congruence.
    rewrite Hs, Hd. reflexivity.
Qed.

(** X13. The counts and the valuations are never refreshed: for a sensor
    of any kind but the random record, every later poll stores the value
    that the first poll stored. *)
Theorem polls_never_refresh (self0 self : DiscogsSensor) (g0 g : rng) :
  key (entity_description self0) = SENSOR_COLLECTION_TYPE
  \/ key (entity_description self0) = SENSOR_WANTLIST_TYPE
  \/ key (entity_description self0) = SENSOR_VINYL_COUNT_TYPE
  \/ key (entity_description self0) = SENSOR_CD_COUNT_TYPE
  \/ is_value_key (key (entity_description self0)) = true ->
  polled (poll_sensor (update self0 g0)) self ->
  _attr_native_value self = _attr_native_value (poll_sensor (update self0 g0))
  /\ _attr_native_value (poll_sensor (update self g))
     = _attr_native_value (poll_sensor (update self0 g0)).
Proof.
  intros Hk Hp. destruct (update_reads_snapshot self0 Hk) as [stored Hst].
  destruct (update_keeps_description_and_snapshot nonascii_decimal rng randrange self0 g0)
    as [Hd0 Hs0].
  assert (Hvalue : forall self', polled (poll_sensor (update self0 g0)) self' ->
            _attr_native_value self' = _attr_native_value (poll_sensor (update self0 g0))).
  { intros self' Hp'. induction Hp' as [| self'' g' Hp'' IH]; [reflexivity|].
    destruct (polled_keeps_description_and_snapshot nonascii_decimal rng randrange _ _ Hp'')
      as [Hd Hs].
    rewrite (Hst self'' g') by congruence.
    destruct stored as [v|]; [|exact IH].
    rewrite (Hst self0 g0) by reflexivity. reflexivity. }
  split; [apply Hvalue, Hp|].
  apply (Hvalue (poll_sensor (update self g))). constructor. exact Hp.
Qed.

(** ** The valuation string *)

Lemma clean_kept (s : pystr) :
  Forall (fun c => negb (c =? chr_comma)%N && (isdecimal c || (c =? chr_dot)%N) = true)
    (clean s).
Proof.
  induction s as [|c s IH]; [constructor|].
  rewrite clean_cons.
  destruct (negb (c =? chr_comma)%N && (isdecimal c || (c =? chr_dot)%N)) eqn:Hc;
    [constructor; assumption | exact IH].
Qed.

Lemma clean_fixed (t : pystr) :
  Forall (fun c => negb (c =? chr_comma)%N && (isdecimal c || (c =? chr_dot)%N) = true) t ->
  clean t = t.
Proof.
  induction 1 as [|c t Hc _ IH]; [reflexivity|].
  rewrite clean_cons, Hc, IH. reflexivity.
Qed.

Lemma clean_length (s : pystr) : (length (clean s) <= length s)%nat.
Proof.
  induction s as [|c s IH]; [constructor|].
  rewrite clean_cons.
  destruct (negb (c =? chr_comma)%N && (isdecimal c || (c =? chr_dot)%N));
    cbn [length]; lia.
Qed.

Lemma clean_numeric (s : pystr) :
  Forall (fun c => isdecimal c = true \/ c = chr_dot) (clean s).
Proof.
  eapply List.Forall_impl; [|apply clean_kept].
  intros c Hc. apply andb_true_iff in Hc as [_ Hc].
  apply orb_true_iff in Hc as [Hc | Hc]; [left; exact Hc | right].
  apply N.eqb_eq, Hc.
Qed.

(** X14. The cleaning of a valuation string leaves decimal digits and
    points only, never makes the string longer, and cleaning what was
    cleaned changes nothing. *)
Theorem cleaning_keeps_digits_and_points (value_str : pystr) :
  Forall (fun c => isdecimal c = true \/ c = chr_dot) (clean value_str)
  /\ (length (clean value_str) <= length value_str)%nat
  /\ clean (clean value_str) = clean value_str.
Proof.
  split; [apply clean_numeric | split; [apply clean_length|]].
  apply clean_fixed, clean_kept.
Qed.

Lemma point_is_no_digit : isdecimal chr_dot = false.
Proof. reflexivity. Qed.

Lemma count_points_cons (c : N) (s : pystr) :
  count_points (c :: s)
  = if (c =? chr_dot)%N then S (count_points s) else count_points s.
Proof.
  unfold count_points. cbn [List.filter]. destruct (c =? chr_dot)%N; reflexivity.
Qed.

Lemma count_digits_cons (c : N) (s : pystr) :
  count_digits (c :: s)
  = if isdecimal c then S (count_digits s) else count_digits s.
Proof.
  unfold count_digits. cbn [List.filter]. destruct (isdecimal c); reflexivity.
Qed.

(** What [read_digits] reads, by the points and digits of the string. *)
Lemma read_digits_counts (s : pystr) (acc len : Z) :
  Forall (fun c => isdecimal c = true \/ c = chr_dot) s ->
  match read_digits nonascii_decimal s acc len with
  | Some (_, l, None) =>
      count_points s = 0%nat /\ l = len + Z.of_nat (count_digits s)
  | Some (_, l, Some rest) =>
      count_points s = S (count_points rest)
      /\ len + Z.of_nat (count_digits s) = l + Z.of_nat (count_digits rest)
      /\ Forall (fun c => isdecimal c = true \/ c = chr_dot) rest
  | None => False
  end.
Proof.
  revert acc len. induction s as [|c s IH]; intros acc len Hs.
  - cbn. split; [reflexivity | lia].
  - inversion Hs as [| ? ? Hc Hs']; subst. cbn [read_digits].
    rewrite count_points_cons, count_digits_cons.
    destruct (c =? chr_dot)%N eqn:Hdot.
    + apply N.eqb_eq in Hdot. subst c. rewrite point_is_no_digit.
      split; [reflexivity | split; [reflexivity | exact Hs']].
    + destruct Hc as [Hc | Hc]; [|apply N.eqb_neq in Hdot; contradiction].
      rewrite Hc. unfold isdecimal in Hc.
      destruct (decimal nonascii_decimal c) as [d|]; [|discriminate].
      specialize (IH (10 * acc + Z.of_N d) (len + 1) Hs').
      destruct (read_digits nonascii_decimal s _ _) as [[[n l] [rest|]]|];
        [| | exact IH].
      * destruct IH as (H1 & H2 & H3). split; [exact H1 | split; [lia | exact H3]].
      * destruct IH as (H1 & H2). split; [exact H1 | lia].
Qed.

(** A string of digits and points denotes a decimal exactly when it has
    at most one point and at least one digit. *)
Lemma decimal_of_str_accepts (t : pystr) :
  Forall (fun c => isdecimal c = true \/ c = chr_dot) t ->
  decimal_of_str t <> None <-> (count_points t <= 1 /\ 1 <= count_digits t)%nat.
Proof.
  intros Ht. unfold decimal_of_str.
  pose proof (read_digits_counts t 0 0 Ht) as H.
  destruct (read_digits nonascii_decimal t 0 0) as [[[i li] [frac|]]|]; [| |destruct H].
  - destruct H as (Hp & Hd & Hf).
    pose proof (read_digits_counts frac i 0 Hf) as H'.
    destruct (read_digits nonascii_decimal frac i 0) as [[[n lf] [rest|]]|];
      [| |destruct H'].
    + destruct H' as (Hp' & _). split; [congruence | lia].
    + destruct H' as (Hp' & Hl).
      destruct (li + lf =? 0) eqn:Hz.
      * apply Z.eqb_eq in Hz. split; [congruence | lia].
      * apply Z.eqb_neq in Hz. split; [intros _; lia | discriminate].
  - destruct H as (Hp & Hl). destruct t as [|c t].
    + split; [congruence | cbn; lia].
    + split; [intros _ | discriminate].
      split; [lia|]. inversion Ht as [| ? ? Hc _]; subst.
      rewrite count_points_cons in Hp. rewrite count_digits_cons.
      destruct Hc as [Hc | Hc]; [rewrite Hc; lia|].
      subst c. rewrite N.eqb_refl in Hp. discriminate Hp.
Qed.

(** X15. A poll of a valuation sensor stores a number exactly when the
    cleaned string has at most one point and at least one digit;
    otherwise it stores [None]. A figure with points as thousands
    separators, such as ["1.792.790,00"], gives [None]. *)
Theorem valuation_is_number_iff_one_point
    (self : DiscogsSensor) (g : rng) (value_str : pystr) :
  is_value_key (key (entity_description self)) = true ->
  _discogs_data self !! key (entity_description self) = Some (VStr value_str) ->
  let stored := _attr_native_value (poll_sensor (update self g)) in
  (stored <> VNone
   <-> (count_points (clean value_str) <= 1 /\ 1 <= count_digits (clean value_str))%nat)
  /\ (stored = VNone \/ exists f, stored = VFloat f).
Proof.
  intros Hk Hd. cbv zeta.
  rewrite (update_value_key nonascii_decimal rng randrange self g Hk), Hd.
  cbn [poll_sensor set_native_value _attr_native_value].
  pose proof (decimal_of_str_accepts (clean value_str) (clean_numeric value_str)) as Hacc.
  unfold parse_value, float_of_str.
  destruct value_str as [|c s].
  - split; [|left; reflexivity]. split; [congruence | cbn; lia].
  - destruct (clean (c :: s)) as [|c' s'] eqn:Hc.
    + split; [|left; reflexivity]. split; [congruence | cbn; lia].
    + destruct (decimal_of_str (c' :: s')) as [[n k]|].
      * split; [|right; eexists; reflexivity].
        split; [intros _; apply Hacc; discriminate | discriminate].
      * split; [|left; reflexivity].
        split; [congruence | intros H; apply Hacc in H; congruence].
Qed.

(** ** The sign of the stored number *)

Lemma shr_1_nonneg (mrs : shr_record) : 0 <= shr_m mrs -> 0 <= shr_m (shr_1 mrs).
Proof.
  destruct mrs as [m r s]. cbn [shr_m]. intros Hm.
  destruct m as [|p|p]; [cbn; lia | destruct p; cbn; lia | lia].
Qed.

Lemma shr_nonneg (mrs : shr_record) (e n : Z) :
  0 <= shr_m mrs -> 0 <= shr_m (fst (shr mrs e n)).
Proof.
  intros Hm. unfold shr. destruct n as [|p|p]; cbn [fst]; try exact Hm.
  rewrite FloatFacts.iter_pos_nat.
  induction (Pos.to_nat p) as [|k IH]; [exact Hm|].
  cbn [Nat.iter]. apply shr_1_nonneg, IH.
Qed.

Lemma shr_record_of_loc_m (m : Z) (l : location) : shr_m (shr_record_of_loc m l) = m.
Proof. destruct l as [|[]]; reflexivity. Qed.

Lemma round_nearest_even_nonneg (m : Z) (l : location) :
  0 <= m -> 0 <= round_nearest_even m l.
Proof.
  intros Hm. destruct l as [|[]]; cbn [round_nearest_even]; try lia.
  destruct (IntDef.Z.even m); lia.
Qed.

(** Rounding a magnitude gives a number of the sign asked for, never
    NaN. *)
Lemma binary_round_aux_nonneg (m e : Z) (l : location) :
  0 <= m ->
  nonnegative_number (binary_round_aux Float.prec Float.emax false m e l) = true.
Proof.
  intros Hm. unfold binary_round_aux, shr_fexp.
  pose proof (shr_nonneg (shr_record_of_loc m l) e
                (fexp Float.prec Float.emax (Zdigits2 m + e) - e)) as H1.
  rewrite shr_record_of_loc_m in H1. specialize (H1 Hm).
  destruct (shr (shr_record_of_loc m l) e _) as [mrs' e']. cbn [fst] in H1.
  set (m' := round_nearest_even (shr_m mrs') (loc_of_shr_record mrs')).
  assert (Hm' : 0 <= m') by (apply round_nearest_even_nonneg, H1).
  pose proof (shr_nonneg (shr_record_of_loc m' loc_Exact) e'
                (fexp Float.prec Float.emax (Zdigits2 m' + e') - e')) as H2.
  rewrite shr_record_of_loc_m in H2. specialize (H2 Hm').
  destruct (shr (shr_record_of_loc m' loc_Exact) e' _) as [mrs'' e'']. cbn [fst] in H2.
  destruct (shr_m mrs'') as [|p|p]; [reflexivity | | lia].
  destruct (e'' <=? Float.emax - Float.prec); reflexivity.
Qed.

Lemma of_decimal_nonneg (n k : Z) :
  0 <= k -> nonnegative_number (Float.of_decimal n k) = true.
Proof.
  intros Hk. unfold Float.of_decimal. destruct n as [|p|p]; try reflexivity.
  assert (Hpow : 0 < 10 ^ k) by (apply Z.pow_pos_nonneg; lia).
  destruct (10 ^ k) as [|q|q]; try lia.
  pose proof (FloatFacts.div_core_fraction p q 0 0) as H. cbv zeta in H.
  rewrite H. apply binary_round_aux_nonneg.
  apply Z.div_pos; [|lia]. apply Z.mul_nonneg_nonneg; [lia|].
  apply Z.pow_nonneg. lia.
Qed.

Lemma mul_thousand_nonneg (x : spec_float) :
  nonnegative_number x = true ->
  nonnegative_number (Float.mul x Float.thousand) = true.
Proof.
  unfold Float.mul, Float.thousand, SFmul.
  destruct x as [[]|[]| |[] m e]; cbn [nonnegative_number negb xorb];
    try discriminate; try reflexivity.
  intros _. apply binary_round_aux_nonneg. lia.
Qed.

Lemma div_thousand_nonneg (x : spec_float) :
  nonnegative_number x = true ->
  nonnegative_number (Float.div x Float.thousand) = true.
Proof.
  unfold Float.div, Float.thousand, SFdiv.
  destruct x as [[]|[]| |[] m e]; cbn [nonnegative_number negb xorb];
    try discriminate; try reflexivity.
  intros _.
  pose proof (FloatFacts.div_core_fraction m 8796093022208000 e (-43)) as H.
  cbv zeta in H. rewrite H. apply binary_round_aux_nonneg.
  apply Z.div_pos; [|lia]. apply Z.mul_nonneg_nonneg; [lia|].
  apply Z.pow_nonneg. lia.
Qed.

(** X16. What a poll of a valuation sensor stores is [None] or a number
    that is not NaN and whose sign bit is clear, whatever the snapshot
    holds: zero, a positive number, or positive infinity. *)
Theorem valuation_is_never_negative_or_nan (self : DiscogsSensor) (g : rng) :
  is_value_key (key (entity_description self)) = true ->
  _attr_native_value (poll_sensor (update self g)) = VNone
  \/ exists f,
       _attr_native_value (poll_sensor (update self g)) = VFloat f
       /\ nonnegative_number f = true.
Proof.
  intros Hk.
  rewrite (update_value_key nonascii_decimal rng randrange self g Hk).
  cbn [poll_sensor set_native_value _attr_native_value].
  unfold parse_value, float_of_str.
  destruct (_discogs_data self !! key (entity_description self))
    as [[| | | | [|c s] | | |]|]; try (left; reflexivity).
  destruct (clean (c :: s)) as [|c' s']; [left; reflexivity|].
  destruct (decimal_of_str (c' :: s')) as [[n k]|] eqn:Hd; [|left; reflexivity].
  right. eexists. split; [reflexivity|].
  destruct (decimal_of_str_scale nonascii_decimal _ _ _ Hd) as (_ & Hk0 & _).
  apply div_thousand_nonneg, mul_thousand_nonneg, of_decimal_nonneg, Hk0.
Qed.

(** ** The attributes *)

(** The four counts of the snapshot are [int]s throughout. *)
Lemma counts_are_int (w : Remote) (k : string) :
  k = "collection_count"%string \/ k = "wantlist_count"%string
  \/ k = SENSOR_VINYL_COUNT_TYPE \/ k = SENSOR_CD_COUNT_TYPE ->
  exists n, discogs_data (snd (build_snapshot w)) !! k = Some (VInt n).
Proof.
  intros Hk.
  assert (HP : exists n,
            discogs_data (snd (fetch_identity_and_value w initial_frame)) !! k
            = Some (VInt n)).
  { destruct Hk as [-> | [-> | [-> | ->]]];
      (apply (invariant_fetch_identity_and_value
                (fun s => exists n, discogs_data s !! _ = Some (VInt n)));
       [ intros s Hs; exact Hs
       | apply invariant_fetch_collection_value; intros; assumption
       | intros s i _ Hs; exact Hs
       | intros s i _ Hs; exact Hs
       | .. ]);
      try (intros; cbn [discogs_data set_discogs_data];
           match goal with H : exists n, _ |- _ => destruct H as [n0 Hn0] end;
           first [ rewrite lookup_insert_eq; eauto
                 | rewrite lookup_insert_ne by discriminate; eauto ]);
      rewrite initial_lookup; cbn; eauto. }
  rewrite build_snapshot_frame.
  destruct (fst (identity_and_value_block w initial_frame)); try exact HP.
  unfold format_count_step, format_count_block.
  destruct (discogs_identity _); [|exact HP].
  destruct (discogs_data _ !! "collection_count") as [[| | n | | | | |]|];
    try exact HP.
  destruct (0 <? n); [|exact HP].
  destruct (discogs_data _ !! "folders") as [[| | | | | | | [|main_folder fs]]|];
    try exact HP.
  destruct (count_formats (releases main_folder) 0 0) as [[v c] | []];
    try exact HP.
  cbn [snd discogs_data set_discogs_data add_call].
  destruct HP as [n0 Hn0].
  destruct Hk as [-> | [-> | [-> | ->]]];
    repeat first [ rewrite lookup_insert_eq | rewrite lookup_insert_ne by discriminate ];
    eauto.
Qed.

(** X17. The attributes of an entity of setup that is not the
    random-record sensor, after a poll: none when the value is [None],
    else the user of the snapshot under ['identity'] and nothing more.
    The property raises nothing, and for the four counts the value is
    never [None]. *)
Theorem plain_sensors_expose_identity_only
    (config : ConfigType) (w : Remote) (entities : list DiscogsSensor)
    (e : DiscogsSensor) (g : rng) (details : release_details) :
  setup_platform config w = Added entities ->
  In e entities ->
  key (entity_description e) <> SENSOR_RANDOM_RECORD_TYPE ->
  let self := poll_sensor (update e g) in
  exists user,
    _discogs_data e !! "user" = Some user
    /\ extra_state_attributes self details
       = match _attr_native_value self with
         | VNone => Ok None
         | _ => Ok (Some {[ ATTR_IDENTITY := user ]})
         end
    /\ (is_value_key (key (entity_description e)) = false ->
        exists n, _attr_native_value self = VInt n).
Proof.
  intros H He Hk. cbv zeta.
  pose proof (setup_added_snapshot nonascii_lower config w entities e H He) as Hs.
  destruct (fields_present nonascii_lower w "user") as [user Hu].
  { rewrite initial_lookup. cbn. eauto. }
  rewrite <- Hs in Hu. exists user. split; [exact Hu | split].
  - destruct (update_keeps_description_and_snapshot nonascii_decimal rng randrange e g)
      as [Hd Hsn].
    unfold extra_state_attributes. rewrite Hd, Hsn, Hu.
    apply String.eqb_neq in Hk. rewrite Hk.
    destruct (_attr_native_value _); reflexivity.
  - intros Hv. destruct (setup_added_entities config w entities H) as [_ Hes].
    destruct (make_entities_init _ _ _ _ _ e Hes He) as (desc & Hin & _ & Hinit).
    destruct (init_fields _ _ _ _ Hinit) as (Hd & _ & _). rewrite <- Hd in Hin.
    assert (Hint : forall k,
              k = "collection_count"%string \/ k = "wantlist_count"%string
              \/ k = SENSOR_VINYL_COUNT_TYPE \/ k = SENSOR_CD_COUNT_TYPE ->
              exists n, _discogs_data e !! k = Some (VInt n)).
    { intros k Hk0. rewrite Hs. apply counts_are_int, Hk0. }
    destruct (sensor_types_keys _ Hin) as [K | [K | [K | [K | [K | K]]]]];
      [| | | | congruence | contradiction].
    + rewrite (update_collection_key e g K).
      destruct (Hint "collection_count"%string) as [n ->]; [auto|]. exists n. reflexivity.
    + rewrite (update_wantlist_key e g K).
      destruct (Hint "wantlist_count"%string) as [n ->]; [auto|]. exists n. reflexivity.
    + rewrite (update_vinyl_key e g K).
      destruct (Hint SENSOR_VINYL_COUNT_TYPE) as [n ->]; [auto|]. exists n. reflexivity.
    + rewrite (update_cd_key e g K).
      destruct (Hint SENSOR_CD_COUNT_TYPE) as [n ->]; [auto 6|]. exists n. reflexivity.
Qed.

(** X18. After a poll of the random-record sensor on a folder list that
    is empty, or whose first folder reports no item, the sensor exposes
    no attributes at all, not even the identity. *)
Theorem empty_collection_exposes_no_attributes
    (self : DiscogsSensor) (g : rng) (folders : list CollectionFolder)
    (details : release_details) :
  key (entity_description self) = SENSOR_RANDOM_RECORD_TYPE ->
  _discogs_data self !! "folders" = Some (VFolders folders) ->
  folders = [] \/ (exists collection rest,
                     folders = collection :: rest /\ count collection <= 0) ->
  extra_state_attributes (poll_sensor (update self g)) details = Ok None.
Proof.
  intros Hk Hf He.
  rewrite (update_random_empty nonascii_decimal rng randrange self g folders Hk Hf He).
  reflexivity.
Qed.

(** X19. When the release that a poll fetched has a ['formats'] list
    that is there and empty, or a ['labels'] list that is there and
    empty, the poll itself raises nothing and stores the label of the
    release, and reading the attributes afterwards raises. *)
Theorem empty_list_of_release_breaks_attributes
    (self : DiscogsSensor) (g : rng)
    (collection : CollectionFolder) (rest : list CollectionFolder)
    (random_record : release_data) (details : release_details) :
  key (entity_description self) = SENSOR_RANDOM_RECORD_TYPE ->
  _discogs_data self !! "folders" = Some (VFolders (collection :: rest)) ->
  0 < count collection ->
  releases_getitem collection (fst (randrange g (count collection))) = Ok random_record ->
  formats random_record = Some [] \/ labels details = Some [] ->
  poll_raised (update self g) = None
  /\ _attr_native_value (poll_sensor (update self g)) = VStr (record_label random_record)
  /\ extra_state_attributes (poll_sensor (update self g)) details = Raise OtherException.
Proof.
  intros Hk Hf Hc Hr Hempty.
  rewrite (update_random_nonempty nonascii_decimal rng randrange self g collection rest
             Hk Hf Hc), Hr.
  split; [reflexivity | split; [reflexivity|]].
  unfold extra_state_attributes.
  cbn [poll_sensor set_native_value set_attrs _attr_native_value _discogs_data
       entity_description _attrs].
  destruct (_discogs_data self !! "user"); [|reflexivity].
  rewrite Hk. cbn [String.eqb Ascii.eqb Bool.eqb].
  change (String.eqb SENSOR_RANDOM_RECORD_TYPE SENSOR_RANDOM_RECORD_TYPE) with true.
  cbv iota. unfold attrs_truthy.
  destruct Hempty as [Hfm | Hl].
  - rewrite Hfm. reflexivity.
  - rewrite Hl. cbn [present]. rewrite !orb_true_r. cbn [orb].
    destruct (formats random_record) as [[|f fm]|]; reflexivity.
Qed.

(** X20. After a poll that fetched a release with a first format or no
    ['formats'] key, and a first label or no ['labels'] key, the
    attributes hold the user of the snapshot under ['identity']. When the
    release's data has any key they hold besides the release's
    ['cover_image'], its ['year'] under ['released'], and the keys
    ['cat_no'], ['format'] and ['label'], and no other key; when the data
    is an empty dict they hold the identity only. *)
Theorem fetched_release_attributes
    (self : DiscogsSensor) (g : rng)
    (collection : CollectionFolder) (rest : list CollectionFolder)
    (random_record : release_data) (details : release_details) (user : value) :
  key (entity_description self) = SENSOR_RANDOM_RECORD_TYPE ->
  _discogs_data self !! "folders" = Some (VFolders (collection :: rest)) ->
  _discogs_data self !! "user" = Some user ->
  0 < count collection ->
  releases_getitem collection (fst (randrange g (count collection))) = Ok random_record ->
  formats random_record <> Some [] ->
  labels details <> Some [] ->
  exists attributes,
    extra_state_attributes (poll_sensor (update self g)) details = Ok (Some attributes)
    /\ attributes !! ATTR_IDENTITY = Some user
    /\ (attrs_truthy random_record details = true ->
        attributes !! "cover_image" = Some (get_str (cover_image details))
        /\ attributes !! "released" = Some (get_int (year details))
        /\ is_Some (attributes !! "cat_no")
        /\ is_Some (attributes !! "format")
        /\ is_Some (attributes !! "label")
        /\ (forall k, is_Some (attributes !! k) ->
              In k [ATTR_IDENTITY; "cat_no"; "cover_image"; "format"; "label";
                    "released"]%string))
    /\ (attrs_truthy random_record details = false ->
        attributes = {[ ATTR_IDENTITY := user ]}).
Proof.
  intros Hk Hf Hu Hc Hr Hfm Hl.
  rewrite (update_random_nonempty nonascii_decimal rng randrange self g collection rest
             Hk Hf Hc), Hr.
  unfold extra_state_attributes.
  cbn [poll_sensor set_native_value set_attrs _attr_native_value _discogs_data
       entity_description _attrs].
  rewrite Hu, Hk.
  change (String.eqb SENSOR_RANDOM_RECORD_TYPE SENSOR_RANDOM_RECORD_TYPE) with true.
  cbv iota.
  destruct (attrs_truthy random_record details) eqn:Ht.
  2:{ eexists. split; [reflexivity|].
      split; [apply lookup_singleton_eq|].
      split; [intros H; discriminate H | intros _; reflexivity]. }
  assert (Hkeys : forall (a b c d f : value) (k : string),
            is_Some ((<["released"%string := a]>
                     (<["label"%string := b]>
                     (<["format"%string := c]>
                     (<["cover_image"%string := d]>
                     (<["cat_no"%string := f]>
                     ({[ ATTR_IDENTITY := user ]} : gmap string value)))))) !! k) ->
            In k [ATTR_IDENTITY; "cat_no"; "cover_image"; "format"; "label"; "released"]%string).
  { intros a b c d f k Hsome. cbn [In].
    destruct (decide (k = "released"%string)) as [-> | N1]; [auto 10|].
    destruct (decide (k = "label"%string)) as [-> | N2]; [auto 10|].
    destruct (decide (k = "format"%string)) as [-> | N3]; [auto 10|].
    destruct (decide (k = "cover_image"%string)) as [-> | N4]; [auto 10|].
    destruct (decide (k = "cat_no"%string)) as [-> | N5]; [auto 10|].
    destruct (decide (k = ATTR_IDENTITY)) as [-> | N6]; [auto 10|].
    rewrite !lookup_insert_ne in Hsome by congruence.
    rewrite lookup_singleton_ne in Hsome by congruence.
    destruct Hsome as [? Hsome]. discriminate Hsome. }
  destruct (formats random_record) as [[|f fm]|]; [congruence | |];
    (destruct (labels details) as [[|l ls]|]; [congruence | |]);
    eexists; (split; [reflexivity|]);
    (split; [rewrite !lookup_insert_ne by discriminate; apply lookup_singleton_eq|]);
    (split; [|intros H; discriminate H]); intros _;
    (split; [rewrite !lookup_insert_ne by discriminate; apply lookup_insert_eq|]);
    (split; [apply lookup_insert_eq|]);
    (split; [rewrite !lookup_insert_ne by discriminate; rewrite lookup_insert_eq; eauto|]);
    (split; [rewrite !lookup_insert_ne by discriminate; rewrite lookup_insert_eq; eauto|]);
    (split; [rewrite !lookup_insert_ne by discriminate; rewrite lookup_insert_eq; eauto|]);
    apply Hkeys.
Qed.

End Coverage.

(** ** The further properties at sample inputs *)

Lemma added_entities_of (o : outcome) : is_added o = true -> o = Added (entities_of o).
Proof. destruct o; try discriminate. reflexivity. Qed.

(** Setup hands entities to the host at a sample input. *)
Ltac setup_added :=
  match goal with
  | |- ?o = Added ?es =>
      let H := fresh "H" in
      assert (H : is_added o = true) by (vm_compute; reflexivity);
      unfold es; try unfold entities_of;
      revert H; generalize o;
      let o' := fresh "o" in
      intros o' H; destruct o'; [reflexivity | discriminate H | discriminate H]
  end.

Lemma sample_entities_added :
  setup_platform no_lower sample_config sample_remote_value_down = Added sample_entities.
Proof. setup_added. Qed.

Lemma sample_entities_two_added :
  setup_platform no_lower sample_config_two sample_remote_four = Added sample_entities_two.
Proof. setup_added. Qed.

Lemma sample_entities_broken_page_added :
  setup_platform no_lower sample_config sample_remote_broken_page
  = Added sample_entities_broken_page.
Proof. setup_added. Qed.

Lemma sample_entities_no_median_added :
  setup_platform no_lower sample_config sample_remote_no_median
  = Added sample_entities_no_median.
Proof. setup_added. Qed.

Lemma first_entity_in (entities : list DiscogsSensor) :
  (0 < length entities)%nat -> In (first_entity entities) entities.
Proof. destruct entities; cbn; [lia | auto]. Qed.

Lemma sample_entities_length : length sample_entities = 8%nat.
Proof. vm_compute. reflexivity. Qed.

Lemma sample_entity_in : In sample_entity sample_entities.
Proof.
  unfold sample_entity. pose proof sample_entities_length as H.
  destruct sample_entities; [discriminate H | left; reflexivity].
Qed.

Lemma sample_min_entity_in : In sample_min_entity sample_entities.
Proof.
  unfold sample_min_entity. apply nth_In. rewrite sample_entities_length. lia.
Qed.

Lemma first_broken_page_entity_in :
  In (first_entity sample_entities_broken_page) sample_entities_broken_page.
Proof.
  apply first_entity_in.
  assert (H : length sample_entities_broken_page = 8%nat) by (vm_compute; reflexivity).
  rewrite H. lia.
Qed.

Lemma first_no_median_entity_in :
  In (first_entity sample_entities_no_median) sample_entities_no_median.
Proof.
  apply first_entity_in.
  assert (H : length sample_entities_no_median = 8%nat) by (vm_compute; reflexivity).
  rewrite H. lia.
Qed.

Lemma sample_entity_key : key (entity_description sample_entity) = SENSOR_COLLECTION_TYPE.
Proof. vm_compute. reflexivity. Qed.

Lemma only_interrupts_leave_setup_witness :
  setup_platform no_lower sample_config sample_remote_interrupted = Escaped NonException
  /\ NonException = NonException.
Proof.
  assert (H1 : setup_platform no_lower sample_config sample_remote_interrupted
               = Escaped NonException) by reflexivity.
  split; [exact H1|].
  exact (only_interrupts_leave_setup no_lower sample_config sample_remote_interrupted
           NonException H1).
Defined.

Lemma entities_follow_monitored_conditions_witness :
  setup_platform no_lower sample_config_two sample_remote_four = Added sample_entities_two
  /\ map (fun e => key (entity_description e)) sample_entities_two
     = [SENSOR_COLLECTION_TYPE; SENSOR_CD_COUNT_TYPE].
Proof.
  pose proof sample_entities_two_added as H1.
  split; [exact H1|].
  exact (proj1 (entities_follow_monitored_conditions no_lower sample_config_two
                  sample_remote_four sample_entities_two H1)).
Defined.

Lemma monetary_entities_carry_currency_witness :
  setup_platform no_lower sample_config sample_remote_value_down = Added sample_entities
  /\ In sample_min_entity sample_entities
  /\ exists symbol,
       discogs_data (snd (build_snapshot no_lower sample_remote_value_down))
         !! "currency_symbol" = Some symbol
       /\ ((device_class sample_min_entity = Some "monetary"%string
            /\ _attr_native_unit_of_measurement sample_min_entity = Some symbol)
           \/ (device_class sample_min_entity = None
               /\ _attr_native_unit_of_measurement sample_min_entity = None)).
Proof.
  pose proof sample_entities_added as H1.
  pose proof sample_min_entity_in as H2.
  split; [exact H1 | split; [exact H2|]].
  exact (monetary_entities_carry_currency no_lower sample_config
           sample_remote_value_down sample_entities sample_min_entity H1 H2).
Defined.

Lemma failed_identity_keeps_defaults_witness :
  identity sample_remote_offline = Raise RequestException
  /\ RequestException <> DiscogsHTTPError
  /\ RequestException <> NonException
  /\ exists entities,
       setup_platform no_lower sample_config sample_remote_offline = Added entities
       /\ calls (snd (build_snapshot no_lower sample_remote_offline)) = [CallIdentity]
       /\ (forall e, In e entities -> _discogs_data e = discogs_data initial_frame).
Proof.
  assert (H1 : identity sample_remote_offline = Raise RequestException) by reflexivity.
  assert (H2 : RequestException <> DiscogsHTTPError) by discriminate.
  assert (H3 : RequestException <> NonException) by discriminate.
  split; [exact H1 | split; [exact H2 | split; [exact H3|]]].
  exact (failed_identity_keeps_defaults no_lower sample_config sample_remote_offline
           RequestException H1 H2 H3).
Defined.

Lemma entities_poll_from_snapshot_witness :
  setup_platform no_lower sample_config sample_remote_value_down = Added sample_entities
  /\ In sample_entity sample_entities
  /\ key (entity_description sample_entity) <> SENSOR_RANDOM_RECORD_TYPE
  /\ poll_raised (update no_decimal Z counter_randrange sample_entity 0) = None
  /\ poll_fetched (update no_decimal Z counter_randrange sample_entity 0) = None
  /\ poll_rng (update no_decimal Z counter_randrange sample_entity 0) = 0
  /\ _attrs (poll_sensor (update no_decimal Z counter_randrange sample_entity 0)) = None.
Proof.
  pose proof sample_entities_added as H1.
  pose proof sample_entity_in as H2.
  assert (H3 : key (entity_description sample_entity) <> SENSOR_RANDOM_RECORD_TYPE)
    by (rewrite sample_entity_key; discriminate).
  split; [exact H1 | split; [exact H2 | split; [exact H3|]]].
  exact (entities_poll_from_snapshot no_decimal no_lower Z counter_randrange
           sample_config sample_remote_value_down sample_entities sample_entity 0
           H1 H2 H3).
Defined.

Lemma counters_report_identity_witness :
  setup_platform no_lower sample_config sample_remote_value_down = Added sample_entities
  /\ In sample_entity sample_entities
  /\ key (entity_description sample_entity) = SENSOR_COLLECTION_TYPE
  /\ _attr_native_value
       (poll_sensor (update no_decimal Z counter_randrange sample_entity 0)) = VInt 4.
Proof.
  pose proof sample_entities_added as H1.
  pose proof sample_entity_in as H2.
  pose proof sample_entity_key as H3.
  split; [exact H1 | split; [exact H2 | split; [exact H3|]]].
  exact (proj1 (proj2
           (counters_report_identity no_decimal no_lower Z counter_randrange
              sample_config sample_remote_value_down sample_entities sample_entity 0
              (sample_identity 4 [folder_of_items 4 sample_items] None
                 (Some (VDict [(str "curr_abbr", VStr (str "EUR"))])))
              (VStr (str "Ada")) (VStr (str "ada"))
              [folder_of_items 4 sample_items] 4 2
              H1 H2 eq_refl eq_refl eq_refl eq_refl eq_refl eq_refl)) H3).
Defined.

Lemma format_counts_bounded_witness :
  count_formats no_lower (map Ok sample_items) 0 0 = Ok (2, 1)
  /\ 0 <= 2 /\ 0 <= 1 /\ 2 + 1 <= Z.of_nat (length (map (@Ok release_data) sample_items)).
Proof.
  assert (H1 : count_formats no_lower (map Ok sample_items) 0 0 = Ok (2, 1))
    by (vm_compute; reflexivity).
  split; [exact H1|].
  exact (format_counts_bounded no_lower (map Ok sample_items) 2 1 H1).
Defined.

Lemma setup_stores_format_counts_witness :
  setup_platform no_lower sample_config sample_remote_value_down = Added sample_entities
  /\ In sample_entity sample_entities
  /\ 0 < 4
  /\ _discogs_data sample_entity !! SENSOR_VINYL_COUNT_TYPE
     = Some (VInt (count_matching no_lower "vinyl" sample_items))
  /\ _discogs_data sample_entity !! SENSOR_CD_COUNT_TYPE
     = Some (VInt (count_matching no_lower "cd" sample_items))
  /\ In CallReleases (calls (snd (build_snapshot no_lower sample_remote_value_down))).
Proof.
  pose proof sample_entities_added as H1.
  pose proof sample_entity_in as H2.
  assert (H3 : 0 < 4) by lia.
  split; [exact H1 | split; [exact H2 | split; [exact H3|]]].
  exact (setup_stores_format_counts no_lower sample_config sample_remote_value_down
           sample_entities sample_entity
           (sample_identity 4 [folder_of_items 4 sample_items] None
              (Some (VDict [(str "curr_abbr", VStr (str "EUR"))])))
           (VStr (str "Ada")) (VStr (str "ada")) [] 4 2 4 sample_items
           H1 H2 eq_refl eq_refl eq_refl eq_refl eq_refl eq_refl H3).
Defined.

Lemma interrupted_walk_drops_counts_witness :
  setup_platform no_lower sample_config sample_remote_broken_page
  = Added sample_entities_broken_page
  /\ In (first_entity sample_entities_broken_page) sample_entities_broken_page
  /\ releases folder_with_broken_page
     = map Ok (firstn 2 sample_items)
       ++ Raise DiscogsHTTPError :: [Ok (item_of_format "CD")]
  /\ count_matching no_lower "vinyl" (firstn 2 sample_items) = 1
  /\ _discogs_data (first_entity sample_entities_broken_page) !! SENSOR_VINYL_COUNT_TYPE
     = Some (VInt 0)
  /\ _discogs_data (first_entity sample_entities_broken_page) !! SENSOR_CD_COUNT_TYPE
     = Some (VInt 0).
Proof.
  pose proof sample_entities_broken_page_added as H1.
  pose proof first_broken_page_entity_in as H2.
  assert (H3 : releases folder_with_broken_page
               = map Ok (firstn 2 sample_items)
                 ++ Raise DiscogsHTTPError :: [Ok (item_of_format "CD")])
    by reflexivity.
  split; [exact H1 | split; [exact H2 | split; [exact H3 | split; [reflexivity|]]]].
  exact (interrupted_walk_drops_counts no_lower sample_config sample_remote_broken_page
           sample_entities_broken_page (first_entity sample_entities_broken_page)
           (sample_identity 4 [folder_with_broken_page] None None)
           (VStr (str "Ada")) (VStr (str "ada")) folder_with_broken_page [] 4 2
           (firstn 2 sample_items) DiscogsHTTPError [Ok (item_of_format "CD")]
           H1 H2 eq_refl eq_refl eq_refl eq_refl eq_refl eq_refl H3).
Defined.

Lemma valuation_figures_from_response_witness :
  setup_platform no_lower sample_config sample_remote_no_median
  = Added sample_entities_no_median
  /\ In (first_entity sample_entities_no_median) sample_entities_no_median
  /\ _discogs_data (first_entity sample_entities_no_median) !! "collection_value_min"
     = Some (VStr (str "1.00"))
  /\ _discogs_data (first_entity sample_entities_no_median) !! "collection_value_median"
     = Some (VStr (str "0.00"))
  /\ _discogs_data (first_entity sample_entities_no_median) !! "collection_value_max"
     = Some (VStr (str "3.00")).
Proof.
  pose proof sample_entities_no_median_added as H1.
  pose proof first_no_median_entity_in as H2.
  split; [exact H1 | split; [exact H2|]].
  exact (valuation_figures_from_response no_lower sample_config sample_remote_no_median
           sample_entities_no_median (first_entity sample_entities_no_median)
           (sample_identity 0 [] None None)
           (VStr (str "Ada")) (VStr (str "ada")) [] 0 2
           (VDict [ (str "minimum", VStr (str "1.00"));
                    (str "maximum", VStr (str "3.00")) ])
           H1 H2 eq_refl eq_refl eq_refl eq_refl eq_refl eq_refl eq_refl).
Defined.

Lemma polls_keep_what_init_set_witness :
  polled no_decimal Z counter_randrange (fresh_random_sensor sample_snapshot)
    (poll_sensor (update no_decimal Z counter_randrange
                    (fresh_random_sensor sample_snapshot) 7))
  /\ _attr_name (poll_sensor (update no_decimal Z counter_randrange
                                (fresh_random_sensor sample_snapshot) 7))
     = str "Discogs Random Record".
Proof.
  assert (H1 : polled no_decimal Z counter_randrange (fresh_random_sensor sample_snapshot)
                 (poll_sensor (update no_decimal Z counter_randrange
                                 (fresh_random_sensor sample_snapshot) 7))).
  { apply polled_step. apply polled_refl. }
  split; [exact H1|].
  exact (proj1 (proj2 (proj2
           (polls_keep_what_init_set no_decimal Z counter_randrange
              (fresh_random_sensor sample_snapshot)
              (poll_sensor (update no_decimal Z counter_randrange
                              (fresh_random_sensor sample_snapshot) 7))
              H1)))).
Defined.

Lemma failed_fetch_leaves_update_witness :
  key (entity_description (fresh_random_sensor sample_snapshot_broken))
  = SENSOR_RANDOM_RECORD_TYPE
  /\ _discogs_data (fresh_random_sensor sample_snapshot_broken) !! "folders"
     = Some (VFolders [folder_with_broken_page])
  /\ 0 < count folder_with_broken_page
  /\ releases_getitem folder_with_broken_page
       (fst (counter_randrange 2 (count folder_with_broken_page)))
     = Raise DiscogsHTTPError
  /\ poll_raised (update no_decimal Z counter_randrange
                    (fresh_random_sensor sample_snapshot_broken) 2)
     = Some DiscogsHTTPError
  /\ poll_sensor (update no_decimal Z counter_randrange
                    (fresh_random_sensor sample_snapshot_broken) 2)
     = fresh_random_sensor sample_snapshot_broken
  /\ poll_rng (update no_decimal Z counter_randrange
                 (fresh_random_sensor sample_snapshot_broken) 2)
     = snd (counter_randrange 2 (count folder_with_broken_page)).
Proof.
  assert (H1 : key (entity_description (fresh_random_sensor sample_snapshot_broken))
               = SENSOR_RANDOM_RECORD_TYPE) by reflexivity.
  assert (H2 : _discogs_data (fresh_random_sensor sample_snapshot_broken) !! "folders"
               = Some (VFolders [folder_with_broken_page]))
    by (vm_compute; reflexivity).
  assert (H3 : 0 < count folder_with_broken_page) by (cbn; lia).
  assert (H4 : releases_getitem folder_with_broken_page
                 (fst (counter_randrange 2 (count folder_with_broken_page)))
               = Raise DiscogsHTTPError) by (vm_compute; reflexivity).
  split; [exact H1 | split; [exact H2 | split; [exact H3 | split; [exact H4|]]]].
  exact (proj1 (failed_fetch_leaves_update no_decimal Z counter_randrange
                  (fresh_random_sensor sample_snapshot_broken) 2
                  folder_with_broken_page [] DiscogsHTTPError H1 H2 H3) H4).
Defined.

Lemma polls_never_refresh_witness :
  is_value_key (key (entity_description
                       (sensor_on SENSOR_COLLECTION_VALUE_MEDIAN_TYPE sample_snapshot))) = true
  /\ polled no_decimal Z counter_randrange
       (poll_sensor (update no_decimal Z counter_randrange
                       (sensor_on SENSOR_COLLECTION_VALUE_MEDIAN_TYPE sample_snapshot) 0))
       (poll_sensor
          (update no_decimal Z counter_randrange
             (poll_sensor (update no_decimal Z counter_randrange
                             (sensor_on SENSOR_COLLECTION_VALUE_MEDIAN_TYPE sample_snapshot) 0))
             1))
  /\ _attr_native_value
       (poll_sensor
          (update no_decimal Z counter_randrange
             (poll_sensor
                (update no_decimal Z counter_randrange
                   (poll_sensor (update no_decimal Z counter_randrange
                                   (sensor_on SENSOR_COLLECTION_VALUE_MEDIAN_TYPE
                                      sample_snapshot) 0))
                   1))
             2))
     = _attr_native_value
         (poll_sensor (update no_decimal Z counter_randrange
                         (sensor_on SENSOR_COLLECTION_VALUE_MEDIAN_TYPE sample_snapshot) 0)).
Proof.
  assert (H1 : is_value_key
                 (key (entity_description
                         (sensor_on SENSOR_COLLECTION_VALUE_MEDIAN_TYPE sample_snapshot)))
               = true) by reflexivity.
  assert (H2 : polled no_decimal Z counter_randrange
       (poll_sensor (update no_decimal Z counter_randrange
                       (sensor_on SENSOR_COLLECTION_VALUE_MEDIAN_TYPE sample_snapshot) 0))
       (poll_sensor
          (update no_decimal Z counter_randrange
             (poll_sensor (update no_decimal Z counter_randrange
                             (sensor_on SENSOR_COLLECTION_VALUE_MEDIAN_TYPE sample_snapshot) 0))
             1))).
  { apply polled_step. apply polled_refl. }
  split; [exact H1 | split; [exact H2|]].
  exact (proj2 (polls_never_refresh no_decimal Z counter_randrange
                  (sensor_on SENSOR_COLLECTION_VALUE_MEDIAN_TYPE sample_snapshot)
                  _ 0 2
                  (or_intror (or_intror (or_intror (or_intror H1)))) H2)).
Defined.

Lemma valuation_is_number_iff_one_point_witness :
  is_value_key (key (entity_description
                       (sensor_on SENSOR_COLLECTION_VALUE_MIN_TYPE sample_snapshot_european)))
  = true
  /\ sample_snapshot_european !! SENSOR_COLLECTION_VALUE_MIN_TYPE
     = Some (VStr sample_european)
  /\ count_points (clean no_decimal sample_european) = 2%nat
  /\ ~ (_attr_native_value
          (poll_sensor
             (update no_decimal Z counter_randrange
                (sensor_on SENSOR_COLLECTION_VALUE_MIN_TYPE sample_snapshot_european) 0))
        <> VNone).
Proof.
  assert (H1 : is_value_key
                 (key (entity_description
                         (sensor_on SENSOR_COLLECTION_VALUE_MIN_TYPE
                            sample_snapshot_european))) = true) by reflexivity.
  assert (H2 : sample_snapshot_european !! SENSOR_COLLECTION_VALUE_MIN_TYPE
               = Some (VStr sample_european)) by (vm_compute; reflexivity).
  assert (H3 : count_points (clean no_decimal sample_european) = 2%nat) by reflexivity.
  split; [exact H1 | split; [exact H2 | split; [exact H3|]]].
  intros Hn.
  destruct (proj1 (proj1 (valuation_is_number_iff_one_point no_decimal Z counter_randrange
                     (sensor_on SENSOR_COLLECTION_VALUE_MIN_TYPE sample_snapshot_european) 0
                     sample_european H1 H2)) Hn) as [Hp _].
  rewrite H3 in Hp. lia.
Defined.

Lemma valuation_is_never_negative_or_nan_witness :
  is_value_key (key (entity_description
                       (sensor_on SENSOR_COLLECTION_VALUE_MEDIAN_TYPE sample_snapshot))) = true
  /\ (_attr_native_value
        (poll_sensor (update no_decimal Z counter_randrange
                        (sensor_on SENSOR_COLLECTION_VALUE_MEDIAN_TYPE sample_snapshot) 0))
      = VNone
      \/ exists f,
           _attr_native_value
             (poll_sensor (update no_decimal Z counter_randrange
                             (sensor_on SENSOR_COLLECTION_VALUE_MEDIAN_TYPE sample_snapshot) 0))
           = VFloat f
           /\ nonnegative_number f = true).
Proof.
  assert (H1 : is_value_key
                 (key (entity_description
                         (sensor_on SENSOR_COLLECTION_VALUE_MEDIAN_TYPE sample_snapshot)))
               = true) by reflexivity.
  split; [exact H1|].
  exact (valuation_is_never_negative_or_nan no_decimal Z counter_randrange
           (sensor_on SENSOR_COLLECTION_VALUE_MEDIAN_TYPE sample_snapshot) 0 H1).
Defined.

Lemma plain_sensors_expose_identity_only_witness :
  setup_platform no_lower sample_config sample_remote_value_down = Added sample_entities
  /\ In sample_entity sample_entities
  /\ key (entity_description sample_entity) <> SENSOR_RANDOM_RECORD_TYPE
  /\ exists user,
       _discogs_data sample_entity !! "user" = Some user
       /\ extra_state_attributes
            (poll_sensor (update no_decimal Z counter_randrange sample_entity 0))
            no_details
          = match _attr_native_value
                    (poll_sensor (update no_decimal Z counter_randrange sample_entity 0))
            with
            | VNone => Ok None
            | _ => Ok (Some {[ ATTR_IDENTITY := user ]})
            end
       /\ (is_value_key (key (entity_description sample_entity)) = false ->
           exists n,
             _attr_native_value
               (poll_sensor (update no_decimal Z counter_randrange sample_entity 0))
             = VInt n).
Proof.
  pose proof sample_entities_added as H1.
  pose proof sample_entity_in as H2.
  assert (H3 : key (entity_description sample_entity) <> SENSOR_RANDOM_RECORD_TYPE)
    by (rewrite sample_entity_key; discriminate).
  split; [exact H1 | split; [exact H2 | split; [exact H3|]]].
  exact (plain_sensors_expose_identity_only no_decimal no_lower Z counter_randrange
           sample_config sample_remote_value_down sample_entities sample_entity 0
           no_details H1 H2 H3).
Defined.

Lemma empty_collection_exposes_no_attributes_witness :
  key (entity_description (fresh_random_sensor (discogs_data initial_frame)))
  = SENSOR_RANDOM_RECORD_TYPE
  /\ _discogs_data (fresh_random_sensor (discogs_data initial_frame)) !! "folders"
     = Some (VFolders [])
  /\ extra_state_attributes
       (poll_sensor (update no_decimal Z counter_randrange
                       (fresh_random_sensor (discogs_data initial_frame)) 0))
       no_details
     = Ok None.
Proof.
  assert (H1 : key (entity_description (fresh_random_sensor (discogs_data initial_frame)))
               = SENSOR_RANDOM_RECORD_TYPE) by reflexivity.
  assert (H2 : _discogs_data (fresh_random_sensor (discogs_data initial_frame)) !! "folders"
               = Some (VFolders [])) by (vm_compute; reflexivity).
  split; [exact H1 | split; [exact H2|]].
  exact (empty_collection_exposes_no_attributes no_decimal Z counter_randrange
           (fresh_random_sensor (discogs_data initial_frame)) 0 [] no_details
           H1 H2 (or_introl eq_refl)).
Defined.

Lemma empty_list_of_release_breaks_attributes_witness :
  key (entity_description (fresh_random_sensor sample_snapshot_no_formats))
  = SENSOR_RANDOM_RECORD_TYPE
  /\ _discogs_data (fresh_random_sensor sample_snapshot_no_formats) !! "folders"
     = Some (VFolders [folder_without_formats])
  /\ 0 < count folder_without_formats
  /\ releases_getitem folder_without_formats
       (fst (counter_randrange 0 (count folder_without_formats)))
     = Ok release_without_formats
  /\ formats release_without_formats = Some []
  /\ poll_raised (update no_decimal Z counter_randrange
                    (fresh_random_sensor sample_snapshot_no_formats) 0) = None
  /\ _attr_native_value
       (poll_sensor (update no_decimal Z counter_randrange
                       (fresh_random_sensor sample_snapshot_no_formats) 0))
     = VStr (record_label release_without_formats)
  /\ extra_state_attributes
       (poll_sensor (update no_decimal Z counter_randrange
                       (fresh_random_sensor sample_snapshot_no_formats) 0))
       no_details
     = Raise OtherException.
Proof.
  assert (H1 : key (entity_description (fresh_random_sensor sample_snapshot_no_formats))
               = SENSOR_RANDOM_RECORD_TYPE) by reflexivity.
  assert (H2 : _discogs_data (fresh_random_sensor sample_snapshot_no_formats) !! "folders"
               = Some (VFolders [folder_without_formats]))
    by (vm_compute; reflexivity).
  assert (H3 : 0 < count folder_without_formats) by (cbn; lia).
  assert (H4 : releases_getitem folder_without_formats
                 (fst (counter_randrange 0 (count folder_without_formats)))
               = Ok release_without_formats) by reflexivity.
  assert (H5 : formats release_without_formats = Some []) by reflexivity.
  split; [exact H1 | split; [exact H2 | split; [exact H3 | split; [exact H4 |
    split; [exact H5|]]]]].
  exact (empty_list_of_release_breaks_attributes no_decimal Z counter_randrange
           (fresh_random_sensor sample_snapshot_no_formats) 0
           folder_without_formats [] release_without_formats no_details
           H1 H2 H3 H4 (or_introl H5)).
Defined.

Lemma fetched_release_attributes_witness :
  key (entity_description (fresh_random_sensor sample_snapshot)) = SENSOR_RANDOM_RECORD_TYPE
  /\ _discogs_data (fresh_random_sensor sample_snapshot) !! "folders"
     = Some (VFolders [folder_of_items 4 sample_items])
  /\ _discogs_data (fresh_random_sensor sample_snapshot) !! "user"
     = Some (VStr (str "Unknown"))
  /\ 0 < count (folder_of_items 4 sample_items)
  /\ releases_getitem (folder_of_items 4 sample_items)
       (fst (counter_randrange 0 (count (folder_of_items 4 sample_items))))
     = Ok (item_of_format "Vinyl")
  /\ formats (item_of_format "Vinyl") <> Some []
  /\ labels sample_details <> Some []
  /\ attrs_truthy (item_of_format "Vinyl") sample_details = true
  /\ exists attributes,
       extra_state_attributes
         (poll_sensor (update no_decimal Z counter_randrange
                         (fresh_random_sensor sample_snapshot) 0))
         sample_details
       = Ok (Some attributes)
       /\ attributes !! "released" = Some (VInt 1957).
Proof.
  assert (H1 : key (entity_description (fresh_random_sensor sample_snapshot))
               = SENSOR_RANDOM_RECORD_TYPE) by reflexivity.
  assert (H2 : _discogs_data (fresh_random_sensor sample_snapshot) !! "folders"
               = Some (VFolders [folder_of_items 4 sample_items]))
    by (vm_compute; reflexivity).
  assert (H3 : _discogs_data (fresh_random_sensor sample_snapshot) !! "user"
               = Some (VStr (str "Unknown"))) by (vm_compute; reflexivity).
  assert (H4 : 0 < count (folder_of_items 4 sample_items)) by (cbn; lia).
  assert (H5 : releases_getitem (folder_of_items 4 sample_items)
                 (fst (counter_randrange 0 (count (folder_of_items 4 sample_items))))
               = Ok (item_of_format "Vinyl")) by reflexivity.
  assert (H6 : formats (item_of_format "Vinyl") <> Some []) by discriminate.
  assert (H7 : labels sample_details <> Some []) by discriminate.
  assert (H8 : attrs_truthy (item_of_format "Vinyl") sample_details = true) by reflexivity.
  split; [exact H1 | split; [exact H2 | split; [exact H3 | split; [exact H4 |
    split; [exact H5 | split; [exact H6 | split; [exact H7 | split; [exact H8|]]]]]]]].
  destruct (fetched_release_attributes no_decimal Z counter_randrange
              (fresh_random_sensor sample_snapshot) 0
              (folder_of_items 4 sample_items) [] (item_of_format "Vinyl")
              sample_details (VStr (str "Unknown")) H1 H2 H3 H4 H5 H6 H7)
    as (attributes & Ha & _ & Hsix & _).
  exists attributes. split; [exact Ha | exact (proj1 (proj2 (Hsix H8)))].
Defined.
